(** * Flow orchestration core of the anxiety-support bot

    A shallow embedding of the crisis screen ([src/safety/crisis_detector.py]),
    the base clinical flow ([src/flows/base_flow.py]), the panic flow
    ([src/flows/panic/acute_anxiety_flow.py]), the step scripts of the eight
    scenario flows and the flow manager
    ([src/flows/clinical_flow_manager.py]).

    Conventions of the embedding.
    - A Python [str] is a [string]; each character is read as a code point
      below 256, and case mapping, white space and the regular-expression
      class [\w] follow Python's tables on that range.
    - A Python [dict] literal handed around as a reply is an association
      list from keys to values of the small universe [pyval]; [d.get(k)],
      [d.get(k, default)] and truthiness are [dict_get], [dict_get_default]
      and [truthy].
    - [datetime.now()] is an explicit argument [now] (in seconds); one call
      of a modelled method reads the clock once.
    - A raised exception is [None] in the [option] monad. *)

From Stdlib Require Import Ascii String QArith.
From stdpp Require Import gmap strings list pretty.

Open Scope string_scope.
Open Scope list_scope.
Open Scope nat_scope.

(** ** Python strings *)

Module Str.

Definition code (c : ascii) : nat := nat_of_ascii c.

Definition in_range (lo hi : nat) (c : ascii) : bool :=
  (lo <=? code c) && (code c <=? hi).

(** [str.lower] on one character: A-Z and the Latin-1 capitals. *)
Definition lower_char (c : ascii) : ascii :=
  if in_range 65 90 c then ascii_of_nat (code c + 32)
  else if in_range 192 222 c && negb (code c =? 215)
       then ascii_of_nat (code c + 32)
  else c.

Fixpoint lower (s : string) : string :=
  match s with
  | EmptyString => EmptyString
  | String c r => String (lower_char c) (lower r)
  end.

(** [str.isspace] on one character. *)
Definition is_space_char (c : ascii) : bool :=
  in_range 9 13 c || in_range 28 32 c || (code c =? 133) || (code c =? 160).

Fixpoint lstrip (s : string) : string :=
  match s with
  | EmptyString => EmptyString
  | String c r => if is_space_char c then lstrip r else s
  end.

Fixpoint rstrip (s : string) : string :=
  match s with
  | EmptyString => EmptyString
  | String c r =>
      match rstrip r with
      | EmptyString => if is_space_char c then EmptyString
                       else String c EmptyString
      | r' => String c r'
      end
  end.

(** [s.strip()] *)
Definition strip (s : string) : string := rstrip (lstrip s).

Fixpoint starts_with (p s : string) : bool :=
  match p, s with
  | EmptyString, _ => true
  | String a p', String b s' => if Ascii.eqb a b then starts_with p' s' else false
  | String _ _, EmptyString => false
  end.

(** [needle in hay] *)
Fixpoint contains (needle hay : string) : bool :=
  starts_with needle hay ||
  match hay with
  | EmptyString => false
  | String _ r => contains needle r
  end.

(** [any(w in s for w in ws)] *)
Definition any_in (ws : list string) (s : string) : bool :=
  existsb (fun w => contains w s) ws.

(** [s[:n]] *)
Fixpoint take (n : nat) (s : string) : string :=
  match n, s with
  | S k, String c r => String c (take k r)
  | _, _ => EmptyString
  end.

Definition nl : string := String (ascii_of_nat 10) EmptyString.

End Str.

(** ** The fragment of [re] the sources use: [\b(a1|...|an)\b] *)

Module Re.

(** [\w] in a [str] pattern: alphanumeric code points and the underscore. *)
Definition is_word_char (c : ascii) : bool :=
  Str.in_range 48 57 c || Str.in_range 65 90 c || Str.in_range 97 122 c
  || (Str.code c =? 95)
  || (Str.code c =? 170) || Str.in_range 178 179 c || (Str.code c =? 181)
  || Str.in_range 185 186 c || Str.in_range 188 190 c
  || Str.in_range 192 214 c || Str.in_range 216 246 c
  || Str.in_range 248 255 c.

Definition is_word (o : option ascii) : bool :=
  match o with
  | Some c => is_word_char c
  | None => false
  end.

(** [\b] between two neighbouring positions ([None] is a string end). *)
Definition boundary (prev next : option ascii) : bool :=
  xorb (is_word prev) (is_word next).

Inductive atom : Type :=
  | Lit (c : ascii)
  | Range (lo hi : ascii).

(** One branch of the alternation. *)
Definition branch : Type := list atom.

Fixpoint lit (s : string) : branch :=
  match s with
  | EmptyString => []
  | String c r => Lit c :: lit r
  end.

Definition atom_matches (ignorecase : bool) (a : atom) (c : ascii) : bool :=
  match a with
  | Lit p =>
      if ignorecase then Ascii.eqb (Str.lower_char p) (Str.lower_char c)
      else Ascii.eqb p c
  | Range lo hi => Str.in_range (Str.code lo) (Str.code hi) c
  end.

Definition head (s : string) : option ascii :=
  match s with
  | EmptyString => None
  | String c _ => Some c
  end.

(** Match a branch at the front of [s]; on success give the matched text,
    the last character consumed (or [prev] when nothing was) and the rest. *)
Fixpoint match_branch (ic : bool) (b : branch) (prev : option ascii) (s : string)
  : option (string * option ascii * string) :=
  match b with
  | [] => Some (EmptyString, prev, s)
  | a :: b' =>
      match s with
      | EmptyString => None
      | String c r =>
          if atom_matches ic a c then
            match match_branch ic b' (Some c) r with
            | Some (m, last, rest) => Some (String c m, last, rest)
            | None => None
            end
          else None
      end
  end.

(** The branches are tried in order; a branch whose trailing [\b] fails is
    abandoned for the next one. *)
Fixpoint first_branch (ic : bool) (bs : list branch) (prev : option ascii)
  (s : string) : option string :=
  match bs with
  | [] => None
  | b :: bs' =>
      match match_branch ic b prev s with
      | Some (m, last, rest) =>
          if boundary last (head rest) then Some m
          else first_branch ic bs' prev s
      | None => first_branch ic bs' prev s
      end
  end.

Definition match_here (ic : bool) (bs : list branch) (prev : option ascii)
  (s : string) : option string :=
  if boundary prev (head s) then first_branch ic bs prev s else None.

(** Left-to-right scan for non-overlapping matches; [skip] counts the
    characters of the last match still to be passed over. *)
Fixpoint scan (ic : bool) (bs : list branch) (prev : option ascii) (skip : nat)
  (s : string) : list string :=
  match s with
  | EmptyString => []
  | String c r =>
      match skip with
      | S k => scan ic bs (Some c) k r
      | O =>
          match match_here ic bs prev s with
          | Some m => m :: scan ic bs (Some c) (String.length m - 1) r
          | None => scan ic bs (Some c) 0 r
          end
      end
  end.

(** [re.findall(r'\b(b1|...|bn)\b', s, flags)] *)
Definition findall (ic : bool) (bs : list branch) (s : string) : list string :=
  scan ic bs None 0 s.

End Re.

(** ** Python values and dictionaries *)

#[warnings="-register-all"] Inductive pyval : Type :=
  | VNone
  | VBool (b : bool)
  | VInt (z : Z)
  | VRat (q : Q)
  | VStr (s : string)
  | VList (l : list pyval)
  | VDict (d : list (string * pyval)).

Definition pydict : Type := list (string * pyval).

Fixpoint dict_get (k : string) (d : pydict) : option pyval :=
  match d with
  | [] => None
  | (k', v) :: r => if String.eqb k k' then Some v else dict_get k r
  end.

(** [d.get(k, default)] *)
Definition dict_get_default (k : string) (default : pyval) (d : pydict) : pyval :=
  match dict_get k d with
  | Some v => v
  | None => default
  end.

(** [d[k] = v]: an existing key keeps its place, a new one goes last. *)
Fixpoint dict_set (k : string) (v : pyval) (d : pydict) : pydict :=
  match d with
  | [] => [(k, v)]
  | (k', v') :: r =>
      if String.eqb k k' then (k, v) :: r else (k', v') :: dict_set k v r
  end.

(** Truth value of an object in a condition. *)
Definition truthy (v : pyval) : bool :=
  match v with
  | VNone => false
  | VBool b => b
  | VInt z => negb (z =? 0)%Z
  | VRat q => negb (Qeq_bool q 0)
  | VStr s => negb (String.eqb s "")
  | VList l => negb (Nat.eqb (length l) 0)
  | VDict d => negb (Nat.eqb (length d) 0)
  end.

(** [d.get(k)] used as a condition: an absent key is [None], hence false. *)
Definition get_truthy (k : string) (d : pydict) : bool :=
  truthy (dict_get_default k VNone d).

Definition VNat (n : nat) : pyval := VInt (Z.of_nat n).

Definition VStrs (l : list string) : pyval := VList (VStr <$> l).

(** [f"{x}"] for an optional string: [None] prints as the word None. *)
Definition fmt (o : option string) : string :=
  match o with
  | Some s => s
  | None => "None"
  end.

Definition of_opt_str (o : option string) : pyval :=
  match o with
  | Some s => VStr s
  | None => VNone
  end.

(** ** Crisis screen: [src/safety/crisis_detector.py] *)

Module CrisisDetector.

(** One source pattern [r'\b(p1|p2|...)\b']. *)
Definition pattern : Type := list Re.branch.

Definition phrases (l : list string) : pattern := Re.lit <$> l.

Definition high_risk_patterns : list (string * list pattern) :=
  [ ("suicidal_ideation",
      [ phrases ["want to die"; "wanna die"; "wish i was dead"];
        phrases ["kill myself"; "killing myself"; "end my life"];
        phrases ["suicide"; "suicidal thoughts"; "suicidal"];
        phrases ["better off dead"; "world better without me"];
        phrases ["no point living"; "no reason to live"] ]);
    ("self_harm",
      [ phrases ["cut myself"; "cutting myself"; "hurt myself"];
        phrases ["harm myself"; "harming myself"];
        phrases ["self harm"; "self-harm"] ]);
    ("hopelessness",
      [ phrases ["can't go on"; "cannot go on"; "give up"];
        phrases ["hopeless"; "no hope"; "nothing left"];
        phrases ["end it all"; "ending it all"] ]) ].

Definition medium_risk_patterns : list (string * list pattern) :=
  [ ("severe_distress",
      [ phrases ["can't take it anymore"; "cannot take it"];
        phrases ["overwhelmed"; "breaking down"; "falling apart"];
        phrases ["desperate"; "desperation"] ]) ].

(** The two nested loops over a tier: every match of every pattern, tagged
    with its category, in dictionary and list order. *)
Definition tier_matches (tier : list (string * list pattern)) (text_lower : string)
  : list (string * string) :=
  '(category, patterns) ← tier;
  p ← patterns;
  (fun m => (category, m)) <$> Re.findall true p text_lower.

Record CrisisResult : Type := mkCrisisResult {
  crisis_level : string;
  patterns_found : list (string * string);
  categories : gset string;
  recommended_action : string;
  confidence : Q
}.

Definition high_risk_found (text : string) : list (string * string) :=
  tier_matches high_risk_patterns (Str.lower text).

Definition medium_risk_found (text : string) : list (string * string) :=
  tier_matches medium_risk_patterns (Str.lower text).

Definition is_empty {A} (l : list A) : bool :=
  match l with [] => true | _ => false end.

Definition detect_crisis_level (text : string) : CrisisResult :=
  let high := high_risk_found text in
  let medium := medium_risk_found text in
  let found := high ++ medium in
  let cats : gset string := list_to_set (fst <$> found) in
  if negb (is_empty high) then
    mkCrisisResult "high" found cats "immediate_intervention" (9 # 10)
  else if negb (is_empty medium) then
    mkCrisisResult "medium" found cats "elevated_support" (6 # 10)
  else
    mkCrisisResult "none" found cats "continue" 0.

Definition detect_crisis_keywords (text : string) : bool :=
  let level := crisis_level (detect_crisis_level text) in
  String.eqb level "high" || String.eqb level "medium".

(** Whether some pattern of a tier occurs in the lowered text, stated
    without building the match list. *)
Definition pattern_hit (text_lower : string) (p : pattern) : bool :=
  negb (is_empty (Re.findall true p text_lower)).

Definition tier_hit (tier : list (string * list pattern)) (text : string) : bool :=
  existsb (fun cp => existsb (pattern_hit (Str.lower text)) cp.2) tier.

(** Whether some pattern filed under category [c], in either tier, occurs. *)
Definition category_hit (c : string) (text : string) : bool :=
  existsb (fun cp => String.eqb c cp.1 && existsb (pattern_hit (Str.lower text)) cp.2)
    (high_risk_patterns ++ medium_risk_patterns).

End CrisisDetector.

(** ** External collaborator: the content retriever

    Only its interface is modelled.  The three wrappers return [None] when
    the knowledge base has no match; [search_by_keywords] may raise. *)

Record ContentRetriever : Type := {
  get_reassurance_content : string -> Q -> option string;
  get_educational_content : string -> string -> option string;
  get_technique_for_scenario : string -> string -> pydict -> option string;
  search_by_keywords : list string -> string -> nat -> option (list pyval)
}.

(** ** Base flow: [src/flows/base_flow.py] *)

Module BaseFlow.

Record StepSpec : Type := mkStep {
  intervention : string;
  step_type : string;
  requires_input : bool;
  clinical_notes : option string;
  clinical_message : option string
}.

(** A step as every scenario writes it: the three keys, no notes, no
    canned message. *)
Definition step (i t : string) (r : bool) : StepSpec := mkStep i t r None None.

Record FlowState : Type := mkState {
  current_step : nat;
  user_responses : gmap nat pyval;
  effectiveness_ratings : list pyval;
  start_time : Z;
  completion_status : string;
  safety_flags : list string;
  technique_preferences : pydict;
  content_retrievals : nat;
  dynamic_content_used : list string;
  personalization_applied : bool;
  user_context : option pydict
}.

(** [FlowState()] *)
Definition new_state (now : Z) : FlowState :=
  mkState 0 ∅ [] now "in_progress" [] [] 0 [] false None.

Definition set_current_step (n : nat) (s : FlowState) : FlowState :=
  mkState n (user_responses s) (effectiveness_ratings s) (start_time s)
    (completion_status s) (safety_flags s) (technique_preferences s)
    (content_retrievals s) (dynamic_content_used s)
    (personalization_applied s) (user_context s).

Definition set_user_responses (m : gmap nat pyval) (s : FlowState) : FlowState :=
  mkState (current_step s) m (effectiveness_ratings s) (start_time s)
    (completion_status s) (safety_flags s) (technique_preferences s)
    (content_retrievals s) (dynamic_content_used s)
    (personalization_applied s) (user_context s).

Definition set_effectiveness_ratings (l : list pyval) (s : FlowState) : FlowState :=
  mkState (current_step s) (user_responses s) l (start_time s)
    (completion_status s) (safety_flags s) (technique_preferences s)
    (content_retrievals s) (dynamic_content_used s)
    (personalization_applied s) (user_context s).

Definition set_completion_status (c : string) (s : FlowState) : FlowState :=
  mkState (current_step s) (user_responses s) (effectiveness_ratings s)
    (start_time s) c (safety_flags s) (technique_preferences s)
    (content_retrievals s) (dynamic_content_used s)
    (personalization_applied s) (user_context s).

Definition set_safety_flags (l : list string) (s : FlowState) : FlowState :=
  mkState (current_step s) (user_responses s) (effectiveness_ratings s)
    (start_time s) (completion_status s) l (technique_preferences s)
    (content_retrievals s) (dynamic_content_used s)
    (personalization_applied s) (user_context s).

Definition set_retrieval_tracking (n : nat) (l : list string) (s : FlowState)
  : FlowState :=
  mkState (current_step s) (user_responses s) (effectiveness_ratings s)
    (start_time s) (completion_status s) (safety_flags s)
    (technique_preferences s) n l (personalization_applied s) (user_context s).

Definition set_personalization (b : bool) (ctx : option pydict) (s : FlowState)
  : FlowState :=
  mkState (current_step s) (user_responses s) (effectiveness_ratings s)
    (start_time s) (completion_status s) (safety_flags s)
    (technique_preferences s) (content_retrievals s) (dynamic_content_used s)
    b ctx.

(** The attributes a flow class fixes in [__init__]; [has_retriever] is
    [hasattr(self, 'retriever')] and [clinical_resources] the value of the
    class's [get_clinical_resources()]. *)
Record FlowData : Type := mkData {
  flow_name : string;
  scenario : string;
  intensity : string;
  clinical_steps : list StepSpec;
  has_retriever : bool;
  clinical_resources : list pyval
}.

Definition step_dict (current total : nat) (kind : string) : pyval :=
  VDict [ ("current_step", VNat current);
          ("total_steps", VNat total);
          ("intervention_type", VStr kind) ].

(** [activate_crisis_protocol]: one flag appended, the fixed reply. *)
Definition crisis_protocol_reply : pydict :=
  [ ("flow_type", VStr "crisis_override");
    ("message",
      VStr "I notice you might be in crisis. Your safety is the priority.");
    ("crisis_resources", VList
      [ VDict [ ("name", VStr "National Suicide Prevention Lifeline");
                ("contact", VStr "988");
                ("available", VStr "24/7") ];
        VDict [ ("name", VStr "Crisis Text Line");
                ("contact", VStr "Text HOME to 741741");
                ("available", VStr "24/7") ];
        VDict [ ("name", VStr "Emergency Services");
                ("contact", VStr "911");
                ("available", VStr "Immediate emergency response") ] ]);
    ("disable_free_form", VBool true);
    ("immediate_escalation", VBool true);
    ("crisis_override", VBool true) ].

Definition activate_crisis_protocol (s : FlowState) : pydict * FlowState :=
  (crisis_protocol_reply,
   set_safety_flags (safety_flags s ++ ["crisis_protocol_activated"]) s).

(** [min(current_step, len(steps)) / len(steps) if steps else 1.0] *)
Definition completion_rate (cur total : nat) : Q :=
  match total with
  | O => 1
  | S _ => Z.of_nat (Nat.min cur total) # Pos.of_nat total
  end.

(** [completion_rate >= 0.8 and len(safety_flags) == 0] *)
Definition clinical_success (rate : Q) (flags : list string) : bool :=
  Qle_bool (8 # 10) rate && Nat.eqb (length flags) 0.

Definition complete_clinical_flow (D : FlowData) (now : Z) (s : FlowState)
  : pydict * FlowState :=
  let s' := set_completion_status "completed" s in
  let total := length (clinical_steps D) in
  let rate := completion_rate (current_step s') total in
  ([ ("message", VStr ("You've completed the " +:+ flow_name D +:+
        ". These evidence-based techniques become more effective with practice."));
     ("flow_completed", VBool true);
     ("clinical_outcomes", VDict
       [ ("duration_seconds", VInt (now - start_time s'));
         ("completion_rate", VRat rate);
         ("effectiveness_ratings", VList (effectiveness_ratings s'));
         ("safety_flags", VStrs (safety_flags s'));
         ("techniques_used",
           VStrs (intervention <$> take (current_step s') (clinical_steps D)));
         ("content_retrievals", VNat (content_retrievals s'));
         ("dynamic_content_used", VStrs (dynamic_content_used s'));
         ("personalization_applied", VBool (personalization_applied s'));
         ("rag_enhanced", VBool (has_retriever D)) ]);
     ("follow_up_clinical_resources", VList (clinical_resources D));
     ("session_summary", VDict
       [ ("scenario", VStr (scenario D));
         ("intensity", VStr (intensity D));
         ("steps_completed", VNat (current_step s'));
         ("clinical_success", VBool (clinical_success rate (safety_flags s'))) ]);
     ("step_info", step_dict total total "completed") ],
   s').

Definition get_current_step_response (D : FlowData) (now : Z) (s : FlowState)
  : pydict * FlowState :=
  match clinical_steps D !! current_step s with
  | None => complete_clinical_flow D now s
  | Some cur =>
      ([ ("intervention_type", VStr (intervention cur));
         ("step_number", VNat (current_step s + 1));
         ("total_steps", VNat (length (clinical_steps D)));
         ("flow_name", VStr (flow_name D));
         ("scenario", VStr (scenario D));
         ("requires_input", VBool (requires_input cur));
         ("clinical_guidance", VStr (default "" (clinical_notes cur)));
         ("advance_step", VBool true);
         ("message", VStr
           match clinical_message cur with
           | Some m => m
           | None => "Continuing with " +:+ flow_name D +:+ " - step " +:+
                     pretty (current_step s + 1)
           end) ],
       s)
  end.

(** The base [process_clinical_step], which scenario flows override. *)
Definition process_clinical_step (D : FlowData) (now : Z) (s : FlowState)
  (user_input : string) : option (pydict * FlowState) :=
  Some (get_current_step_response D now s).

(** The type of a [process_clinical_step] implementation. *)
Definition step_method : Type :=
  Z -> FlowState -> string -> option (pydict * FlowState).

Definition step_intervention (D : FlowData) (s : FlowState) : string :=
  match clinical_steps D !! current_step s with
  | Some cur => intervention cur
  | None => "completed"
  end.

(** [process_user_input], with the class's [process_clinical_step] as
    [pcs] (the call through [self]). *)
Definition process_user_input (D : FlowData) (pcs : step_method) (now : Z)
  (s : FlowState) (user_input : string) : option (pydict * FlowState) :=
  let record := VDict
    [ ("input", VStr user_input);
      ("timestamp", VInt now);
      ("safety_screened", VBool true);
      ("step_intervention", VStr (step_intervention D s)) ] in
  let s1 := set_user_responses (<[current_step s := record]> (user_responses s)) s in
  if CrisisDetector.detect_crisis_keywords user_input then
    Some (activate_crisis_protocol
            (set_safety_flags (safety_flags s1 ++ ["crisis_detected_during_flow"]) s1))
  else
    '(response, s2) ← pcs now s1 user_input;
    let s3 :=
      if has_retriever D && get_truthy "message" response then
        set_retrieval_tracking (content_retrievals s2 + 1)
          match clinical_steps D !! current_step s2 with
          | Some cur => dynamic_content_used s2 ++ [intervention cur]
          | None => dynamic_content_used s2
          end s2
      else s2 in
    let s4 :=
      if truthy (dict_get_default "advance_step" (VBool true) response)
      then set_current_step (current_step s3 + 1) s3
      else s3 in
    Some (response, s4).

(** Numeric reading of a score, for [score > 0.7]. *)
Definition as_number (v : pyval) : option Q :=
  match v with
  | VInt z => Some (inject_Z z)
  | VRat q => Some q
  | VBool b => Some (if b then 1 else 0)%Q
  | _ => None
  end.

(** [any(score > 0.7 for score in scores)], stopping at the first hit; a
    score that is no number raises. *)
Fixpoint any_above (th : Q) (scores : list pyval) : option bool :=
  match scores with
  | [] => Some false
  | v :: r =>
      q ← as_number v;
      if Qle_bool q th then any_above th r else Some true
  end.

Definition dict_values (v : pyval) : option (list pyval) :=
  match v with
  | VDict d => Some (snd <$> d)
  | _ => None
  end.

(** The crisis check on the context text shared by [start_flow] and the
    manager: [ctx and ctx.get('text')], then the screen on that text. *)
Definition context_crisis (ctx : option pydict) : option bool :=
  match ctx with
  | Some c =>
      if truthy (VDict c) && get_truthy "text" c then
        match dict_get "text" c with
        | Some (VStr t) => Some (CrisisDetector.detect_crisis_keywords t)
        | _ => None
        end
      else Some false
  | None => Some false
  end.

(** [start_flow], with the class's [get_current_step_response] as [gcsr]. *)
Definition start_flow (gcsr : Z -> FlowState -> pydict * FlowState) (now : Z)
  (ctx : option pydict) : option (pydict * FlowState) :=
  let s0 := new_state now in
  s1 ← match ctx with
       | Some c =>
           if truthy (VDict c) then
             scores ← dict_values (dict_get_default "emotion_scores" (VDict []) c);
             hit ← any_above (7 # 10) scores;
             Some (set_personalization hit (Some c) s0)
           else Some s0
       | None => Some s0
       end;
  crisis ← context_crisis ctx;
  if (crisis : bool) then Some (activate_crisis_protocol s1)
  else Some (gcsr now s1).

End BaseFlow.

(** A flow class as the manager sees it: its fixed attributes and the two
    methods the manager calls on an instance, already resolved for the
    class. *)
Record FlowClass : Type := mkClass {
  cls_data : BaseFlow.FlowData;
  cls_start_flow : Z -> option pydict -> option (pydict * BaseFlow.FlowState);
  cls_process_user_input :
    Z -> BaseFlow.FlowState -> string -> option (pydict * BaseFlow.FlowState)
}.

(** ** Panic flow: [src/flows/panic/acute_anxiety_flow.py] *)

Module AcuteAnxietyFlow.

Import BaseFlow.

Definition steps : list StepSpec :=
  [ step "safety_assessment" "reassurance" true;
    step "psychoeducation" "education" false;
    step "4_7_8_breathing" "technique" true;
    step "5_4_3_2_1_grounding" "technique" true;
    step "progressive_muscle_relaxation" "technique" true;
    step "clinical_reassurance" "reassurance" false;
    step "effectiveness_assessment" "effectiveness_check" true ].

Definition resource (ty title evidence description : string) : pyval :=
  VDict [ ("type", VStr ty); ("title", VStr title);
          ("evidence_base", VStr evidence); ("description", VStr description) ].

Definition get_clinical_resources : list pyval :=
  [ resource "clinical_technique" "4-7-8 Breathing"
      "Parasympathetic nervous system activation"
      "Practice daily when calm for 2 minutes to build familiarity";
    resource "clinical_technique" "5-4-3-2-1 Grounding"
      "Sensory grounding interrupts panic spiral"
      "Use when you feel anxiety beginning to escalate";
    resource "clinical_education" "Understanding Panic"
      "Psychoeducation reduces panic frequency"
      "Panic attacks peak in 10 minutes and are not medically dangerous";
    resource "clinical_referral" "When to Seek Professional Help"
      "Clinical guidelines for care escalation"
      "If panic attacks occur frequently or interfere with daily functioning, consider consulting a mental health professional" ].

Definition data : FlowData :=
  mkData "Acute Anxiety Support" "panic" "high" steps true get_clinical_resources.

Definition digit_value (c : ascii) : nat := Str.code c - 48.

(** [int(s)] for a string of decimal digits. *)
Definition int_of_digits (s : string) : nat :=
  (fix go (acc : nat) (s : string) : nat :=
     match s with
     | EmptyString => acc
     | String c r => go (10 * acc + digit_value c) r
     end) 0 s.

(** The pattern [r'\b([1-9]|10)\b']. *)
Definition rating_pattern : list Re.branch :=
  [ [Re.Range "1" "9"]; Re.lit "10" ].

Definition word_ratings : list (string * nat) :=
  [ ("one", 1); ("two", 2); ("three", 3); ("four", 4); ("five", 5);
    ("six", 6); ("seven", 7); ("eight", 8); ("nine", 9); ("ten", 10) ].

(** The loop over [word_ratings.items()]: the first word contained in the
    text decides. *)
Fixpoint first_word_rating (words : list (string * nat)) (text_lower : string)
  : option nat :=
  match words with
  | [] => None
  | (w, r) :: rest =>
      if Str.contains w text_lower then Some r
      else first_word_rating rest text_lower
  end.

Definition extract_anxiety_rating (user_input : string) : option nat :=
  match Re.findall false rating_pattern user_input with
  | n :: _ => Some (int_of_digits n)
  | [] => first_word_rating word_ratings (Str.lower user_input)
  end.

Section Steps.

Context (R : ContentRetriever).

Definition nl2 : string := Str.nl +:+ Str.nl.

Definition process_clinical_step (now : Z) (s : FlowState) (user_input : string)
  : option (pydict * FlowState) :=
  match steps !! current_step s with
  | None => Some (complete_clinical_flow data now s)
  | Some cur =>
      let step_idx := current_step s in
      let user_input_lower := Str.strip (Str.lower user_input) in
      let step_info := step_dict (step_idx + 1) (length steps) (intervention cur) in
      let fallthrough :=
        let '(response, s') := get_current_step_response data now s in
        Some (dict_set "step_info" step_info response, s') in
      match step_idx with
      | 0 =>
          let reassurance := get_reassurance_content R "panic" (7 # 10) in
          let question := "Are you in a safe location?" in
          if Str.any_in ["no"; "not safe"; "danger"] user_input_lower then
            Some ([ ("message", VStr (fmt reassurance +:+ nl2 +:+
                      "Your safety is the priority. Please consider calling emergency services (911) or going to your nearest emergency room. " +:+
                      "We can continue with grounding techniques while you decide."));
                    ("safety_concern", VBool true);
                    ("escalation_recommended", VBool true);
                    ("advance_step", VBool true);
                    ("step_info", step_info) ], s)
          else
            Some ([ ("message", VStr (fmt reassurance +:+ nl2 +:+ question));
                    ("advance_step", VBool true);
                    ("step_info", step_info) ], s)
      | 1 =>
          let education := get_educational_content R "panic" "psychoeducation" in
          Some ([ ("message", of_opt_str education);
                  ("advance_step", VBool true);
                  ("step_info", step_info) ], s)
      | 2 =>
          let technique := get_technique_for_scenario R "panic" "high"
                             [("preferred_technique_type", VStr "breathing")] in
          if Str.any_in ["can't"; "difficult"; "not working"] user_input_lower then
            Some ([ ("message", VStr (
                      "That's okay—breathing techniques can feel difficult during panic. " +:+
                      "Let's try natural breathing: just breathe at your own pace and count each breath from 1 to 10. " +:+
                      "Reply 'done' when ready."));
                    ("advance_step", VBool false);
                    ("step_info", step_info) ], s)
          else
            Some ([ ("message", VStr (
                      "Let's use a powerful technique for panic:" +:+ nl2 +:+
                      fmt technique +:+ nl2 +:+
                      "Type 'done' when you've completed it."));
                    ("advance_step", VBool true);
                    ("step_info", step_info) ], s)
      | 3 =>
          let technique := get_technique_for_scenario R "panic" "medium"
                             [("preferred_technique_type", VStr "grounding")] in
          if Str.any_in ["see"; "hear"; "touch"; "smell"; "taste"] user_input_lower then
            Some ([ ("message", VStr (
                      "Excellent work engaging your senses. " +:+
                      "This helps interrupt the panic cycle by grounding you in reality."));
                    ("advance_step", VBool true);
                    ("step_info", step_info) ], s)
          else
            Some ([ ("message", VStr (
                      "Let's ground you in the moment:" +:+ nl2 +:+ fmt technique +:+
                      nl2 +:+ "Start with the 5 things you can see and work through the list."));
                    ("advance_step", VBool true);
                    ("step_info", step_info) ], s)
      | 4 =>
          let technique := get_technique_for_scenario R "panic" "low"
                             [("preferred_technique_type", VStr "relaxation")] in
          let relaxation_note :=
            "Notice the contrast between tension and relaxation. Type 'done' when finished." in
          Some ([ ("message", VStr (fmt technique +:+ nl2 +:+ relaxation_note));
                  ("advance_step", VBool true);
                  ("step_info", step_info) ], s)
      | 5 =>
          let reassurance := get_reassurance_content R "panic" (4 # 10) in
          Some ([ ("message", VStr (fmt reassurance +:+ nl2 +:+
                    "You've just used several evidence-based techniques. Panic attacks, while frightening, are temporary. " +:+
                    "Your symptoms will continue to decrease as your nervous system calms."));
                  ("advance_step", VBool true);
                  ("step_info", step_info) ], s)
      | 6 =>
          match extract_anxiety_rating user_input with
          | Some rating =>
              if negb (rating =? 0) then
                let s' := set_effectiveness_ratings
                  (effectiveness_ratings s ++
                   [ VDict [ ("rating", VNat rating);
                             ("timestamp", VInt now);
                             ("intervention_phase", VStr "post_technique") ] ]) s in
                let response_msg :=
                  if rating <=? 3 then
                    "Excellent! Your anxiety has decreased significantly to " +:+
                    pretty rating +:+ "/10. The techniques worked well for you."
                  else if rating <=? 6 then
                    "Good progress—you're down to " +:+ pretty rating +:+
                    "/10. These skills keep getting more effective with practice."
                  else
                    "You're still experiencing high anxiety at " +:+ pretty rating +:+
                    "/10. " +:+
                    "That's normal—recovery isn't always linear. Would you like to try another technique?" in
                Some ([ ("message", VStr response_msg);
                        ("clinical_outcome", VNat rating);
                        ("advance_step", VBool true);
                        ("step_info", step_info) ], s')
              else fallthrough
          | None => fallthrough
          end
      | _ => fallthrough
      end
  end.

(** The class: [start_flow], [process_user_input] and
    [get_current_step_response] are inherited from the base class. *)
Definition class : FlowClass :=
  mkClass data
    (BaseFlow.start_flow (get_current_step_response data))
    (BaseFlow.process_user_input data process_clinical_step).

End Steps.

End AcuteAnxietyFlow.

(** ** Step scripts of the other scenario flows

    [src/flows/<scenario>/<scenario>_flow.py], the [clinical_steps] list of
    each class. *)

Module Scenarios.

Import BaseFlow.

Definition decision_making : list StepSpec :=
  [ step "decision_assessment" "reassurance" true;
    step "perfectionism_check" "reassurance" true;
    step "decision_framework" "technique" true;
    step "values_clarification" "education" true;
    step "good_enough_principle" "technique" false;
    step "time_limit_technique" "education" true;
    step "decision_confidence" "reassurance" true ].

Definition general_anxiety : list StepSpec :=
  [ step "emotion_check_in" "assessment" true;
    step "psychoeducation_general" "education" false;
    step "coping_options" "technique" true;
    step "reflection" "reassurance" false;
    step "effectiveness_review" "effectiveness_check" true ].

Definition isolation : list StepSpec :=
  [ step "loneliness_validation" "reassurance" true;
    step "safety_assessment" "safety_check" true;
    step "loneliness_psychoeducation" "education" false;
    step "self_compassion_exercise" "technique" true;
    step "connection_inventory" "technique" true;
    step "small_connection_step" "technique" true;
    step "self_care_planning" "technique" true ].

Definition panic : list StepSpec := AcuteAnxietyFlow.steps.

Definition physical_triggers : list StepSpec :=
  [ step "trigger_assessment" "assessment" true;
    step "trigger_validation" "reassurance" false;
    step "body_awareness" "technique" true;
    step "trigger_differentiation" "education" true;
    step "immediate_modifications" "technique" true;
    step "grounding_through_body" "technique" true;
    step "trigger_prevention" "technique" true ].

Definition pre_event : list StepSpec :=
  [ step "event_assessment" "assessment" true;
    step "normalization" "reassurance" false;
    step "preparation_checklist" "technique" true;
    step "visualization" "technique" true;
    step "confidence_affirmations" "technique" true;
    step "post_event_planning" "technique" true ].

Definition sleep : list StepSpec :=
  [ step "sleep_assessment" "assessment" true;
    step "sleep_psychoeducation" "education" false;
    step "cognitive_restructuring" "technique" true;
    step "body_scan_relaxation" "technique" true;
    step "sleep_hygiene" "technique" true;
    step "20_minute_rule" "education" false;
    step "effectiveness_check" "assessment" true ].

Definition uncertainty : list StepSpec :=
  [ step "uncertainty_assessment" "assessment" true;
    step "uncertainty_normalization" "reassurance" false;
    step "worry_vs_problem_solving" "technique" true;
    step "worry_time_technique" "technique" false;
    step "uncertainty_tolerance" "technique" true;
    step "present_moment_grounding" "technique" true;
    step "coping_confidence" "reassurance" true ].

(** Scenario tag of each flow class with its step script. *)
Definition all : list (string * list StepSpec) :=
  [ ("panic", panic); ("sleep", sleep); ("pre_event", pre_event);
    ("isolation", isolation); ("uncertainty", uncertainty);
    ("decision_making", decision_making);
    ("physical_triggers", physical_triggers);
    ("general_anxiety", general_anxiety) ].

Definition is_effectiveness_check (st : StepSpec) : bool :=
  String.eqb (step_type st) "effectiveness_check".

Definition has_effectiveness_check (l : list StepSpec) : bool :=
  existsb is_effectiveness_check l.

End Scenarios.

(** ** Flow manager: [src/flows/clinical_flow_manager.py] *)

Module ClinicalFlowManager.

Record FlowInstance : Type := mkInstance {
  inst_class : FlowClass;
  state : BaseFlow.FlowState
}.

Definition steps_of (i : FlowInstance) : list BaseFlow.StepSpec :=
  BaseFlow.clinical_steps (cls_data (inst_class i)).

Definition has_retriever (i : FlowInstance) : bool :=
  BaseFlow.has_retriever (cls_data (inst_class i)).

(** An entry of [active_flows]. *)
Record FlowEntry : Type := mkEntry {
  flow_instance : FlowInstance;
  start_time : Z;
  flow_name : string;
  clinical_context : pydict;
  rag_retrievals : nat;
  dynamic_content_used : bool
}.

(** The manager object.  [clinical_flow_registry] is the attribute built in
    [__init__], name to class in insertion order; it stays a field so that
    every statement below holds for whatever classes are registered. *)
Record Manager : Type := mkManager {
  active_flows : gmap string FlowEntry;
  session_history : gmap string (list pyval);
  clinical_outcomes : gmap string (list pyval);
  content_retriever : ContentRetriever;
  clinical_flow_registry : list (string * FlowClass);
  knowledge_base_stats : pydict
}.

Definition set_active_flows (a : gmap string FlowEntry) (m : Manager) : Manager :=
  mkManager a (session_history m) (clinical_outcomes m) (content_retriever m)
    (clinical_flow_registry m) (knowledge_base_stats m).

Definition set_session_history (h : gmap string (list pyval)) (m : Manager)
  : Manager :=
  mkManager (active_flows m) h (clinical_outcomes m) (content_retriever m)
    (clinical_flow_registry m) (knowledge_base_stats m).

Definition set_clinical_outcomes (o : gmap string (list pyval)) (m : Manager)
  : Manager :=
  mkManager (active_flows m) (session_history m) o (content_retriever m)
    (clinical_flow_registry m) (knowledge_base_stats m).

(** [__init__] for a given retriever, registry and knowledge-base summary. *)
Definition new_manager (R : ContentRetriever) (registry : list (string * FlowClass))
  (stats : pydict) : Manager :=
  mkManager ∅ ∅ ∅ R registry stats.

Definition total_items (m : Manager) : pyval :=
  dict_get_default "total_items" (VInt 0) (knowledge_base_stats m).

(** [x > 0] on the item count, which [get_database_stats] makes an [int]. *)
Definition positive (v : pyval) : bool :=
  match v with
  | VInt z => (0 <? z)%Z
  | VRat q => negb (Qle_bool q 0)
  | VBool b => b
  | _ => false
  end.

Definition log_clinical_event (now : Z) (user_id event_type : string)
  (event_data : pydict) (m : Manager) : Manager :=
  let log_entry := VDict
    [ ("timestamp", VInt now);
      ("user_id", VStr user_id);
      ("event_type", VStr event_type);
      ("data", VDict event_data);
      ("rag_system_version", VStr "1.0.0");
      ("knowledge_base_stats", VDict (knowledge_base_stats m)) ] in
  set_session_history
    (<[user_id := default [] (session_history m !! user_id) ++ [log_entry]]>
       (session_history m)) m.

(** [min(100.0, (current_step + 1) / total_steps * 100.0)], 0 when the user
    has no active flow or the flow no steps. *)
Definition _calculate_dynamic_content_percentage (user_id : string) (m : Manager)
  : Q :=
  match active_flows m !! user_id with
  | None => 0
  | Some e =>
      let cur := BaseFlow.current_step (state (flow_instance e)) + 1 in
      let total := length (steps_of (flow_instance e)) in
      if total =? 0 then 0
      else
        let pct := ((Z.of_nat cur # Pos.of_nat total) * 100)%Q in
        if Qle_bool 100 pct then 100 else pct
  end.

(** One turn of the loop over the retrieved crisis content: [None] when the
    body raises, [Some None] when the item is skipped. *)
Definition additional_resource (resource : pyval) : option (option pyval) :=
  match resource with
  | VDict d =>
      match dict_get_default "metadata" (VDict []) d with
      | VDict md =>
          match dict_get_default "type" (VStr "") md with
          | VStr ty =>
              if Str.contains "crisis" (Str.lower ty) then
                match dict_get "content" d with
                | Some (VStr content) =>
                    Some (Some (VDict
                      [ ("name", VStr "Additional Support");
                        ("description", VStr (Str.take 100 content +:+ "..."));
                        ("source", VStr "therapeutic_knowledge_base") ]))
                | _ => None
                end
              else Some None
          | _ => None
          end
      | _ => None
      end
  | _ => None
  end.

(** The loop inside [try]: what was appended before an exception stays. *)
Fixpoint collect_additional (l : list pyval) : list pyval :=
  match l with
  | [] => []
  | r :: rest =>
      match additional_resource r with
      | None => []
      | Some None => collect_additional rest
      | Some (Some x) => x :: collect_additional rest
      end
  end.

(** The whole [try ... except Exception] block. *)
Definition additional_resources (R : ContentRetriever) : list pyval :=
  match search_by_keywords R ["crisis"; "safety"; "help"; "emergency"] "resources" 2 with
  | Some crisis_content => collect_additional crisis_content
  | None => []
  end.

Definition crisis_entry (name contact description priority : string) : pyval :=
  VDict [ ("name", VStr name); ("contact", VStr contact);
          ("description", VStr description); ("priority", VStr priority) ].

Definition core_crisis_resources : list pyval :=
  [ crisis_entry "National Suicide Prevention Lifeline" "988"
      "Free, confidential 24/7 support" "highest";
    crisis_entry "Crisis Text Line" "Text HOME to 741741"
      "24/7 text-based crisis support" "highest";
    crisis_entry "Emergency Services" "911"
      "For immediate emergency response" "highest";
    crisis_entry "National Alliance on Mental Illness" "Text NAMI to 741741"
      "Mental health support and resources" "high" ].

Definition activate_crisis_override (now : Z) (user_id crisis_text : string)
  (m : Manager) : pydict * Manager :=
  let m1 := set_active_flows (delete user_id (active_flows m)) m in
  let m2 := log_clinical_event now user_id "crisis_intervention_activated"
    [ ("trigger_text_length", VNat (String.length crisis_text));
      ("timestamp", VInt now);
      ("rag_system_active", VBool true);
      ("knowledge_base_available", VBool (positive (total_items m1))) ] m1 in
  let extra := additional_resources (content_retriever m2) in
  ([ ("flow_type", VStr "crisis_override");
     ("message", VStr "I'm very concerned about your safety right now. Please reach out for immediate help:");
     ("crisis_resources", VList (core_crisis_resources ++ extra));
     ("safety_message", VStr "Your life has value and there are people who want to help you. Please reach out to one of these resources.");
     ("disable_free_form_responses", VBool true);
     ("log_crisis_interaction", VBool true);
     ("immediate_escalation", VBool true);
     ("clinical_override", VBool true);
     ("rag_enhanced_crisis", VBool (negb (Nat.eqb (length extra) 0))) ],
   m2).

(** [min(current_step + 1, len(steps)) / len(steps)]; raises on an empty
    step list. *)
Definition session_completion_rate (cur total : nat) : option Q :=
  if total =? 0 then None
  else Some (Z.of_nat (Nat.min (cur + 1) total) # Pos.of_nat total).

(** The outcome record [complete_clinical_session] builds for an entry. *)
Definition outcome_data (now : Z) (user_id : string) (e : FlowEntry)
  (m : Manager) : option pydict :=
  let inst := flow_instance e in
  let st := state inst in
  rate ← session_completion_rate (BaseFlow.current_step st) (length (steps_of inst));
  Some
    [ ("session_id", VStr (user_id +:+ "_" +:+ pretty now));
      ("flow_name", VStr (flow_name e));
      ("scenario", VStr (BaseFlow.scenario (cls_data (inst_class inst))));
      ("duration_seconds", VInt (now - start_time e));
      ("completion_rate", VRat rate);
      ("effectiveness_ratings", VList (BaseFlow.effectiveness_ratings st));
      ("safety_flags", VStrs (BaseFlow.safety_flags st));
      ("techniques_used",
        VStrs (BaseFlow.intervention <$>
                 take (BaseFlow.current_step st + 1) (steps_of inst)));
      ("clinical_success",
        VBool (BaseFlow.clinical_success rate (BaseFlow.safety_flags st)));
      ("rag_powered", VBool true);
      ("rag_retrievals", VNat (rag_retrievals e));
      ("dynamic_content_used", VBool (dynamic_content_used e));
      ("dynamic_content_percentage",
        VRat (_calculate_dynamic_content_percentage user_id m));
      ("knowledge_base_items_available", total_items m) ].

Definition complete_clinical_session (now : Z) (user_id : string)
  (final_response : pydict) (m : Manager) : option Manager :=
  match active_flows m !! user_id with
  | None => Some m
  | Some e =>
      outcome ← outcome_data now user_id e m;
      let m1 := set_clinical_outcomes
        (<[user_id := default [] (clinical_outcomes m !! user_id) ++ [VDict outcome]]>
           (clinical_outcomes m)) m in
      let m2 := log_clinical_event now user_id "rag_session_completed" outcome m1 in
      Some (set_active_flows (delete user_id (active_flows m2)) m2)
  end.

(** The keys of [get_available_flows()]. *)
Definition available_scenarios : list string :=
  [ "panic"; "sleep"; "pre_event"; "isolation"; "uncertainty";
    "decision_making"; "physical_triggers" ].

Definition process_clinical_response (now : Z) (user_id user_input : string)
  (m : Manager) : option (pydict * Manager) :=
  if CrisisDetector.detect_crisis_keywords user_input then
    Some (activate_crisis_override now user_id user_input m)
  else
    match active_flows m !! user_id with
    | None =>
        Some ([ ("error", VStr "No active clinical flow");
                ("message", VStr "It looks like we need to start over. How are you feeling right now?");
                ("flow_restart_needed", VBool true);
                ("suggested_action", VStr "restart_assessment");
                ("available_scenarios", VStrs available_scenarios) ], m)
    | Some e =>
        let inst := flow_instance e in
        '(response, st1) ←
          cls_process_user_input (inst_class inst) now (state inst) user_input;
        let st2 :=
          if get_truthy "advance_step" response
             && (BaseFlow.current_step st1 <? length (steps_of inst))
          then BaseFlow.set_current_step (BaseFlow.current_step st1 + 1) st1
          else st1 in
        let inst2 := mkInstance (inst_class inst) st2 in
        let e2 :=
          if has_retriever inst && get_truthy "message" response
          then mkEntry inst2 (start_time e) (flow_name e) (clinical_context e)
                 (rag_retrievals e + 1) true
          else mkEntry inst2 (start_time e) (flow_name e) (clinical_context e)
                 (rag_retrievals e) (dynamic_content_used e) in
        let m1 := set_active_flows (<[user_id := e2]> (active_flows m)) m in
        let m2 := log_clinical_event now user_id "rag_response_processed"
          [ ("step_number", VNat (BaseFlow.current_step st2));
            ("user_input_length", VNat (String.length user_input));
            ("safety_flags", VStrs (BaseFlow.safety_flags st2));
            ("rag_retrievals_session", VNat (rag_retrievals e2));
            ("dynamic_content_active", VBool (dynamic_content_used e2)) ] m1 in
        m3 ← (if get_truthy "flow_completed" response
                 || get_truthy "crisis_override" response
              then complete_clinical_session now user_id response m2
              else Some m2);
        Some (dict_set "clinical_monitoring" (VDict
                [ ("session_duration", VInt (now - start_time e2));
                  ("current_step", VNat (BaseFlow.current_step st2 + 1));
                  ("total_steps", VNat (length (steps_of inst2)));
                  ("safety_flags", VStrs (BaseFlow.safety_flags st2));
                  ("effectiveness_ratings", VList (BaseFlow.effectiveness_ratings st2));
                  ("rag_enhanced", VBool true);
                  ("rag_retrievals_session", VNat (rag_retrievals e2));
                  ("dynamic_content_percentage",
                    VRat (_calculate_dynamic_content_percentage user_id m3)) ])
                response,
              m3)
    end.

(** [s.split(sep)] for a one-character separator. *)
Fixpoint split_on (sep : ascii) (s : string) : list string :=
  match s with
  | EmptyString => [EmptyString]
  | String c r =>
      match split_on sep r with
      | h :: t => if Ascii.eqb c sep then EmptyString :: h :: t
                  else String c h :: t
      | [] => [String c EmptyString]
      end
  end.

Definition mem_string (x : string) (l : list string) : bool :=
  existsb (String.eqb x) l.

Definition _suggest_similar_flows (requested_flow : string) (m : Manager)
  : list string :=
  let keywords := split_on "_" (Str.lower requested_flow) in
  let similar (name : string) : bool :=
    let flow_keywords := split_on "_" (Str.lower name) in
    existsb (fun k => mem_string k flow_keywords) keywords in
  take 3 (List.filter similar (fst <$> clinical_flow_registry m)).

Fixpoint registry_lookup (name : string) (reg : list (string * FlowClass))
  : option FlowClass :=
  match reg with
  | [] => None
  | (k, c) :: r => if String.eqb name k then Some c else registry_lookup name r
  end.

(** [ctx.get(k, {}) if ctx else {}] *)
Definition context_field (k : string) (ctx : option pydict) : pyval :=
  match ctx with
  | Some c => if truthy (VDict c) then dict_get_default k (VDict []) c else VDict []
  | None => VDict []
  end.

(** [start_clinical_flow] past the crisis check. *)
Definition start_registered (now : Z) (user_id name : string)
  (ctx : option pydict) (m : Manager) : option (pydict * Manager) :=
  match registry_lookup name (clinical_flow_registry m) with
  | None =>
      Some ([ ("error", VStr ("Clinical flow " +:+ name +:+ " not implemented"));
              ("available_flows", VStrs (fst <$> clinical_flow_registry m));
              ("fallback_message", VStr "Let me help you with general anxiety support. How are you feeling right now?");
              ("suggested_flows", VStrs (_suggest_similar_flows name m)) ], m)
  | Some cls =>
      let D := cls_data cls in
      let inst := mkInstance cls (BaseFlow.new_state now) in
      let context := match ctx with
                     | Some c => if truthy (VDict c) then c else []
                     | None => []
                     end in
      let e := mkEntry inst now name context 0 false in
      let m1 := set_active_flows (<[user_id := e]> (active_flows m)) m in
      let m2 := log_clinical_event now user_id "rag_flow_started"
        [ ("flow_name", VStr name);
          ("scenario", VStr (BaseFlow.scenario D));
          ("emotion_scores", context_field "emotion_scores" ctx);
          ("intent_scores", context_field "intent_scores" ctx);
          ("knowledge_base_items", total_items m1) ] m1 in
      '(response, st) ← cls_start_flow cls now ctx;
      let inst' := mkInstance cls st in
      let e' := if BaseFlow.has_retriever D
                then mkEntry inst' now name context 1 true
                else mkEntry inst' now name context 0 false in
      let m3 := set_active_flows (<[user_id := e']> (active_flows m2)) m2 in
      Some (dict_set "clinical_metadata" (VDict
              [ ("flow_name", VStr name);
                ("scenario", VStr (BaseFlow.scenario D));
                ("intensity", VStr (BaseFlow.intensity D));
                ("evidence_base", VStr "CBT, mindfulness, clinical guidelines");
                ("safety_screened", VBool true);
                ("rag_powered", VBool true);
                ("dynamic_content", VBool (dynamic_content_used e'));
                ("knowledge_base_items", total_items m3) ])
              response,
            m3)
  end.

Definition start_clinical_flow (now : Z) (user_id name : string)
  (ctx : option pydict) (m : Manager) : option (pydict * Manager) :=
  let m0 :=
    match session_history m !! user_id with
    | Some _ => m
    | None => set_session_history (<[user_id := []]> (session_history m)) m
    end in
  match ctx with
  | Some c =>
      if truthy (VDict c) && get_truthy "text" c then
        match dict_get "text" c with
        | Some (VStr t) =>
            if CrisisDetector.detect_crisis_keywords t
            then Some (activate_crisis_override now user_id t m0)
            else start_registered now user_id name ctx m0
        | _ => None
        end
      else start_registered now user_id name ctx m0
  | None => start_registered now user_id name ctx m0
  end.

Definition get_clinical_flow_status (now : Z) (user_id : string) (m : Manager)
  : option pyval :=
  match active_flows m !! user_id with
  | None => Some VNone
  | Some e =>
      let inst := flow_instance e in
      let st := state inst in
      let D := cls_data (inst_class inst) in
      rate ← session_completion_rate (BaseFlow.current_step st) (length (steps_of inst));
      Some (VDict
        [ ("flow_name", VStr (flow_name e));
          ("scenario", VStr (BaseFlow.scenario D));
          ("intensity", VStr (BaseFlow.intensity D));
          ("current_step", VNat (BaseFlow.current_step st + 1));
          ("total_steps", VNat (length (steps_of inst)));
          ("current_intervention", VStr (BaseFlow.step_intervention D st));
          ("session_duration", VInt (now - start_time e));
          ("safety_flags", VStrs (BaseFlow.safety_flags st));
          ("effectiveness_ratings", VList (BaseFlow.effectiveness_ratings st));
          ("completion_rate", VRat rate);
          ("rag_enhanced", VBool true);
          ("rag_retrievals", VNat (rag_retrievals e));
          ("dynamic_content_active", VBool (dynamic_content_used e));
          ("dynamic_content_percentage",
            VRat (_calculate_dynamic_content_percentage user_id m)) ])
  end.

End ClinicalFlowManager.

(** ** Decision-making flow: [src/flows/decision_making/decision_making_flow.py] *)

Module DecisionMakingFlow.

Import BaseFlow.

Definition steps : list StepSpec := Scenarios.decision_making.

Definition resource (ty title evidence description : string) : pyval :=
  VDict [ ("type", VStr ty); ("title", VStr title);
          ("evidence_base", VStr evidence); ("description", VStr description) ].

Definition get_clinical_resources : list pyval :=
  [ resource "decision_framework" "Structured Decision Process"
      "Decision science and cognitive therapy"
      "Use the options-values-outcomes framework for future decisions";
    resource "perfectionism_management" "Good Enough Decision Making"
      "Satisficing theory (Herbert Simon)"
      ("Practice making " +:+ String (ascii_of_nat 34) "good enough" +:+
       String (ascii_of_nat 34) " decisions to reduce analysis paralysis");
    resource "values_work" "Values Clarification"
      "Acceptance and Commitment Therapy"
      "Regular values reflection improves decision confidence" ].

Definition data : FlowData :=
  mkData "Decision-Making Support" "decision_making" "medium" steps true
    get_clinical_resources.

Definition perfectionism_indicators : list string :=
  ["perfect"; "right choice"; "best"; "wrong"; "mess up"; "regret"].

Definition option_indicators : list string :=
  ["or"; "either"; "option"; "choice"; "could"].

Definition time_indicators : list string :=
  ["day"; "week"; "month"; "tomorrow"; "soon"; "deadline"].

Section Steps.

Context (R : ContentRetriever).

Definition nl2 : string := Str.nl +:+ Str.nl.

Definition process_clinical_step (now : Z) (s : FlowState) (user_input : string)
  : option (pydict * FlowState) :=
  match steps !! current_step s with
  | None => Some (complete_clinical_flow data now s)
  | Some cur =>
      let user_input_lower := Str.strip (Str.lower user_input) in
      let step_idx := current_step s in
      let step_info := step_dict (step_idx + 1) (length steps) (intervention cur) in
      match step_idx with
      | 0 =>
          let reassurance := get_reassurance_content R "decision_making" (5 # 10) in
          Some ([ ("message", VStr (fmt reassurance +:+ nl2 +:+
                    "What decision are you struggling with right now?"));
                  ("advance_step", VBool true);
                  ("step_info", step_info) ], s)
      | 1 =>
          if Str.any_in perfectionism_indicators user_input_lower then
            let reassurance := get_reassurance_content R "decision_making" (8 # 10) in
            Some ([ ("message", VStr (fmt reassurance +:+ nl2 +:+
                      "The pressure to choose perfectly is often what makes decisions feel impossible. " +:+
                      "Let's work on making a 'good enough' choice."));
                    ("perfectionism_identified", VBool true);
                    ("advance_step", VBool true);
                    ("step_info", step_info) ], s)
          else
            Some ([ ("message", VStr "Thanks for sharing how you're feeling about this decision. Let's move forward to look at your options.");
                    ("advance_step", VBool true);
                    ("step_info", step_info) ], s)
      | 2 =>
          let technique := get_technique_for_scenario R "decision_making" "medium"
                             [("preferred_technique_type", VStr "framework")] in
          if Str.any_in option_indicators user_input_lower then
            Some ([ ("message", VStr (
                      "Good—you have multiple possibilities (which is a strength, even if it feels overwhelming)" +:+ nl2 +:+
                      "Here's a decision framework to guide you:" +:+ nl2 +:+
                      fmt technique +:+ nl2 +:+
                      "Now, what matters most to you in making this choice?"));
                    ("advance_step", VBool true);
                    ("step_info", step_info) ], s)
          else
            Some ([ ("message", VStr (
                      "Let's clarify your options first. " +:+ fmt technique +:+ nl2 +:+
                      "List 2-3 main possibilities you're considering."));
                    ("advance_step", VBool false);
                    ("step_info", step_info) ], s)
      | 3 =>
          let education := get_educational_content R "decision_making"
                             "values clarification" in
          Some ([ ("message", VStr (
                    "Values matter deeply in our decisions. " +:+ fmt education +:+ nl2 +:+
                    "What feels most important to you in this decision?"));
                  ("advance_step", VBool true);
                  ("step_info", step_info) ], s)
      | 4 =>
          let technique := get_technique_for_scenario R "decision_making" "low"
                             [("preferred_technique_type", VStr "good_enough")] in
          Some ([ ("message", VStr (
                    "Consider this principle:" +:+ nl2 +:+ fmt technique +:+ nl2 +:+
                    "Instead of seeking perfection, look for what is 'good enough' for your values and needs."));
                  ("advance_step", VBool true);
                  ("step_info", step_info) ], s)
      | 5 =>
          let education := get_educational_content R "decision_making"
                             "decision time limits" in
          if Str.any_in time_indicators user_input_lower then
            Some ([ ("message", VStr (fmt education +:+ nl2 +:+
                      "That sounds like a reasonable timeframe. " +:+
                      "Having that kind of deadline can actually reduce anxiety because it creates closure—you can make a good decision within that limit."));
                    ("deadline_set", VBool true);
                    ("advance_step", VBool true);
                    ("step_info", step_info) ], s)
          else
            Some ([ ("message", VStr (fmt education +:+ nl2 +:+
                      "To help with decision paralysis, try picking a specific date or event by which you'll decide. " +:+
                      "When would feel right?"));
                    ("advance_step", VBool false);
                    ("step_info", step_info) ], s)
      | 6 =>
          let reassurance := get_reassurance_content R "decision_making" (4 # 10) in
          Some ([ ("message", VStr (fmt reassurance +:+ nl2 +:+
                    "Remember: you've made many decisions in your life, including difficult ones. " +:+
                    "What qualities or strategies have helped you make good decisions in the past?"));
                  ("advance_step", VBool true);
                  ("step_info", step_info) ], s)
      | _ =>
          let '(response, s') := get_current_step_response data now s in
          Some (dict_set "step_info" step_info response, s')
      end
  end.

(** The class: everything but the step logic is inherited. *)
Definition class : FlowClass :=
  mkClass data
    (BaseFlow.start_flow (get_current_step_response data))
    (BaseFlow.process_user_input data process_clinical_step).

End Steps.

End DecisionMakingFlow.

(** ** General fallback flow: [src/flows/general/general_anxiety_flow.py] *)

Module GeneralAnxietyFlow.

Import BaseFlow.

Definition steps : list StepSpec := Scenarios.general_anxiety.

Definition resource (ty title evidence description : string) : pyval :=
  VDict [ ("type", VStr ty); ("title", VStr title);
          ("evidence_base", VStr evidence); ("description", VStr description) ].

Definition get_clinical_resources : list pyval :=
  [ resource "general_education" "Understanding General Anxiety"
      "CBT, mindfulness, clinical guidelines"
      "General anxiety is common and manageable, even without a specific trigger.";
    resource "basic_technique" "Diaphragmatic Breathing"
      "Evidence for anxiety reduction"
      "Breathe slowly and deeply, focusing on your diaphragm. Repeat for 2 minutes.";
    resource "resources" "Mental Health Helpline"
      "Support networks"
      "You can reach out for confidential support anytime." ].

Definition data : FlowData :=
  mkData "General Anxiety Support" "general_anxiety" "variable" steps true
    get_clinical_resources.

(** [extract_effectiveness_rating]: the same two passes as the panic flow's
    extraction, over the same pattern and the same word table. *)
Definition extract_effectiveness_rating (user_input : string) : option nat :=
  match Re.findall false AcuteAnxietyFlow.rating_pattern user_input with
  | n :: _ => Some (AcuteAnxietyFlow.int_of_digits n)
  | [] => AcuteAnxietyFlow.first_word_rating AcuteAnxietyFlow.word_ratings
            (Str.lower user_input)
  end.

Section Methods.

Context (R : ContentRetriever).

Definition nl2 : string := Str.nl +:+ Str.nl.

(** [start_flow], overridden: a greeting; the state built by [__init__] is
    kept and the context is not looked at. *)
Definition start_flow (now : Z) (ctx : option pydict) : option (pydict * FlowState) :=
  let greeting := get_reassurance_content R "general" (7 # 10) in
  let prompt := "I'm here for you. How are you feeling right now? You can tell me as much or as little as you want." in
  first ← steps !! 0;
  Some ([ ("message", VStr (fmt greeting +:+ nl2 +:+ prompt));
          ("step_info", step_dict 1 (length steps) (intervention first));
          ("requires_input", VBool true) ],
        new_state now).

(** [process_user_input], overridden: no response record, no crisis screen,
    no step increment; indexing the step list past its end raises. *)
Definition process_user_input (now : Z) (s : FlowState) (user_input : string)
  : option (pydict * FlowState) :=
  let step_idx := current_step s in
  cur ← steps !! step_idx;
  let step_info := step_dict (step_idx + 1) (length steps) (intervention cur) in
  match step_idx with
  | 0 =>
      let reassurance := get_reassurance_content R "general" (5 # 10) in
      Some ([ ("message", VStr (fmt reassurance +:+ nl2 +:+
                "Thanks for sharing. Let’s talk a bit about general anxiety and how it can affect you."));
              ("advance_step", VBool true);
              ("step_info", step_info) ], s)
  | 1 =>
      let education := get_educational_content R "general" "psychoeducation" in
      Some ([ ("message", of_opt_str education);
              ("advance_step", VBool true);
              ("step_info", step_info) ], s)
  | 2 =>
      let technique := get_technique_for_scenario R "general" "variable"
                         [("user_input", VStr user_input)] in
      Some ([ ("message", VStr (
                "Here’s a simple grounding technique you can try:" +:+ nl2 +:+
                fmt technique +:+ nl2 +:+
                "Would you like to give it a try now or learn about other options?"));
              ("advance_step", VBool true);
              ("step_info", step_info) ], s)
  | 3 =>
      let reflection := get_reassurance_content R "general" (3 # 10) in
      Some ([ ("message", VStr (fmt reflection +:+ nl2 +:+
                "Remember, you're not alone in this. Every improvement counts, no matter how small."));
              ("advance_step", VBool true);
              ("step_info", step_info) ], s)
  | 4 =>
      match extract_effectiveness_rating user_input with
      | Some rating =>
          let s' := set_effectiveness_ratings
            (effectiveness_ratings s ++
             [ VDict [ ("rating", VNat rating); ("timestamp", VInt now) ] ]) s in
          Some ([ ("message", VStr (
                    "Thank you for sharing. On a scale of 1 to 10, you've reported " +:+
                    pretty rating +:+ ". " +:+
                    "Would you like to continue or end for now?"));
                  ("flow_completed", VBool true);
                  ("advance_step", VBool true);
                  ("step_info", step_info) ], s')
      | None =>
          Some ([ ("message", VStr "Let me know how much these steps helped you, using a number (1–10) or a few words.");
                  ("flow_completed", VBool false);
                  ("advance_step", VBool true);
                  ("step_info", step_info) ], s)
      end
  | _ => Some (complete_clinical_flow data now s)
  end.

Definition class : FlowClass := mkClass data start_flow process_user_input.

End Methods.

End GeneralAnxietyFlow.

(** ** Intent detector: [src/preprocessing/intent_detector.py]

    The weights are 2.0 and 1.0, so every raw score is a whole number; it
    is kept as a [nat] and only the final quotient is a rational.  The
    score table is filled scenario by scenario, each scenario adding to its
    own key only, so the table is built one scenario at a time. *)

Module IntentDetector.

Definition scenario_keywords : list (string * (list string * list string)) :=
  [ ("panic",
      (["racing heart"; "heart racing"; "can't breathe"; "cannot breathe"; "dizzy";
        "trembling"; "shaking"; "chest tight"; "palpitations"],
       ["panic"; "scared"; "terrified"; "overwhelmed"; "nauseous"; "sweating";
        "hyperventilating"]));
    ("sleep",
      (["can't sleep"; "cannot sleep"; "thoughts won't stop"; "racing mind";
        "racing thoughts"; "lying awake"],
       ["insomnia"; "restless"; "tossing turning"; "mind racing"; "overthinking";
        "ruminating"; "bedtime"]));
    ("pre_event",
      (["interview"; "exam"; "test"; "presentation"; "meeting"; "tomorrow"; "next week"],
       ["nervous"; "worried about"; "preparing for"; "upcoming"; "performance";
        "evaluation"; "speech"]));
    ("isolation",
      (["alone"; "lonely"; "no one to talk to"; "nobody understands"; "isolated";
        "by myself"],
       ["abandoned"; "disconnected"; "empty"; "friendless"; "solitary"; "withdrawn"]));
    ("uncertainty",
      (["waiting for"; "don't know"; "what if"; "uncertain"; "unknown"; "unclear"],
       ["confused"; "unsure"; "doubtful"; "ambiguous"; "unpredictable"; "worrying about"]));
    ("decision_making",
      (["don't know what to"; "can't decide"; "cannot decide"; "choices"; "options";
        "confused about"],
       ["indecisive"; "torn between"; "struggling with"; "difficulty choosing";
        "overwhelmed by options"]));
    ("physical_triggers",
      (["caffeine"; "tired"; "exhausted"; "crowded"; "noisy"; "loud"; "bright lights"],
       ["stimulants"; "coffee"; "energy drink"; "fatigue"; "overstimulated";
        "sensory overload"])) ].

(** [weights]: 2.0 for a primary keyword, 1.0 for a secondary one. *)
Definition weight (primary : bool) : nat := if primary then 2 else 1.

(** [compiled_patterns]: per scenario the keywords, primary ones first,
    each standing for [r'\b' + re.escape(keyword) + r'\b']. *)
Definition compiled_patterns : list (string * list (string * bool)) :=
  (fun sk : string * (list string * list string) =>
     (sk.1, ((fun k => (k, true)) <$> sk.2.1) ++ ((fun k => (k, false)) <$> sk.2.2)))
  <$> scenario_keywords.

(** [len(re.findall(pattern, text, re.IGNORECASE))] *)
Definition count (text_lower keyword : string) : nat :=
  length (Re.findall true [Re.lit keyword] text_lower).

(** The inner loop for one scenario: [acc] is the scenario's entry in the
    [defaultdict], absent until a pattern matches. *)
Fixpoint scenario_total (text_lower : string) (patterns : list (string * bool))
  (acc : option nat) : option nat :=
  match patterns with
  | [] => acc
  | (keyword, primary) :: rest =>
      let n := count text_lower keyword in
      scenario_total text_lower rest
        (if n =? 0 then acc else Some (default 0 acc + n * weight primary))
  end.

Definition raw_scores (text_lower : string) : list (string * nat) :=
  omap (fun sp : string * list (string * bool) =>
          (fun v => (sp.1, v)) <$> scenario_total text_lower sp.2 None)
       compiled_patterns.

(** [max(scenario_scores.values())] *)
Definition max_score (scores : list (string * nat)) : nat :=
  foldr Nat.max 0 scores.*2.

Definition detect_intent (text : string) : list (string * Q) :=
  if String.eqb text "" then []
  else
    let scores := raw_scores (Str.lower text) in
    match scores with
    | [] => []
    | _ :: _ =>
        let top := max_score scores in
        (fun kv : string * nat => (kv.1, Z.of_nat kv.2 # Pos.of_nat top)) <$> scores
    end.

End IntentDetector.

(** ** Scenario router: [src/scenario_mapping/scenario_router.py] *)

Module ScenarioRouter.

(** The router's own crisis patterns, each [r'\b(p1|p2|...)\b'] given by
    its phrases. *)
Definition high_risk : list (list string) :=
  [ ["want to die"; "wanna die"; "wish i was dead"];
    ["kill myself"; "killing myself"; "end my life"];
    ["suicide"; "suicidal thoughts"; "suicidal"];
    ["better off dead"; "world better without me"];
    ["no point living"; "no reason to live"];
    ["end it all"; "ending it all"] ].

Definition medium_risk : list (list string) :=
  [ ["can't go on"; "cannot go on"; "give up"];
    ["hopeless"; "no hope"; "nothing left"];
    ["can't take it anymore"; "cannot take it"];
    ["harm myself"; "hurt myself"] ].

Definition scenario_to_flow : list (string * string) :=
  [ ("panic", "acute_anxiety_flow");
    ("sleep", "nighttime_flow");
    ("isolation", "isolation_flow");
    ("pre_event", "pre_event_flow");
    ("uncertainty", "uncertainty_flow");
    ("decision_making", "decision_making_flow");
    ("physical_triggers", "physical_triggers_flow") ].

(** [re.search(pattern, text_lower, re.IGNORECASE)] as a condition. *)
Definition search (text_lower : string) (group : list string) : bool :=
  negb (CrisisDetector.is_empty
          (Re.findall true (CrisisDetector.phrases group) text_lower)).

Record CrisisInfo : Type := mkInfo {
  is_crisis : bool;
  severity : string;
  patterns_found : list (list string)
}.

Definition detect_crisis (text : string) : CrisisInfo :=
  let text_lower := Str.lower text in
  let high := List.filter (search text_lower) high_risk in
  if negb (CrisisDetector.is_empty high) then mkInfo true "high" high
  else
    let medium := List.filter (search text_lower) medium_risk in
    if negb (CrisisDetector.is_empty medium) then mkInfo true "medium" medium
    else mkInfo false "none" [].

Fixpoint assoc {A} (k : string) (l : list (string * A)) : option A :=
  match l with
  | [] => None
  | (k', v) :: r => if String.eqb k k' then Some v else assoc k r
  end.

(** [max(d, key=d.get)]: the first key, in insertion order, whose score no
    other key exceeds. *)
Fixpoint top_entry (best : string * Q) (l : list (string * Q)) : string * Q :=
  match l with
  | [] => best
  | (k, v) :: r => if Qle_bool v best.2 then top_entry best r else top_entry (k, v) r
  end.

(** [max(d.values())] *)
Fixpoint max_value (best : Q) (l : list (string * Q)) : Q :=
  match l with
  | [] => best
  | (_, v) :: r => if Qle_bool v best then max_value best r else max_value v r
  end.

Definition intensity_of (intensity_score : Q) : string :=
  if Qle_bool (8 # 10) intensity_score then "high"
  else if Qle_bool (5 # 10) intensity_score then "medium"
  else "low".

Definition metadata (now : Z) (crisis : bool) (sev : string) (scenario intensity : pyval)
  (confidence : Q) (fallback : bool) : pydict :=
  [ ("timestamp", VInt now);
    ("crisis_detected", VBool crisis);
    ("crisis_severity", VStr sev);
    ("scenario", scenario);
    ("intensity", intensity);
    ("confidence", VRat confidence);
    ("fallback_used", VBool fallback) ].

Definition route_scenario (now : Z) (intent_scores emotion_scores : list (string * Q))
  (text : string) : string * pydict :=
  let crisis_info := detect_crisis text in
  if is_crisis crisis_info then
    (if String.eqb (severity crisis_info) "high" then "crisis_emergency_flow"
     else "crisis_support_flow",
     metadata now true (severity crisis_info) VNone VNone 0 false)
  else
    match intent_scores with
    | first :: rest =>
        let '(top_scenario, top_score) := top_entry first rest in
        match assoc top_scenario scenario_to_flow with
        | Some mapped_flow =>
            if negb (String.eqb mapped_flow "") then
              let intensity_score :=
                match emotion_scores with
                | (_, v) :: r => max_value v r
                | [] => 5 # 10
                end in
              (mapped_flow,
               metadata now false "none" (VStr top_scenario)
                 (VStr (intensity_of intensity_score)) top_score false)
            else
              ("general_anxiety_flow",
               metadata now false "none" (VStr top_scenario) VNone top_score true)
        | None =>
            ("general_anxiety_flow",
             metadata now false "none" (VStr top_scenario) VNone top_score true)
        end
    | [] =>
        ("general_anxiety_flow", metadata now false "none" VNone VNone 0 true)
    end.

End ScenarioRouter.

(** ** Pipeline: the flow-execution step and session end of
    [src/main_pipeline.py]

    Only what [process_message] does with the manager (its step 6) and the
    manager call of [end_user_session] are modelled; the normalised text,
    the scores and the personalisation record come from collaborators and
    are arguments.  [handle_pipeline_error] and [continue_conversation] are
    modelled in full, the latter over its two collaborators. *)

Module Pipeline.

Definition scores_dict (scores : list (string * Q)) : pyval :=
  VDict ((fun kv : string * Q => (kv.1, VRat kv.2)) <$> scores).

(** The [clinical_context] dictionary of step 5. *)
Definition clinical_context (now : Z) (user_text normalized_text : string)
  (intent_scores emotion_scores : list (string * Q)) (crisis_detected : bool)
  (context : option pydict) (personalization_recs : pyval) : pydict :=
  [ ("text", VStr user_text);
    ("normalized_text", VStr normalized_text);
    ("emotion_scores", scores_dict emotion_scores);
    ("intent_scores", scores_dict intent_scores);
    ("crisis_detected", VBool crisis_detected);
    ("user_context", VDict match context with
                           | Some c => if truthy (VDict c) then c else []
                           | None => []
                           end);
    ("timestamp", VInt now);
    ("personalization_recs", personalization_recs) ].

(** Steps 4 to 6 of [process_message]: screen the raw text, route on the
    normalised text, then override, continue or start. *)
Definition clinical_flow_execution (now : Z) (user_id user_text normalized_text : string)
  (intent_scores emotion_scores : list (string * Q)) (context : option pydict)
  (personalization_recs : pyval) (m : ClinicalFlowManager.Manager)
  : option (pydict * ClinicalFlowManager.Manager) :=
  let crisis_detected := CrisisDetector.detect_crisis_keywords user_text in
  let ctx := clinical_context now user_text normalized_text intent_scores
               emotion_scores crisis_detected context personalization_recs in
  let '(selected_flow, routing_metadata) :=
    ScenarioRouter.route_scenario now intent_scores emotion_scores normalized_text in
  if crisis_detected || get_truthy "crisis_detected" routing_metadata then
    Some (ClinicalFlowManager.activate_crisis_override now user_id user_text m)
  else
    match ClinicalFlowManager.active_flows m !! user_id with
    | Some _ => ClinicalFlowManager.process_clinical_response now user_id user_text m
    | None => ClinicalFlowManager.start_clinical_flow now user_id selected_flow
                (Some ctx) m
    end.

(** The manager call of [end_user_session]. *)
Definition end_user_session (now : Z) (user_id : string)
  (m : ClinicalFlowManager.Manager) : option ClinicalFlowManager.Manager :=
  match ClinicalFlowManager.active_flows m !! user_id with
  | Some _ =>
      ClinicalFlowManager.complete_clinical_session now user_id
        [ ("flow_completed", VBool true); ("reason", VStr "user_ended_session") ] m
  | None => Some m
  end.

(** [handle_pipeline_error]: the reply of the pipeline when processing has
    raised.  The screen of the text cannot raise on a string, so the inner
    [try] always reaches its assignment. *)
Definition handle_pipeline_error (user_id user_text error_msg : string) : pydict :=
  let crisis_detected := CrisisDetector.detect_crisis_keywords user_text in
  let clinical_response : pydict :=
    [ ("message", VStr "I'm experiencing a technical difficulty, but I still want to help you. How are you feeling right now?");
      ("flow_type", VStr "error_support");
      ("requires_input", VBool true);
      ("suggested_responses",
        VStrs ["I need help"; "I'm feeling anxious"; "I'm in crisis"]);
      ("step_info", VDict [ ("current_step", VInt 1);
                            ("total_steps", VInt 1);
                            ("intervention_type", VStr "error_recovery") ]) ] in
  let error_response : pydict :=
    [ ("original_text", VStr user_text);
      ("normalized_text", VStr user_text);
      ("intent_scores", VDict []);
      ("emotion_scores", VDict []);
      ("selected_flow", VStr "error_fallback");
      ("metadata", VDict [ ("error", VBool true);
                           ("crisis_detected", VBool crisis_detected) ]);
      ("clinical_response", VDict clinical_response);
      ("session", VDict [ ("user_id", VStr user_id);
                          ("flow_active", VBool false);
                          ("error_occurred", VBool true);
                          ("restart_recommended", VBool true) ]);
      ("safety", VDict [ ("crisis_detected", VBool crisis_detected);
                         ("safety_resources",
                           VStrs [ "National Suicide Prevention Lifeline: 988";
                                   "Crisis Text Line: Text HOME to 741741";
                                   "Emergency Services: 911" ]);
                         ("emergency_protocols", VBool crisis_detected) ]);
      ("analytics", VDict [ ("top_intent", VStr "error");
                            ("top_emotion", VStr "unknown");
                            ("confidence", VRat 0);
                            ("multiple_scenarios", VBool false);
                            ("processing_successful", VBool false);
                            ("error_message", VStr error_msg) ]) ] in
  if crisis_detected then
    dict_set "clinical_response"
      (VDict (dict_set "flow_type" (VStr "crisis_override")
                (dict_set "message" (VStr "I'm having technical difficulties, but I'm very concerned about your safety. Please reach out for immediate help: National Suicide Prevention Lifeline (988) or Emergency Services (911).")
                   clinical_response)))
      error_response
  else error_response.

(** What a call of a collaborator did: it returned, or it raised an
    exception [e] with text [str(e)]. *)
Inductive call_result : Type :=
  | Returned
  | Raised (msg : string).

Section Conversation.

(** [process_message] as a whole, for a user without an active flow. *)
Variable process_message :
  string -> string -> ClinicalFlowManager.Manager
  -> pydict * option ClinicalFlowManager.Manager.

(** [user_memory.append_user_turn], with its arguments [user_id],
    [user_message], [bot_message], [flow_name], [flow_step] and the
    timestamp of [meta]. *)
Variable append_user_turn :
  string -> string -> pyval -> pyval -> pyval -> Z -> call_result.

(** [str(e)] for an exception whose text the manager's model does not
    carry: one raised inside the manager, or by [.get] on a [step_info]
    that is not a dictionary. *)
Variable error_text : string.

(** [continue_conversation].  The manager is the one the call leaves
    behind; it is [None] where the manager itself raised, since its model
    does not follow a call that raises.  [d[k]] on a missing key raises
    [KeyError(k)], whose text is the key in single quotes. *)
Definition continue_conversation (now : Z) (user_id user_input : string)
  (m : ClinicalFlowManager.Manager)
  : pydict * option ClinicalFlowManager.Manager :=
  match ClinicalFlowManager.active_flows m !! user_id with
  | None => process_message user_input user_id m
  | Some _ =>
      match ClinicalFlowManager.process_clinical_response now user_id user_input m with
      | None => (handle_pipeline_error user_id user_input error_text, None)
      | Some (clinical_response, m1) =>
          match ClinicalFlowManager.get_clinical_flow_status now user_id m1 with
          | None => (handle_pipeline_error user_id user_input error_text, Some m1)
          | Some flow_status =>
              let response : pydict :=
                [ ("user_input", VStr user_input);
                  ("clinical_response", VDict clinical_response);
                  ("session", VDict
                     [ ("user_id", VStr user_id);
                       ("flow_active",
                         VBool (bool_decide
                                  (is_Some (ClinicalFlowManager.active_flows m1 !! user_id))));
                       ("flow_status", flow_status) ]);
                  ("conversation_continued", VBool true) ] in
              let response :=
                if get_truthy "flow_completed" clinical_response
                then dict_set "flow_completion"
                       (dict_get_default "clinical_outcomes" (VDict []) clinical_response)
                       response
                else response in
              match dict_get "message" clinical_response with
              | None => (handle_pipeline_error user_id user_input "'message'", Some m1)
              | Some bot_message =>
                  let flow_name := dict_get_default "flow_type" VNone clinical_response in
                  match dict_get "step_info" clinical_response with
                  | None =>
                      (handle_pipeline_error user_id user_input "'step_info'", Some m1)
                  | Some (VDict step_info) =>
                      let flow_step := dict_get_default "current_step" (VInt 0) step_info in
                      match append_user_turn user_id user_input bot_message flow_name
                              flow_step now with
                      | Returned => (response, Some m1)
                      | Raised msg =>
                          (handle_pipeline_error user_id user_input msg, Some m1)
                      end
                  | Some _ =>
                      (handle_pipeline_error user_id user_input error_text, Some m1)
                  end
              end
          end
      end
  end.

End Conversation.

End Pipeline.

(** The keys of [clinical_flow_registry] as [ClinicalFlowManager.__init__]
    fills it, in insertion order. *)
Definition registry_names : list string :=
  [ "acute_anxiety_flow"; "panic_crisis_flow"; "panic_breathing_flow"; "panic_flow";
    "nighttime_flow"; "sleep_flow"; "sleep_hygiene_flow"; "insomnia_flow";
    "pre_event_flow"; "pre_event_nervousness_flow"; "performance_anxiety_flow";
    "event_anxiety_flow";
    "isolation_flow"; "loneliness_flow"; "social_anxiety_flow"; "connection_flow";
    "uncertainty_flow"; "worry_flow"; "anticipatory_anxiety_flow"; "unknown_flow";
    "decision_making_flow"; "choice_paralysis_flow"; "indecision_flow"; "decision_flow";
    "physical_triggers_flow"; "somatic_anxiety_flow"; "environmental_triggers_flow";
    "body_anxiety_flow";
    "general_anxiety_flow" ].

(** ** Fixtures for concrete runs *)

(** A knowledge base without content: every wrapper misses and the keyword
    search finds nothing. *)
Definition no_content : ContentRetriever :=
  {| get_reassurance_content := fun _ _ => None;
     get_educational_content := fun _ _ => None;
     get_technique_for_scenario := fun _ _ _ => None;
     search_by_keywords := fun _ _ _ => Some [] |}.

(** The four registry names of the panic class. *)
Definition panic_registry (R : ContentRetriever) : list (string * FlowClass) :=
  [ ("acute_anxiety_flow", AcuteAnxietyFlow.class R);
    ("panic_crisis_flow", AcuteAnxietyFlow.class R);
    ("panic_breathing_flow", AcuteAnxietyFlow.class R);
    ("panic_flow", AcuteAnxietyFlow.class R) ].

(** Feed the inputs of successive turns to a [process_user_input]. *)
Fixpoint turns
  (pui : Z -> BaseFlow.FlowState -> string -> option (pydict * BaseFlow.FlowState))
  (now : Z) (s : BaseFlow.FlowState) (inputs : list string)
  : option BaseFlow.FlowState :=
  match inputs with
  | [] => Some s
  | i :: rest => '(_, s') ← pui now s i; turns pui now s' rest
  end.

(** The engine of a panic flow over [no_content]. *)
Definition panic_turn : Z -> BaseFlow.FlowState -> string
                        -> option (pydict * BaseFlow.FlowState) :=
  BaseFlow.process_user_input AcuteAnxietyFlow.data
    (AcuteAnxietyFlow.process_clinical_step no_content).

(** A manager with the panic flows over [no_content], and the same after
    user "u" started [panic_flow] at time 0 with a calm opening line. *)
Definition fresh_manager : ClinicalFlowManager.Manager :=
  ClinicalFlowManager.new_manager no_content (panic_registry no_content)
    [("total_items", VInt 0)].

Definition opening : option pydict :=
  Some [("text", VStr "my heart is racing")].

Definition started_manager : option ClinicalFlowManager.Manager :=
  snd <$> ClinicalFlowManager.start_clinical_flow 0 "u" "panic_flow" opening
            fresh_manager.

(** Feed the inputs of successive turns to the manager for user "u". *)
Fixpoint manager_turns (now : Z) (m : ClinicalFlowManager.Manager)
  (inputs : list string) : option ClinicalFlowManager.Manager :=
  match inputs with
  | [] => Some m
  | i :: rest =>
      '(_, m') ← ClinicalFlowManager.process_clinical_response now "u" i m;
      manager_turns now m' rest
  end.

(** [current_step] of the active flow of a user, if any. *)
Definition active_step (user : string) (m : ClinicalFlowManager.Manager)
  : option nat :=
  (fun e => BaseFlow.current_step
              (ClinicalFlowManager.state (ClinicalFlowManager.flow_instance e)))
  <$> ClinicalFlowManager.active_flows m !! user.

(** The outcome snapshots archived for a user. *)
Definition outcomes_of (user : string) (m : ClinicalFlowManager.Manager)
  : list pyval :=
  default [] (ClinicalFlowManager.clinical_outcomes m !! user).

(** The manager after the first turn "done" of user "u". *)
Definition running_manager : ClinicalFlowManager.Manager :=
  default fresh_manager (m ← started_manager; manager_turns 1 m ["done"]).

(** The reply [end_user_session] of [src/main_pipeline.py] hands to
    [complete_clinical_session]. *)
Definition user_ended_session : pydict :=
  [ ("flow_completed", VBool true); ("reason", VStr "user_ended_session") ].

(** Completion rate, techniques and success flag of an outcome record. *)
Definition outcome_summary (o : pyval)
  : option pyval * option pyval * option pyval :=
  match o with
  | VDict d => (dict_get "completion_rate" d, dict_get "techniques_used" d,
                dict_get "clinical_success" d)
  | _ => (None, None, None)
  end.

(** Vocabulary for crisis replies. *)

Definition is_str (s : string) (v : option pyval) : bool :=
  match v with
  | Some (VStr s') => String.eqb s s'
  | _ => false
  end.

(** The reply lists a crisis resource with this name and this contact. *)
Definition resource_listed (name contact : string) (reply : pydict) : bool :=
  match dict_get "crisis_resources" reply with
  | Some (VList l) =>
      existsb (fun v => match v with
                        | VDict d => is_str name (dict_get "name" d)
                                     && is_str contact (dict_get "contact" d)
                        | _ => false
                        end) l
  | _ => false
  end.

(** The three core resources of a crisis reply. *)
Definition core_resources_listed (reply : pydict) : bool :=
  resource_listed "Emergency Services" "911" reply
  && resource_listed "Crisis Text Line" "Text HOME to 741741" reply
  && resource_listed "National Suicide Prevention Lifeline" "988" reply.

(** A crisis reply as the specification describes it: the three core
    resources by name and contact, free-form replies switched off (the
    manager and the base flow name this key differently), immediate
    escalation asked for, and the tag. *)
Definition complete_crisis_reply (reply : pydict) : bool :=
  core_resources_listed reply
  && (get_truthy "disable_free_form_responses" reply
      || get_truthy "disable_free_form" reply)
  && get_truthy "immediate_escalation" reply
  && is_str "crisis_override" (dict_get "flow_type" reply).

(** The three contacts as the error reply of the pipeline lists them. *)
Definition fallback_contacts : list string :=
  [ "National Suicide Prevention Lifeline: 988";
    "Crisis Text Line: Text HOME to 741741";
    "Emergency Services: 911" ].

(** Vocabulary for the crisis screen: the phrase tables behind the
    patterns, and what it means for a phrase to occur as a whole word. *)

Definition high_risk_table : list (string * list (list string)) :=
  [ ("suicidal_ideation",
      [ ["want to die"; "wanna die"; "wish i was dead"];
        ["kill myself"; "killing myself"; "end my life"];
        ["suicide"; "suicidal thoughts"; "suicidal"];
        ["better off dead"; "world better without me"];
        ["no point living"; "no reason to live"] ]);
    ("self_harm",
      [ ["cut myself"; "cutting myself"; "hurt myself"];
        ["harm myself"; "harming myself"];
        ["self harm"; "self-harm"] ]);
    ("hopelessness",
      [ ["can't go on"; "cannot go on"; "give up"];
        ["hopeless"; "no hope"; "nothing left"];
        ["end it all"; "ending it all"] ]) ].

Definition medium_risk_table : list (string * list (list string)) :=
  [ ("severe_distress",
      [ ["can't take it anymore"; "cannot take it"];
        ["overwhelmed"; "breaking down"; "falling apart"];
        ["desperate"; "desperation"] ]) ].

(** The patterns a phrase table stands for. *)
Definition table_patterns (table : list (string * list (list string)))
  : list (string * list CrisisDetector.pattern) :=
  (fun cg : string * list (list string) =>
     (cg.1, CrisisDetector.phrases <$> cg.2)) <$> table.

(** All phrases of a table, and those filed under one category. *)
Definition table_phrases (table : list (string * list (list string))) : list string :=
  table ≫= (fun cg : string * list (list string) => cg.2 ≫= id).

Definition category_phrases (c : string) (table : list (string * list (list string)))
  : list string :=
  table ≫= (fun cg : string * list (list string) =>
              if String.eqb c cg.1 then cg.2 ≫= id else []).

Definition high_risk_phrases : list string := table_phrases high_risk_table.
Definition medium_risk_phrases : list string := table_phrases medium_risk_table.

(** The last character of [s], or [d] when [s] is empty. *)
Fixpoint last_or (d : option ascii) (s : string) : option ascii :=
  match s with
  | EmptyString => d
  | String c r => last_or (Some c) r
  end.

(** One branch matches at the front of [s] between two word boundaries. *)
Definition branch_matches (ic : bool) (b : Re.branch) (prev : option ascii)
  (s : string) : bool :=
  Re.boundary prev (Re.head s) &&
  match Re.match_branch ic b prev s with
  | Some (_, last, rest) => Re.boundary last (Re.head rest)
  | None => false
  end.

(** Some branch matches so at some position of [s]. *)
Fixpoint hit_somewhere (ic : bool) (bs : list Re.branch) (prev : option ascii)
  (s : string) : bool :=
  match s with
  | EmptyString => false
  | String c r =>
      existsb (fun b => branch_matches ic b prev s) bs
      || hit_somewhere ic bs (Some c) r
  end.

(** The phrase occurs in the text as a whole word, letter case aside. *)
Definition occurs (phrase text : string) : bool :=
  hit_somewhere true [Re.lit phrase] None text.

(** A phrase that begins and ends with a word character. *)
Definition word_delimited (phrase : string) : bool :=
  Re.is_word (Re.head phrase) && Re.is_word (last_or None phrase).

(** Vocabulary for ratings: an entry of [effectiveness_ratings] that
    carries a rating between 1 and 10. *)
Definition rating_entry_ok (v : pyval) : bool :=
  match v with
  | VDict d =>
      match dict_get "rating" d with
      | Some (VInt z) => (1 <=? z)%Z && (z <=? 10)%Z
      | _ => false
      end
  | _ => false
  end.

Definition ratings_ok (s : BaseFlow.FlowState) : bool :=
  forallb rating_entry_ok (BaseFlow.effectiveness_ratings s).

(** The record [process_user_input] files for a text. *)
Definition response_record (D : BaseFlow.FlowData) (now : Z) (s : BaseFlow.FlowState)
  (input : string) : pyval :=
  VDict [ ("input", VStr input);
          ("timestamp", VInt now);
          ("safety_screened", VBool true);
          ("step_intervention", VStr (BaseFlow.step_intervention D s)) ].

(** Vocabulary for the decision-making flow: the two steps that ask again. *)
Definition decision_holds (step : nat) (text : string) : bool :=
  (step =? 2) && negb (Str.any_in DecisionMakingFlow.option_indicators text)
  || (step =? 5) && negb (Str.any_in DecisionMakingFlow.time_indicators text).

(** Fixtures for the general flow: a manager that knows the general flow
    only, and an entry for a flow that has passed its last step. *)
Definition general_manager : ClinicalFlowManager.Manager :=
  ClinicalFlowManager.new_manager no_content
    [("general_anxiety_flow", GeneralAnxietyFlow.class no_content)]
    [("total_items", VInt 0)].

Definition general_entry_past_end : ClinicalFlowManager.FlowEntry :=
  ClinicalFlowManager.mkEntry
    (ClinicalFlowManager.mkInstance (GeneralAnxietyFlow.class no_content)
       (BaseFlow.set_current_step 5 (BaseFlow.new_state 0)))
    0 "general_anxiety_flow" [] 5 true.

Definition general_manager_past_end : ClinicalFlowManager.Manager :=
  ClinicalFlowManager.set_active_flows {["u" := general_entry_past_end]}
    general_manager.

(** Vocabulary for the manager's per-user records. *)
Definition history_of (user : string) (m : ClinicalFlowManager.Manager) : list pyval :=
  default [] (ClinicalFlowManager.session_history m !! user).

(** Nothing that belongs to user [u] differs between two managers. *)
Definition same_for (u : string) (m m' : ClinicalFlowManager.Manager) : Prop :=
  ClinicalFlowManager.active_flows m' !! u = ClinicalFlowManager.active_flows m !! u
  /\ ClinicalFlowManager.clinical_outcomes m' !! u
     = ClinicalFlowManager.clinical_outcomes m !! u
  /\ ClinicalFlowManager.session_history m' !! u
     = ClinicalFlowManager.session_history m !! u.

(** The event log and the outcome list of [user] only grew, the latter by
    at most one record. *)
Definition only_grew (user : string) (m m' : ClinicalFlowManager.Manager) : Prop :=
  (exists added, history_of user m' = history_of user m ++ added)
  /\ (exists new, outcomes_of user m' = outcomes_of user m ++ new /\ length new <= 1).

(** Vocabulary for the crisis reply: an entry the manager adds from
    retrieved content. *)
Definition additional_entry_ok (v : pyval) : bool :=
  match v with
  | VDict [ ("name", VStr n); ("description", VStr d); ("source", VStr src) ] =>
      String.eqb n "Additional Support"
      && String.eqb src "therapeutic_knowledge_base"
      && (String.length d <=? 103)
  | _ => false
  end.

(** The two names the router returns for a crisis. *)
Definition crisis_flow_names : list string :=
  ["crisis_emergency_flow"; "crisis_support_flow"].

(** Vocabulary for the intent detector: all keywords of a scenario entry,
    and whether one of them occurs in a text as a whole word. *)
Definition entry_keywords (sk : string * (list string * list string)) : list string :=
  sk.2.1 ++ sk.2.2.

Definition keyword_occurs (text_lower : string)
  (sk : string * (list string * list string)) : bool :=
  existsb (fun kw => occurs kw text_lower) (entry_keywords sk).

(** * Properties *)

(** ** Crisis screen *)

Section CrisisScreen.

Import CrisisDetector.

Implicit Types (tier : list (string * list pattern)) (t c : string).

Lemma is_empty_app {A} (l1 l2 : list A) :
  is_empty (l1 ++ l2) = is_empty l1 && is_empty l2.
Proof. by destruct l1. Qed.

Lemma is_empty_fmap {A B} (f : A -> B) (l : list A) :
  is_empty (f <$> l) = is_empty l.
Proof. by destruct l. Qed.

Lemma is_empty_nil_iff {A} (l : list A) : is_empty l = true <-> l = [].
Proof. destruct l; naive_solver. Qed.

Lemma category_matches_empty t (cat : string) (ps : list pattern) :
  is_empty (p ← ps; (fun m => (cat, m)) <$> Re.findall true p t)
  = negb (existsb (pattern_hit t) ps).
Proof.
  induction ps as [|p ps IH]; [done|].
  cbn [mbind list_bind existsb]. rewrite is_empty_app, is_empty_fmap, IH.
  unfold pattern_hit. by rewrite negb_orb, negb_involutive.
Qed.

Lemma tier_matches_empty tier t :
  is_empty (tier_matches tier t)
  = negb (existsb (fun cp => existsb (pattern_hit t) cp.2) tier).
Proof.
  unfold tier_matches. induction tier as [|[cat ps] tier IH]; [done|].
  cbn [mbind list_bind existsb snd]. rewrite is_empty_app, IH.
  rewrite category_matches_empty. by rewrite negb_orb.
Qed.

Lemma tier_matches_categories tier t c :
  c ∈ (fst <$> tier_matches tier t)
  <-> existsb (fun cp => String.eqb c cp.1 && existsb (pattern_hit t) cp.2) tier = true.
Proof.
  rewrite existsb_exists. unfold tier_matches. split.
  - intros [[c' m] [-> Hin]]%list_elem_of_fmap.
    apply list_elem_of_bind in Hin as [[cat ps] [Hin Hcp]].
    apply list_elem_of_bind in Hin as [p [Hin Hp]].
    apply list_elem_of_fmap in Hin as [m' [[= -> ->] Hm]].
    exists (cat, ps). split; [by apply list_elem_of_In|].
    cbn. rewrite String.eqb_refl. cbn. apply existsb_exists.
    exists p. split; [by apply list_elem_of_In|].
    unfold pattern_hit. by destruct (Re.findall true p t); [inversion Hm|].
  - intros [[cat ps] [Hin [Heq Hex]%andb_prop]]. cbn in Heq, Hex.
    apply String.eqb_eq in Heq as ->.
    apply existsb_exists in Hex as [p [Hp Hhit]].
    unfold pattern_hit in Hhit.
    destruct (Re.findall true p t) as [|m ms] eqn:Hfind; [done|].
    apply list_elem_of_fmap. exists (cat, m). split; [done|].
    apply list_elem_of_bind. exists (cat, ps).
    split; [|by apply list_elem_of_In].
    apply list_elem_of_bind. exists p. split; [|by apply list_elem_of_In].
    rewrite Hfind. apply list_elem_of_fmap. exists m. split; [done|]. left.
Qed.

End CrisisScreen.

(** C8.  Crisis screening is a function of the text alone with tiered
    precedence: a match of any high-tier pattern (suicidal ideation,
    self-harm, hopelessness) gives level "high" whatever the medium tier
    says; with no high-tier match, a medium-tier (severe distress) match
    gives "medium"; with neither, "none".  The reported categories are
    exactly those with a matching pattern, and [detect_crisis_keywords] is
    true exactly when the level is not "none". *)
Theorem crisis_level_tiered_precedence (text : string) :
  let r := CrisisDetector.detect_crisis_level text in
  CrisisDetector.crisis_level r
    = (if CrisisDetector.tier_hit CrisisDetector.high_risk_patterns text then "high"
       else if CrisisDetector.tier_hit CrisisDetector.medium_risk_patterns text
            then "medium"
       else "none")
  /\ (forall c, bool_decide (c ∈ CrisisDetector.categories r)
                = CrisisDetector.category_hit c text)
  /\ CrisisDetector.detect_crisis_keywords text
     = CrisisDetector.tier_hit CrisisDetector.high_risk_patterns text
       || CrisisDetector.tier_hit CrisisDetector.medium_risk_patterns text.
Proof.
  assert (Hlevel :
    CrisisDetector.crisis_level (CrisisDetector.detect_crisis_level text)
    = (if CrisisDetector.tier_hit CrisisDetector.high_risk_patterns text then "high"
       else if CrisisDetector.tier_hit CrisisDetector.medium_risk_patterns text
            then "medium" else "none")).
  { unfold CrisisDetector.detect_crisis_level, CrisisDetector.tier_hit,
      CrisisDetector.high_risk_found, CrisisDetector.medium_risk_found.
    rewrite !tier_matches_empty, !negb_involutive.
    by repeat case_match. }
  cbv zeta. split; [exact Hlevel|]. split.
  - intros c. unfold CrisisDetector.category_hit.
    rewrite existsb_app.
    assert (Hcats : CrisisDetector.categories (CrisisDetector.detect_crisis_level text)
      = list_to_set (fst <$> (CrisisDetector.high_risk_found text
                               ++ CrisisDetector.medium_risk_found text))).
    { unfold CrisisDetector.detect_crisis_level. by repeat case_match. }
    rewrite Hcats. apply eq_true_iff_eq.
    rewrite bool_decide_eq_true, elem_of_list_to_set, fmap_app, elem_of_app.
    unfold CrisisDetector.high_risk_found, CrisisDetector.medium_risk_found.
    rewrite !tier_matches_categories, orb_true_iff. done.
  - unfold CrisisDetector.detect_crisis_keywords. rewrite Hlevel.
    by repeat case_match.
Qed.

(** ** Rating extraction *)

Section Rating.

Import AcuteAnxietyFlow.

Lemma rating_token_range prev s m :
  Re.match_here false rating_pattern prev s = Some m ->
  1 <= int_of_digits m <= 10.
Proof.
  unfold Re.match_here. destruct (Re.boundary prev (Re.head s)); [|done].
  destruct s as [|c r]; [done|].
  cbn [rating_pattern Re.first_branch Re.match_branch Re.lit Re.atom_matches].
  destruct (Str.in_range _ _ c) eqn:Hc.
  - destruct (Re.boundary (Some c) (Re.head r)).
    + intros [= <-]. cbn. unfold digit_value.
      unfold Str.in_range in Hc. cbn in Hc.
      apply andb_prop in Hc as [?%Nat.leb_le ?%Nat.leb_le].
      change (Str.code "1") with 49 in *. change (Str.code "9") with 57 in *. lia.
    + destruct (Ascii.eqb_spec "1" c) as [<-|]; [|done].
      destruct r as [|c' r']; [done|].
      destruct (Ascii.eqb_spec "0" c') as [<-|]; [|done].
      destruct (Re.boundary _ _); [|done].
      intros [= <-]. vm_compute. lia.
  - destruct (Ascii.eqb_spec "1" c) as [<-|]; [|done].
    destruct r as [|c' r']; [done|].
    destruct (Ascii.eqb_spec "0" c') as [<-|]; [|done].
    destruct (Re.boundary _ _); [|done].
    intros [= <-]. vm_compute. lia.
Qed.

Lemma scan_rating_range s : forall prev skip m,
  m ∈ Re.scan false rating_pattern prev skip s -> 1 <= int_of_digits m <= 10.
Proof.
  induction s as [|c r IH]; intros prev skip m; cbn [Re.scan]; [by inversion 1|].
  destruct skip as [|k]; [|by apply IH].
  destruct (Re.match_here _ _ _ _) as [m'|] eqn:Hm; [|by apply IH].
  intros [->|Hin]%elem_of_cons; [by eapply rating_token_range|by eapply IH].
Qed.

End Rating.


(** ** Step scripts *)

(** C9 fails for the decision-making script: it is one of the eight
    scripts and none of its seven steps has kind [effectiveness_check]. *)
Lemma decision_making_has_no_effectiveness_check :
  ("decision_making", Scenarios.decision_making) ∈ Scenarios.all
  /\ length Scenarios.decision_making = 7
  /\ Scenarios.has_effectiveness_check Scenarios.decision_making = false
  /\ ~ (exists st, st ∈ Scenarios.decision_making
                   /\ BaseFlow.step_type st = "effectiveness_check").
Proof.
  split; [set_solver|]. split; [done|]. split; [done|].
  intros [st [Hin Hty]]. unfold Scenarios.decision_making in Hin.
  set_unfold in Hin. by intuition subst.
Qed.

(** C9, amended.  Of the eight step scripts exactly two, panic and
    general_anxiety, contain a step of kind [effectiveness_check], and in
    both it is the last step; the other six scripts contain none. *)
Theorem effectiveness_check_scenarios :
  (List.filter (fun p => Scenarios.has_effectiveness_check p.2) Scenarios.all).*1
    = ["panic"; "general_anxiety"]
  /\ (BaseFlow.step_type <$> last Scenarios.panic) = Some "effectiveness_check"
  /\ (BaseFlow.step_type <$> last Scenarios.general_anxiety)
     = Some "effectiveness_check"
  /\ length (List.filter Scenarios.is_effectiveness_check Scenarios.panic) = 1
  /\ length (List.filter Scenarios.is_effectiveness_check Scenarios.general_anxiety) = 1.
Proof. by vm_compute. Qed.

(** ** Crisis replies *)

(** When the lookup raises, or returns nothing usable, the reply carries
    the four fixed resources and nothing else. *)
Lemma crisis_override_lookup_raises now user text m :
  search_by_keywords (ClinicalFlowManager.content_retriever m)
    ["crisis"; "safety"; "help"; "emergency"] "resources" 2 = None ->
  dict_get "crisis_resources" (ClinicalFlowManager.activate_crisis_override now user text m).1
  = Some (VList ClinicalFlowManager.core_crisis_resources).
Proof.
  intros H. unfold ClinicalFlowManager.activate_crisis_override,
    ClinicalFlowManager.additional_resources.
  cbn [fst ClinicalFlowManager.content_retriever
       ClinicalFlowManager.log_clinical_event
       ClinicalFlowManager.set_session_history
       ClinicalFlowManager.set_active_flows].
  rewrite H. by rewrite app_nil_r.
Qed.

(** C3, as stated, fails on the pipeline's error reply.  When processing
    has failed on the text "I want to die", [handle_pipeline_error] answers
    with a reply tagged [flow_type = "crisis_override"] that has no
    [crisis_resources] list, no key that switches free-form replies off and
    no [immediate_escalation] key; neither the reply nor the envelope
    around it is a complete crisis reply. *)
Lemma error_fallback_crisis_reply_incomplete :
  let envelope := Pipeline.handle_pipeline_error "u" "I want to die" "'step_info'" in
  exists reply,
    dict_get "clinical_response" envelope = Some (VDict reply)
    /\ dict_get "flow_type" reply = Some (VStr "crisis_override")
    /\ dict_get "crisis_resources" reply = None
    /\ dict_get "disable_free_form_responses" reply = None
    /\ dict_get "disable_free_form" reply = None
    /\ dict_get "immediate_escalation" reply = None
    /\ complete_crisis_reply reply = false
    /\ complete_crisis_reply envelope = false.
Proof.
  assert (Hcrisis : CrisisDetector.detect_crisis_keywords "I want to die" = true)
    by (vm_compute; reflexivity).
  cbv zeta. unfold Pipeline.handle_pipeline_error. rewrite Hcrisis.
  eexists. split; [reflexivity|]. repeat split; reflexivity.
Qed.

(** C3, amended.  The crisis replies built by the flow layer, the manager's
    for any state of the manager and any behaviour of its content retriever
    (a result list, items that make the loop raise, or an exception from
    the lookup itself) and the base flow's, list the three core resources
    by name and contact, switch free-form replies off, ask for immediate
    escalation and are tagged [flow_type = "crisis_override"].  The reply
    of [handle_pipeline_error] is a different structure: it carries exactly
    the keys [message], [flow_type], [requires_input], [suggested_responses]
    and [step_info], asks for input, and its envelope lists the three
    contacts as plain strings in the [safety] block.  It is tagged
    [crisis_override], with [emergency_protocols] on, exactly when the text
    matches a crisis pattern, and tagged [error_support] otherwise. *)
Theorem flow_layer_crisis_replies_complete :
  (forall now user text m,
     let reply := (ClinicalFlowManager.activate_crisis_override now user text m).1 in
     core_resources_listed reply = true
     /\ dict_get "disable_free_form_responses" reply = Some (VBool true)
     /\ dict_get "immediate_escalation" reply = Some (VBool true)
     /\ dict_get "flow_type" reply = Some (VStr "crisis_override"))
  /\ (forall s,
        let reply := (BaseFlow.activate_crisis_protocol s).1 in
        core_resources_listed reply = true
        /\ dict_get "disable_free_form" reply = Some (VBool true)
        /\ dict_get "immediate_escalation" reply = Some (VBool true)
        /\ dict_get "flow_type" reply = Some (VStr "crisis_override"))
  /\ (forall user text msg,
        let envelope := Pipeline.handle_pipeline_error user text msg in
        let crisis := CrisisDetector.detect_crisis_keywords text in
        exists reply safety,
          dict_get "clinical_response" envelope = Some (VDict reply)
          /\ dict_get "safety" envelope = Some (VDict safety)
          /\ reply.*1 = [ "message"; "flow_type"; "requires_input";
                          "suggested_responses"; "step_info" ]
          /\ dict_get "flow_type" reply
             = Some (VStr (if crisis then "crisis_override" else "error_support"))
          /\ dict_get "requires_input" reply = Some (VBool true)
          /\ dict_get "safety_resources" safety = Some (VStrs fallback_contacts)
          /\ dict_get "emergency_protocols" safety = Some (VBool crisis)
          /\ complete_crisis_reply reply = false
          /\ complete_crisis_reply envelope = false).
Proof.
  split; [|split; [done|]].
  - intros now user text m. cbv zeta.
    unfold ClinicalFlowManager.activate_crisis_override.
    cbn [fst]. split; [|done].
    unfold core_resources_listed, resource_listed.
    cbn [dict_get String.eqb Ascii.eqb Bool.eqb].
    by rewrite !existsb_app.
  - intros user text msg. cbv zeta. unfold Pipeline.handle_pipeline_error.
    destruct (CrisisDetector.detect_crisis_keywords text);
      (eexists _, _; split; [reflexivity|]; repeat split; reflexivity).
Qed.

(** ** Engine: one turn of a flow *)

Section Engine.

Import BaseFlow.

Context (R : ContentRetriever).

(** The panic step logic never moves the step index itself. *)
Lemma panic_step_keeps_index now s input r s' :
  AcuteAnxietyFlow.process_clinical_step R now s input = Some (r, s') ->
  current_step s' = current_step s.
Proof.
  unfold AcuteAnxietyFlow.process_clinical_step.
  destruct s as [cs ? ? ? ? ? ? ? ? ? ?]. cbn [current_step].
  do 7 (try destruct cs as [|cs]); cbn; intros; repeat case_match;
    unfold complete_clinical_flow in *; by simplify_eq.
Qed.

(** As long as the class's step logic leaves the index alone, one
    [process_user_input] moves it by zero or one. *)
Lemma process_user_input_step (D : FlowData) (step_logic : step_method) now s input r s' :
  (forall t i r1 t1, step_logic now t i = Some (r1, t1) -> current_step t1 = current_step t) ->
  process_user_input D step_logic now s input = Some (r, s') ->
  current_step s <= current_step s' <= current_step s + 1.
Proof.
  intros Hkeep. unfold process_user_input.
  destruct (CrisisDetector.detect_crisis_keywords input).
  - intros [= <- <-]. cbn. lia.
  - destruct (step_logic _ _ _) as [[r1 s1]|] eqn:Hs; [|done].
    apply Hkeep in Hs. cbn in Hs. cbn. intros [= <- <-].
    repeat case_match; cbn; lia.
Qed.

Lemma panic_process_user_input_step now s input r s' :
  process_user_input AcuteAnxietyFlow.data
    (AcuteAnxietyFlow.process_clinical_step R) now s input = Some (r, s') ->
  current_step s <= current_step s' <= current_step s + 1.
Proof.
  apply process_user_input_step. intros t i r1 t1. apply panic_step_keeps_index.
Qed.

End Engine.

(** C1 (the code departs from it).  On a fresh panic flow seven turns
    bring [current_step] to 7, the number of steps, with the flow still
    in progress; the eighth turn takes it to 8.  Through the manager a
    single turn moves the index of the active flow from 0 to 2, because the
    flow and the manager both advance it. *)
Theorem current_step_overshoots_and_skips :
  length (BaseFlow.clinical_steps AcuteAnxietyFlow.data) = 7
  /\ (BaseFlow.current_step
        <$> turns panic_turn 0 (BaseFlow.new_state 0) (replicate 7 "done")) = Some 7
  /\ (BaseFlow.completion_status
        <$> turns panic_turn 0 (BaseFlow.new_state 0) (replicate 7 "done"))
     = Some "in_progress"
  /\ (BaseFlow.current_step
        <$> turns panic_turn 0 (BaseFlow.new_state 0) (replicate 8 "done")) = Some 8
  /\ (started_manager ≫= active_step "u") = Some 0
  /\ (m ← started_manager; m' ← manager_turns 1 m ["done"]; active_step "u" m')
     = Some 2.
Proof. by vm_compute. Qed.

Section EffectivenessStep.

Import BaseFlow.

Context (R : ContentRetriever).

(** What the panic flow does at its effectiveness step when the text holds
    no rating: the generic reply of the base class, which advances. *)
Lemma panic_step6_without_rating now s input :
  current_step s = 6 ->
  AcuteAnxietyFlow.extract_anxiety_rating input = None ->
  exists r,
    AcuteAnxietyFlow.process_clinical_step R now s input = Some (r, s)
    /\ dict_get "advance_step" r = Some (VBool true)
    /\ dict_get "message" r
       = Some (VStr "Continuing with Acute Anxiety Support - step 7").
Proof.
  intros Hcs Hrate. unfold AcuteAnxietyFlow.process_clinical_step.
  destruct s as [cs ? ? ? ? ? ? ? ? ? ?]. cbn in Hcs. subst cs.
  cbn [current_step lookup list_lookup AcuteAnxietyFlow.steps].
  rewrite Hrate. eexists. split; [reflexivity|]. by vm_compute.
Qed.

End EffectivenessStep.

(** C2 (the code departs from it).  At the effectiveness step of the panic
    flow (index 6), a text that matches no crisis pattern and holds no
    rating gets the generic reply of the base class with
    [advance_step = True], and [current_step] moves on to 7; no rating is
    appended. *)
Theorem unparseable_rating_still_advances (R : ContentRetriever) (now : Z)
  (s : BaseFlow.FlowState) (input : string) :
  BaseFlow.current_step s = 6 ->
  CrisisDetector.detect_crisis_keywords input = false ->
  AcuteAnxietyFlow.extract_anxiety_rating input = None ->
  exists r s',
    BaseFlow.process_user_input AcuteAnxietyFlow.data
      (AcuteAnxietyFlow.process_clinical_step R) now s input = Some (r, s')
    /\ dict_get "advance_step" r = Some (VBool true)
    /\ dict_get "message" r
       = Some (VStr "Continuing with Acute Anxiety Support - step 7")
    /\ BaseFlow.current_step s' = 7
    /\ BaseFlow.effectiveness_ratings s' = BaseFlow.effectiveness_ratings s.
Proof.
  intros Hcs Hcrisis Hrate. unfold BaseFlow.process_user_input. rewrite Hcrisis.
  set (s1 := BaseFlow.set_user_responses _ s).
  destruct (panic_step6_without_rating R now s1 input) as [r [Hr [Hadv Hmsg]]];
    [done|done|].
  rewrite Hr. cbn [mbind option_bind].
  unfold get_truthy, dict_get_default. rewrite Hadv, Hmsg.
  eexists _, _. split; [reflexivity|]. split; [done|]. split; [done|].
  cbn. split; [|done]. rewrite Hcs. done.
Qed.

Lemma unparseable_rating_still_advances_witness :
  CrisisDetector.detect_crisis_keywords "I don't know" = false
  /\ AcuteAnxietyFlow.extract_anxiety_rating "I don't know" = None
  /\ exists r s',
       BaseFlow.process_user_input AcuteAnxietyFlow.data
         (AcuteAnxietyFlow.process_clinical_step no_content) 0
         (BaseFlow.set_current_step 6 (BaseFlow.new_state 0)) "I don't know"
       = Some (r, s')
       /\ dict_get "advance_step" r = Some (VBool true)
       /\ dict_get "message" r
          = Some (VStr "Continuing with Acute Anxiety Support - step 7")
       /\ BaseFlow.current_step s' = 7
       /\ BaseFlow.effectiveness_ratings s'
          = BaseFlow.effectiveness_ratings
              (BaseFlow.set_current_step 6 (BaseFlow.new_state 0)).
Proof.
  split; [vm_compute; reflexivity|]. split; [vm_compute; reflexivity|].
  apply (unparseable_rating_still_advances no_content 0
           (BaseFlow.set_current_step 6 (BaseFlow.new_state 0)) "I don't know");
    vm_compute; reflexivity.
Defined.

(** ** Engine: a turn after the last step *)

Section AfterLastStep.

Import BaseFlow.

Context (D : FlowData) (step_logic : step_method).

(** The guard every scenario class opens its step logic with:
    [if current_step >= len(clinical_steps): return complete_clinical_flow()]. *)
Hypothesis guard : forall now s i,
  length (clinical_steps D) <= current_step s ->
  step_logic now s i = Some (complete_clinical_flow D now s).

Lemma completion_reply_ignores_responses now s m :
  (complete_clinical_flow D now (set_user_responses m s)).1
  = (complete_clinical_flow D now s).1.
Proof. done. Qed.

Lemma process_user_input_after_last_step now s input :
  length (clinical_steps D) <= current_step s ->
  CrisisDetector.detect_crisis_keywords input = false ->
  exists s',
    process_user_input D step_logic now s input
      = Some ((complete_clinical_flow D now s).1, s')
    /\ user_responses s'
       = <[current_step s := VDict [ ("input", VStr input);
                                     ("timestamp", VInt now);
                                     ("safety_screened", VBool true);
                                     ("step_intervention", VStr "completed") ]]>
           (user_responses s)
    /\ completion_status s' = "completed"
    /\ effectiveness_ratings s' = effectiveness_ratings s
    /\ safety_flags s' = safety_flags s
    /\ current_step s' = current_step s + 1.
Proof.
  intros Hlen Hcrisis. unfold process_user_input. rewrite Hcrisis.
  assert (Hint : step_intervention D s = "completed").
  { unfold step_intervention. by rewrite lookup_ge_None_2. }
  rewrite Hint, guard by done. cbn [mbind option_bind].
  eexists. split; [reflexivity|].
  unfold get_truthy, dict_get_default. cbn [dict_get complete_clinical_flow fst snd].
  cbn [String.eqb Ascii.eqb Bool.eqb truthy].
  by repeat case_match.
Qed.

End AfterLastStep.

Lemma panic_guard R now s i :
  length (BaseFlow.clinical_steps AcuteAnxietyFlow.data) <= BaseFlow.current_step s ->
  AcuteAnxietyFlow.process_clinical_step R now s i
  = Some (BaseFlow.complete_clinical_flow AcuteAnxietyFlow.data now s).
Proof.
  intros H. unfold AcuteAnxietyFlow.process_clinical_step.
  by rewrite lookup_ge_None_2.
Qed.

Lemma base_guard D now s i :
  length (BaseFlow.clinical_steps D) <= BaseFlow.current_step s ->
  BaseFlow.process_clinical_step D now s i
  = Some (BaseFlow.complete_clinical_flow D now s).
Proof.
  intros H. unfold BaseFlow.process_clinical_step, BaseFlow.get_current_step_response.
  by rewrite lookup_ge_None_2.
Qed.

(** C7 fails on a panic flow that has passed its last step: a further turn
    stores a response record under index 7 and moves [current_step] from 7
    to 8, and a second such turn does the same again. *)
Lemma process_after_completion_mutates :
  (s7 ← turns panic_turn 0 (BaseFlow.new_state 0) (replicate 7 "done");
   '(r, s8) ← panic_turn 1 s7 "done";
   '(r', s9) ← panic_turn 2 s8 "done";
   Some (BaseFlow.current_step s7, dict_get "flow_completed" r,
         bool_decide (is_Some (BaseFlow.user_responses s7 !! 7)),
         bool_decide (is_Some (BaseFlow.user_responses s8 !! 7)),
         BaseFlow.current_step s8,
         dict_get "flow_completed" r',
         bool_decide (is_Some (BaseFlow.user_responses s9 !! 8)),
         BaseFlow.current_step s9))
  = Some (7, Some (VBool true), false, true, 8, Some (VBool true), true, 9).
Proof. by vm_compute. Qed.

(** C7, amended.  When [process_user_input] is called on a panic flow whose
    [current_step] is already at or past the number of steps, with a text
    that matches no crisis pattern, it returns the completion reply
    ([flow_completed = True]), stores the text as a response record under
    the current index with [step_intervention = "completed"], marks the
    flow completed, and leaves ratings and safety flags as they were. *)
Theorem process_at_completion (R : ContentRetriever) (now : Z)
  (s : BaseFlow.FlowState) (input : string) :
  length (BaseFlow.clinical_steps AcuteAnxietyFlow.data) <= BaseFlow.current_step s ->
  CrisisDetector.detect_crisis_keywords input = false ->
  exists r s',
    BaseFlow.process_user_input AcuteAnxietyFlow.data
      (AcuteAnxietyFlow.process_clinical_step R) now s input = Some (r, s')
    /\ r = (BaseFlow.complete_clinical_flow AcuteAnxietyFlow.data now s).1
    /\ dict_get "flow_completed" r = Some (VBool true)
    /\ BaseFlow.user_responses s'
       = <[BaseFlow.current_step s :=
             VDict [ ("input", VStr input);
                     ("timestamp", VInt now);
                     ("safety_screened", VBool true);
                     ("step_intervention", VStr "completed") ]]>
           (BaseFlow.user_responses s)
    /\ BaseFlow.completion_status s' = "completed"
    /\ BaseFlow.effectiveness_ratings s' = BaseFlow.effectiveness_ratings s
    /\ BaseFlow.safety_flags s' = BaseFlow.safety_flags s.
Proof.
  intros Hlen Hcrisis.
  destruct (process_user_input_after_last_step AcuteAnxietyFlow.data
              (AcuteAnxietyFlow.process_clinical_step R)
              (panic_guard R) now s input Hlen Hcrisis)
    as [s' (Hrun & Hresp & Hstatus & Hrate & Hflags & _)].
  exists (BaseFlow.complete_clinical_flow AcuteAnxietyFlow.data now s).1, s'.
  by repeat split.
Qed.

Lemma process_at_completion_witness :
  exists r s',
    BaseFlow.process_user_input AcuteAnxietyFlow.data
      (AcuteAnxietyFlow.process_clinical_step no_content) 9
      (BaseFlow.set_current_step 7 (BaseFlow.new_state 0)) "done" = Some (r, s')
    /\ r = (BaseFlow.complete_clinical_flow AcuteAnxietyFlow.data 9
              (BaseFlow.set_current_step 7 (BaseFlow.new_state 0))).1
    /\ dict_get "flow_completed" r = Some (VBool true)
    /\ BaseFlow.user_responses s'
       = <[BaseFlow.current_step (BaseFlow.set_current_step 7 (BaseFlow.new_state 0)) :=
             VDict [ ("input", VStr "done");
                     ("timestamp", VInt 9);
                     ("safety_screened", VBool true);
                     ("step_intervention", VStr "completed") ]]>
           (BaseFlow.user_responses (BaseFlow.set_current_step 7 (BaseFlow.new_state 0)))
    /\ BaseFlow.completion_status s' = "completed"
    /\ BaseFlow.effectiveness_ratings s'
       = BaseFlow.effectiveness_ratings (BaseFlow.set_current_step 7 (BaseFlow.new_state 0))
    /\ BaseFlow.safety_flags s'
       = BaseFlow.safety_flags (BaseFlow.set_current_step 7 (BaseFlow.new_state 0)).
Proof.
  apply (process_at_completion no_content 9
           (BaseFlow.set_current_step 7 (BaseFlow.new_state 0)) "done").
  - vm_compute. lia.
  - vm_compute. reflexivity.
Defined.

(** ** Manager: crisis turns and completion *)

Section ManagerTurns.

Import ClinicalFlowManager.

Implicit Types (m : Manager) (user : string).

Lemma log_keeps_active now user ty data m :
  active_flows (log_clinical_event now user ty data m) = active_flows m.
Proof. done. Qed.

Lemma log_keeps_outcomes now user ty data m :
  clinical_outcomes (log_clinical_event now user ty data m) = clinical_outcomes m.
Proof. done. Qed.

(** The crisis override clears the slot and archives nothing. *)
Lemma crisis_override_effect now user text m :
  active_flows (activate_crisis_override now user text m).2
  = delete user (active_flows m)
  /\ clinical_outcomes (activate_crisis_override now user text m).2
     = clinical_outcomes m.
Proof. done. Qed.

(** Finalizing an active flow with a non-empty script appends exactly one
    outcome record and clears the slot. *)
Lemma complete_clinical_session_effect now user final m e :
  active_flows m !! user = Some e ->
  steps_of (flow_instance e) <> [] ->
  exists outcome m',
    complete_clinical_session now user final m = Some m'
    /\ outcome_data now user e m = Some outcome
    /\ clinical_outcomes m' !! user
       = Some (default [] (clinical_outcomes m !! user) ++ [VDict outcome])
    /\ active_flows m' !! user = None.
Proof.
  intros He Hsteps. unfold complete_clinical_session. rewrite He.
  unfold outcome_data, session_completion_rate.
  destruct (steps_of (flow_instance e)) as [|st sts] eqn:Hs; [done|].
  cbn [length Nat.eqb mbind option_bind].
  eexists _, _. split; [reflexivity|]. split; [reflexivity|].
  cbn. by rewrite lookup_insert_eq, lookup_delete_eq.
Qed.

(** Finalizing twice is harmless: without an active flow nothing changes. *)
Lemma complete_clinical_session_idle now user final m :
  active_flows m !! user = None ->
  complete_clinical_session now user final m = Some m.
Proof. intros H. unfold complete_clinical_session. by rewrite H. Qed.

End ManagerTurns.

(** A panic flow run to its end through the manager is archived: the fifth
    turn returns the completion reply, one outcome record is stored and the
    slot is empty.  At that point [current_step] is past the last step, and
    the reply and the archived record agree on rate 7/7. *)
Example completed_flow_is_archived :
  (m ← started_manager;
   m4 ← manager_turns 1 m (replicate 4 "done");
   '(r, m5) ← ClinicalFlowManager.process_clinical_response 2 "u" "done" m4;
   Some (active_step "u" m4, length (outcomes_of "u" m4),
         dict_get "flow_completed" r,
         (outcome_summary (dict_get_default "clinical_outcomes" VNone r)).1.1,
         active_step "u" m5,
         (fun o => (outcome_summary o).1.1) <$> outcomes_of "u" m5))
  = Some (Some 7, 0, Some (VBool true), Some (VRat (7 # 7)), None,
          [Some (VRat (7 # 7))]).
Proof. by vm_compute. Qed.

(** C4 (the code departs from it).  A continue-flow call whose text
    matches a crisis pattern returns the crisis reply and empties the
    user's active slot, but the outcome history is left exactly as it was:
    the interrupted flow is deleted, not archived. *)
Theorem crisis_turn_drops_flow_unarchived (now : Z) (user text : string)
  (m : ClinicalFlowManager.Manager) :
  CrisisDetector.detect_crisis_keywords text = true ->
  exists r m',
    ClinicalFlowManager.process_clinical_response now user text m = Some (r, m')
    /\ dict_get "flow_type" r = Some (VStr "crisis_override")
    /\ ClinicalFlowManager.active_flows m' !! user = None
    /\ ClinicalFlowManager.clinical_outcomes m'
       = ClinicalFlowManager.clinical_outcomes m.
Proof.
  intros Hcrisis. unfold ClinicalFlowManager.process_clinical_response.
  rewrite Hcrisis. eexists _, _. split; [reflexivity|].
  split; [done|]. split; [|done].
  cbn. apply lookup_delete_eq.
Qed.

Lemma crisis_turn_drops_flow_unarchived_witness :
  active_step "u" running_manager = Some 2
  /\ outcomes_of "u" running_manager = []
  /\ CrisisDetector.detect_crisis_keywords "I want to end my life" = true
  /\ exists r m',
       ClinicalFlowManager.process_clinical_response 3 "u" "I want to end my life"
         running_manager = Some (r, m')
       /\ dict_get "flow_type" r = Some (VStr "crisis_override")
       /\ ClinicalFlowManager.active_flows m' !! "u" = None
       /\ ClinicalFlowManager.clinical_outcomes m'
          = ClinicalFlowManager.clinical_outcomes running_manager.
Proof.
  split; [vm_compute; reflexivity|]. split; [vm_compute; reflexivity|].
  split; [vm_compute; reflexivity|].
  apply (crisis_turn_drops_flow_unarchived 3 "u" "I want to end my life"
           running_manager).
  vm_compute. reflexivity.
Defined.

(** ** Manager: starting a flow *)

Section StartFlow.

Import ClinicalFlowManager.

Implicit Types (m : Manager) (user name : string).

Lemma start_registered_effect now user name ctx m cls resp st :
  registry_lookup name (clinical_flow_registry m) = Some cls ->
  cls_start_flow cls now ctx = Some (resp, st) ->
  exists r m',
    start_registered now user name ctx m = Some (r, m')
    /\ (exists e, active_flows m' !! user = Some e
                  /\ flow_instance e = mkInstance cls st
                  /\ flow_name e = name /\ start_time e = now)
    /\ (forall u, u <> user -> active_flows m' !! u = active_flows m !! u)
    /\ clinical_outcomes m' = clinical_outcomes m.
Proof.
  intros Hreg Hstart. unfold start_registered. rewrite Hreg.
  cbn [log_clinical_event set_session_history set_active_flows
       clinical_flow_registry active_flows].
  rewrite Hstart. cbn [mbind option_bind].
  eexists _, _. split; [reflexivity|]. cbn. split; [|split; [|done]].
  - eexists. split; [apply lookup_insert_eq|]. by destruct (BaseFlow.has_retriever _).
  - intros u Hu. by rewrite !lookup_insert_ne.
Qed.

Lemma start_clinical_flow_no_crisis now user name ctx m :
  BaseFlow.context_crisis ctx = Some false ->
  start_clinical_flow now user name ctx m
  = start_registered now user name ctx
      match session_history m !! user with
      | Some _ => m
      | None => set_session_history (<[user := []]> (session_history m)) m
      end.
Proof.
  intros Hctx. unfold start_clinical_flow. destruct ctx as [c|]; [|done].
  unfold BaseFlow.context_crisis in Hctx.
  destruct (truthy (VDict c) && get_truthy "text" c); [|done].
  destruct (dict_get "text" c) as [[| | | |t| |]|]; try done.
  by injection Hctx as ->.
Qed.

End StartFlow.

(** C5 fails: user "u" is two steps into a panic flow when a start request
    for another flow name arrives; afterwards the active slot holds the new
    instance at step 0 and the user's outcome history is still empty, so
    the interrupted flow has left no record. *)
Lemma restart_overwrites_without_archive :
  (active_step "u" running_manager,
   '(r, m2) ← ClinicalFlowManager.start_clinical_flow 2 "u" "panic_breathing_flow"
                opening running_manager;
   Some (active_step "u" m2,
         ClinicalFlowManager.flow_name <$> ClinicalFlowManager.active_flows m2 !! "u",
         outcomes_of "u" m2,
         bool_decide (ClinicalFlowManager.clinical_outcomes m2 = ∅)))
  = (Some 2, Some (Some 0, Some "panic_breathing_flow", [], true)).
Proof. by vm_compute. Qed.

(** C5, amended.  When [start_clinical_flow] is called with a registered
    flow name and a context whose text triggers no crisis, for a user with
    or without an active flow, the new instance is stored as that user's
    active flow, replacing whatever was there; other users' flows are
    untouched and nothing is appended to the outcome history. *)
Theorem start_replaces_active_flow (now : Z) (user name : string)
  (ctx : option pydict) (m : ClinicalFlowManager.Manager) (cls : FlowClass)
  (resp : pydict) (st : BaseFlow.FlowState) :
  BaseFlow.context_crisis ctx = Some false ->
  ClinicalFlowManager.registry_lookup name
    (ClinicalFlowManager.clinical_flow_registry m) = Some cls ->
  cls_start_flow cls now ctx = Some (resp, st) ->
  exists r m',
    ClinicalFlowManager.start_clinical_flow now user name ctx m = Some (r, m')
    /\ (exists e, ClinicalFlowManager.active_flows m' !! user = Some e
                  /\ ClinicalFlowManager.flow_instance e
                     = ClinicalFlowManager.mkInstance cls st
                  /\ ClinicalFlowManager.flow_name e = name
                  /\ ClinicalFlowManager.start_time e = now)
    /\ (forall u, u <> user ->
          ClinicalFlowManager.active_flows m' !! u
          = ClinicalFlowManager.active_flows m !! u)
    /\ ClinicalFlowManager.clinical_outcomes m'
       = ClinicalFlowManager.clinical_outcomes m.
Proof.
  intros Hctx Hreg Hstart. rewrite start_clinical_flow_no_crisis by done.
  destruct (ClinicalFlowManager.session_history m !! user) as [h|].
  - by eapply start_registered_effect.
  - destruct (start_registered_effect now user name ctx
                (ClinicalFlowManager.set_session_history
                   (<[user := []]> (ClinicalFlowManager.session_history m)) m)
                cls resp st Hreg Hstart) as (r & m' & Hrun & He & Hother & Hout).
    by exists r, m'.
Qed.

Lemma start_replaces_active_flow_witness :
  active_step "u" running_manager = Some 2
  /\ exists r m',
       ClinicalFlowManager.start_clinical_flow 2 "u" "panic_breathing_flow" opening
         running_manager = Some (r, m')
       /\ (exists e, ClinicalFlowManager.active_flows m' !! "u" = Some e
                     /\ ClinicalFlowManager.flow_instance e
                        = ClinicalFlowManager.mkInstance
                            (AcuteAnxietyFlow.class no_content)
                            (BaseFlow.set_personalization false opening
                               (BaseFlow.new_state 2))
                     /\ ClinicalFlowManager.flow_name e = "panic_breathing_flow"
                     /\ ClinicalFlowManager.start_time e = 2%Z)
       /\ (forall u, u <> "u" ->
             ClinicalFlowManager.active_flows m' !! u
             = ClinicalFlowManager.active_flows running_manager !! u)
       /\ ClinicalFlowManager.clinical_outcomes m'
          = ClinicalFlowManager.clinical_outcomes running_manager.
Proof.
  split; [vm_compute; reflexivity|].
  apply (start_replaces_active_flow 2 "u" "panic_breathing_flow" opening
           running_manager (AcuteAnxietyFlow.class no_content)
           (BaseFlow.get_current_step_response AcuteAnxietyFlow.data 2
              (BaseFlow.set_personalization false opening (BaseFlow.new_state 2))).1
           (BaseFlow.set_personalization false opening (BaseFlow.new_state 2))).
  - vm_compute. reflexivity.
  - reflexivity.
  - reflexivity.
Defined.

(** ** Outcome snapshots *)

Section Outcomes.

Import BaseFlow.

(** The reply of [complete_clinical_flow] follows the formulas of the data
    model: rate [min(current_step, total) / total], techniques the prefix
    of length [current_step], success iff rate >= 0.8 and no safety flag. *)
Lemma complete_clinical_flow_formulas (D : FlowData) now s :
  exists o sm,
    dict_get "clinical_outcomes" (complete_clinical_flow D now s).1 = Some (VDict o)
    /\ dict_get "session_summary" (complete_clinical_flow D now s).1 = Some (VDict sm)
    /\ dict_get "completion_rate" o
       = Some (VRat (completion_rate (current_step s) (length (clinical_steps D))))
    /\ dict_get "techniques_used" o
       = Some (VStrs (intervention <$> take (current_step s) (clinical_steps D)))
    /\ dict_get "clinical_success" sm
       = Some (VBool (Qle_bool (8 # 10)
                        (completion_rate (current_step s) (length (clinical_steps D)))
                      && Nat.eqb (length (safety_flags s)) 0)).
Proof. eexists _, _. by repeat split. Qed.

Lemma completion_rate_value cur total :
  0 < total ->
  completion_rate cur total = Z.of_nat (Nat.min cur total) # Pos.of_nat total.
Proof. by destruct total; [lia|]. Qed.

(** The manager's record counts the current step as done. *)
Lemma outcome_data_formulas now user e m o :
  ClinicalFlowManager.outcome_data now user e m = Some o ->
  let inst := ClinicalFlowManager.flow_instance e in
  let cur := current_step (ClinicalFlowManager.state inst) in
  let total := length (ClinicalFlowManager.steps_of inst) in
  dict_get "completion_rate" o
    = Some (VRat (Z.of_nat (Nat.min (cur + 1) total) # Pos.of_nat total))
  /\ dict_get "techniques_used" o
     = Some (VStrs (intervention <$> take (cur + 1) (ClinicalFlowManager.steps_of inst))).
Proof.
  unfold ClinicalFlowManager.outcome_data, ClinicalFlowManager.session_completion_rate.
  destruct (length _ =? 0); [done|]. by intros [= <-].
Qed.

(** Before the last step the two rates are different numbers. *)
Lemma session_rate_differs cur total q :
  cur < total ->
  ClinicalFlowManager.session_completion_rate cur total = Some q ->
  ~ (q == completion_rate cur total)%Q.
Proof.
  intros Hlt. unfold ClinicalFlowManager.session_completion_rate.
  destruct (total =? 0) eqn:Ht; [done|]. intros [= <-].
  rewrite completion_rate_value by lia.
  unfold Qeq. cbn [Qnum Qden].
  rewrite Nat.min_l, Nat.min_l by lia. nia.
Qed.

End Outcomes.

(** C6 (the code departs from it).  User "u" starts a panic flow and ends
    the session at once, with [current_step = 0] of 7.  The data model asks
    for rate 0 and no technique used, and [complete_clinical_flow] computes
    just that; the record archived by [complete_clinical_session] has rate
    1/7 and lists the first technique, and [get_clinical_flow_status]
    reports 1/7 as well.  Two turns later the three sites give 2/7, 3/7 and
    3/7. *)
Theorem session_snapshot_counts_current_step :
  (m ← started_manager; active_step "u" m) = Some 0
  /\ BaseFlow.completion_rate 0 7 = (0 # 7)%Q
  /\ (d ← dict_get "clinical_outcomes"
            (BaseFlow.complete_clinical_flow AcuteAnxietyFlow.data 5
               (BaseFlow.new_state 0)).1;
      Some (outcome_summary d).1)
     = Some (Some (VRat (0 # 7)), Some (VStrs []))
  /\ (m ← started_manager;
      m' ← ClinicalFlowManager.complete_clinical_session 5 "u" user_ended_session m;
      Some ((fun o => (outcome_summary o).1) <$> outcomes_of "u" m'))
     = Some [ (Some (VRat (1 # 7)), Some (VStrs ["safety_assessment"])) ]
  /\ (m ← started_manager;
      st ← ClinicalFlowManager.get_clinical_flow_status 5 "u" m;
      Some (outcome_summary st).1.1)
     = Some (Some (VRat (1 # 7)))
  /\ (st ← ClinicalFlowManager.get_clinical_flow_status 5 "u" running_manager;
      Some (active_step "u" running_manager, (outcome_summary st).1.1))
     = Some (Some 2, Some (VRat (3 # 7)))
  /\ (m' ← ClinicalFlowManager.complete_clinical_session 5 "u" user_ended_session
             running_manager;
      Some ((fun o => (outcome_summary o).1) <$> outcomes_of "u" m'))
     = Some [ (Some (VRat (3 # 7)),
               Some (VStrs ["safety_assessment"; "psychoeducation"; "4_7_8_breathing"])) ].
Proof. by vm_compute. Qed.

(** * Further properties of the code *)

(** ** The pattern engine: what a hit means *)

Section PatternHits.

Implicit Types (ic : bool) (bs : list Re.branch) (b : Re.branch)
  (prev : option ascii) (s t : string).

Lemma first_branch_some ic bs prev s :
  bool_decide (is_Some (Re.first_branch ic bs prev s))
  = existsb (fun b => match Re.match_branch ic b prev s with
                      | Some (_, last, rest) => Re.boundary last (Re.head rest)
                      | None => false
                      end) bs.
Proof.
  induction bs as [|b bs IH]; cbn [Re.first_branch existsb].
  - apply bool_decide_eq_false. by intros [? ?].
  - destruct (Re.match_branch ic b prev s) as [[[m last] rest]|]; [|done].
    destruct (Re.boundary last (Re.head rest)); [|done].
    by apply bool_decide_eq_true.
Qed.

Lemma match_here_some ic bs prev s :
  bool_decide (is_Some (Re.match_here ic bs prev s))
  = existsb (fun b => branch_matches ic b prev s) bs.
Proof.
  unfold Re.match_here, branch_matches.
  destruct (Re.boundary prev (Re.head s)).
  - rewrite first_branch_some. by induction bs as [|b bs IH]; [|cbn; rewrite IH].
  - rewrite bool_decide_eq_false_2 by (by intros [? ?]).
    by induction bs.
Qed.

(** The scan finds something exactly when some branch matches somewhere:
    skipping over a match never hides the only hit. *)
Lemma scan_empty ic bs s : forall prev,
  CrisisDetector.is_empty (Re.scan ic bs prev 0 s) = negb (hit_somewhere ic bs prev s).
Proof.
  induction s as [|c r IH]; intros prev; [done|].
  cbn [Re.scan hit_somewhere]. rewrite <- match_here_some.
  destruct (Re.match_here ic bs prev (String c r)) as [m|] eqn:Hm.
  - by rewrite bool_decide_eq_true_2.
  - rewrite bool_decide_eq_false_2 by (by intros [? ?]). apply IH.
Qed.

Lemma hit_somewhere_nil ic s : forall prev, hit_somewhere ic [] prev s = false.
Proof. induction s as [|c r IH]; intros prev; [done|]. cbn. apply IH. Qed.

Lemma hit_somewhere_cons ic b bs s : forall prev,
  hit_somewhere ic (b :: bs) prev s
  = hit_somewhere ic [b] prev s || hit_somewhere ic bs prev s.
Proof.
  induction s as [|c r IH]; intros prev; [done|].
  cbn [hit_somewhere existsb]. rewrite IH, orb_false_r.
  destruct (branch_matches ic b prev (String c r)); [done|].
  destruct (existsb _ bs); cbn; [by rewrite !orb_true_r|done].
Qed.

Lemma hit_somewhere_branches ic bs s prev :
  hit_somewhere ic bs prev s = existsb (fun b => hit_somewhere ic [b] prev s) bs.
Proof.
  induction bs as [|b bs IH]; [apply hit_somewhere_nil|].
  rewrite hit_somewhere_cons, IH. done.
Qed.

Lemma pattern_hit_phrases t (group : list string) :
  CrisisDetector.pattern_hit t (CrisisDetector.phrases group)
  = existsb (fun ph => occurs ph t) group.
Proof.
  unfold CrisisDetector.pattern_hit, Re.findall, CrisisDetector.phrases, occurs.
  rewrite scan_empty, negb_involutive, hit_somewhere_branches.
  by induction group as [|g gs IH]; [|cbn; rewrite IH].
Qed.

Lemma groups_hit_phrases t (groups : list (list string)) :
  existsb (CrisisDetector.pattern_hit t) (CrisisDetector.phrases <$> groups)
  = existsb (fun ph => occurs ph t) (groups ≫= id).
Proof.
  induction groups as [|g gs IH]; [done|].
  cbn [fmap list_fmap existsb mbind list_bind].
  by rewrite existsb_app, pattern_hit_phrases, IH.
Qed.

Lemma table_hit_phrases t table :
  existsb (fun cp => existsb (CrisisDetector.pattern_hit t) cp.2) (table_patterns table)
  = existsb (fun ph => occurs ph t) (table_phrases table).
Proof.
  unfold table_patterns, table_phrases.
  induction table as [|[c gs] table IH]; [done|].
  cbn [fmap list_fmap existsb mbind list_bind fst snd].
  by rewrite existsb_app, groups_hit_phrases, IH.
Qed.

Lemma match_branch_self ph : forall prev post,
  Re.match_branch true (Re.lit ph) prev (ph +:+ post) = Some (ph, last_or prev ph, post).
Proof.
  induction ph as [|c ph IH]; intros prev post; [done|].
  change (String c ph +:+ post) with (String c (ph +:+ post)).
  cbn [Re.lit Re.match_branch Re.atom_matches last_or].
  by rewrite Ascii.eqb_refl, IH.
Qed.

(** A word-delimited phrase standing between non-word neighbours occurs. *)
Lemma hit_in_context ph post : forall pre prev,
  word_delimited ph = true ->
  Re.is_word (last_or prev pre) = false ->
  Re.is_word (Re.head post) = false ->
  hit_somewhere true [Re.lit ph] prev (pre +:+ ph +:+ post) = true.
Proof.
  intros pre prev [Hhead Hlast]%andb_prop. revert prev.
  induction pre as [|a pre IH]; intros prev Hprev Hpost.
  - change ("" +:+ ph +:+ post) with (ph +:+ post). cbn [last_or] in Hprev.
    destruct ph as [|c ph]; [done|].
    change (String c ph +:+ post) with (String c (ph +:+ post)).
    cbn [hit_somewhere existsb]. apply orb_true_intro. left.
    rewrite orb_false_r. unfold branch_matches.
    change (String c (ph +:+ post)) with (String c ph +:+ post).
    rewrite match_branch_self.
    assert (Hl : last_or prev (String c ph) = last_or None (String c ph)) by done.
    rewrite Hl. unfold Re.boundary.
    change (Re.head (String c ph +:+ post)) with (Re.head (String c ph)).
    by rewrite Hprev, Hhead, Hlast, Hpost.
  - change (String a pre +:+ ph +:+ post) with (String a (pre +:+ ph +:+ post)).
    cbn [hit_somewhere]. apply orb_true_intro. right.
    by apply IH.
Qed.

End PatternHits.

(** ** Crisis screen: phrases, letter case, and the router's screen *)

Section PhraseScreen.

Import CrisisDetector.

Lemma crisis_level_by_tier text :
  crisis_level (detect_crisis_level text)
  = (if tier_hit high_risk_patterns text then "high"
     else if tier_hit medium_risk_patterns text then "medium" else "none").
Proof.
  unfold detect_crisis_level, tier_hit, high_risk_found, medium_risk_found.
  rewrite !tier_matches_empty, !negb_involutive.
  by repeat case_match.
Qed.

Lemma tier_hit_high text :
  tier_hit high_risk_patterns text
  = existsb (fun ph => occurs ph (Str.lower text)) high_risk_phrases.
Proof. apply (table_hit_phrases (Str.lower text) high_risk_table). Qed.

Lemma tier_hit_medium text :
  tier_hit medium_risk_patterns text
  = existsb (fun ph => occurs ph (Str.lower text)) medium_risk_phrases.
Proof. apply (table_hit_phrases (Str.lower text) medium_risk_table). Qed.

Lemma detect_crisis_keywords_by_tier text :
  detect_crisis_keywords text
  = tier_hit high_risk_patterns text || tier_hit medium_risk_patterns text.
Proof.
  unfold detect_crisis_keywords. rewrite crisis_level_by_tier.
  by repeat case_match.
Qed.

Lemma lower_char_idem c : Str.lower_char (Str.lower_char c) = Str.lower_char c.
Proof. destruct c as [[] [] [] [] [] [] [] []]; reflexivity. Qed.

Lemma lower_idem s : Str.lower (Str.lower s) = Str.lower s.
Proof. induction s as [|c r IH]; [done|]. cbn. by rewrite lower_char_idem, IH. Qed.

Lemma existsb_incl {A} (f : A -> bool) (l1 l2 : list A) :
  (forall x, x ∈ l1 -> x ∈ l2) -> existsb f l1 = true -> existsb f l2 = true.
Proof.
  intros Hincl [x [Hin Hf]]%existsb_exists. apply existsb_exists.
  exists x. split; [|done]. apply list_elem_of_In, Hincl. by apply list_elem_of_In.
Qed.

Lemma filter_empty {A} (f : A -> bool) (l : list A) :
  is_empty (List.filter f l) = negb (existsb f l).
Proof. induction l as [|x l IH]; [done|]. cbn. by destruct (f x). Qed.

Lemma mem_string_elem (x : string) (l : list string) :
  ClinicalFlowManager.mem_string x l = true -> x ∈ l.
Proof.
  unfold ClinicalFlowManager.mem_string.
  intros [y [Hin ->%String.eqb_eq]]%existsb_exists. by apply list_elem_of_In.
Qed.

Lemma forallb_mem_incl (l1 l2 : list string) :
  forallb (fun x => ClinicalFlowManager.mem_string x l2) l1 = true ->
  forall x, x ∈ l1 -> x ∈ l2.
Proof.
  intros H x Hx%list_elem_of_In. apply mem_string_elem.
  by eapply forallb_forall in H.
Qed.

End PhraseScreen.

(** X1.  The crisis level is decided by which listed phrases occur in the
    lowered text as whole words: "high" when some high-tier phrase occurs,
    otherwise "medium" when some medium-tier phrase occurs, otherwise
    "none".  How the phrases are grouped into patterns, the order of the
    alternatives and the skipping of overlapping matches play no part. *)
Theorem crisis_level_by_phrase_occurrence (text : string) :
  CrisisDetector.crisis_level (CrisisDetector.detect_crisis_level text)
  = (if existsb (fun ph => occurs ph (Str.lower text)) high_risk_phrases then "high"
     else if existsb (fun ph => occurs ph (Str.lower text)) medium_risk_phrases
          then "medium"
     else "none")
  /\ CrisisDetector.detect_crisis_keywords text
     = existsb (fun ph => occurs ph (Str.lower text))
         (high_risk_phrases ++ medium_risk_phrases).
Proof.
  rewrite detect_crisis_keywords_by_tier, crisis_level_by_tier, existsb_app.
  by rewrite tier_hit_high, tier_hit_medium.
Qed.

(** X2.  A listed phrase that stands in the lowered text between two
    non-word neighbours (or a text end) is always detected:
    [detect_crisis_keywords] is true, and the level is "high" when the
    phrase is a high-tier one. *)
Theorem listed_phrase_is_detected (text pre ph post : string) :
  ph ∈ high_risk_phrases ++ medium_risk_phrases ->
  Str.lower text = pre +:+ ph +:+ post ->
  Re.is_word (last_or None pre) = false ->
  Re.is_word (Re.head post) = false ->
  CrisisDetector.detect_crisis_keywords text = true
  /\ (ph ∈ high_risk_phrases ->
      CrisisDetector.crisis_level (CrisisDetector.detect_crisis_level text) = "high").
Proof.
  intros Hph Htext Hpre Hpost.
  assert (Hdelim : word_delimited ph = true).
  { assert (H : forallb word_delimited (high_risk_phrases ++ medium_risk_phrases) = true)
      by (by vm_compute).
    apply list_elem_of_In in Hph. by eapply forallb_forall in H. }
  assert (Hocc : occurs ph (Str.lower text) = true).
  { unfold occurs. rewrite Htext. by apply hit_in_context. }
  split.
  - rewrite detect_crisis_keywords_by_tier, tier_hit_high, tier_hit_medium,
      <- existsb_app.
    apply existsb_exists. exists ph. split; [by apply list_elem_of_In|done].
  - intros Hhigh. rewrite crisis_level_by_tier, tier_hit_high.
    assert (Hex : existsb (fun ph0 => occurs ph0 (Str.lower text)) high_risk_phrases
                  = true).
    { apply existsb_exists. exists ph. split; [by apply list_elem_of_In|done]. }
    by rewrite Hex.
Qed.

Lemma listed_phrase_is_detected_witness :
  CrisisDetector.detect_crisis_keywords "I WANT TO DIE, now" = true
  /\ ("want to die" ∈ high_risk_phrases ->
      CrisisDetector.crisis_level
        (CrisisDetector.detect_crisis_level "I WANT TO DIE, now") = "high").
Proof.
  apply (listed_phrase_is_detected "I WANT TO DIE, now" "i " "want to die" ", now").
  - vm_compute. left.
  - vm_compute. reflexivity.
  - vm_compute. reflexivity.
  - vm_compute. reflexivity.
Defined.

(** X3.  The screen is blind to letter case: a text and its lowered form
    get the same result record, and so do any two texts that differ in
    letter case only. *)
Theorem crisis_screen_ignores_case (text other : string) :
  CrisisDetector.detect_crisis_level (Str.lower text)
  = CrisisDetector.detect_crisis_level text
  /\ (Str.lower text = Str.lower other ->
      CrisisDetector.detect_crisis_level text
      = CrisisDetector.detect_crisis_level other).
Proof.
  split.
  - unfold CrisisDetector.detect_crisis_level, CrisisDetector.high_risk_found,
      CrisisDetector.medium_risk_found. by rewrite lower_idem.
  - intros H. unfold CrisisDetector.detect_crisis_level,
      CrisisDetector.high_risk_found, CrisisDetector.medium_risk_found.
    by rewrite H.
Qed.

(** X4.  The router's own crisis screen never sees more than the crisis
    detector: a text the router calls a crisis makes
    [detect_crisis_keywords] true, and a text the router rates "high" gets
    level "high" from the detector. *)
Theorem router_crisis_implies_detector_crisis (text : string) :
  ScenarioRouter.is_crisis (ScenarioRouter.detect_crisis text) = true ->
  CrisisDetector.detect_crisis_keywords text = true
  /\ (ScenarioRouter.severity (ScenarioRouter.detect_crisis text) = "high" ->
      CrisisDetector.crisis_level (CrisisDetector.detect_crisis_level text) = "high").
Proof.
  intros Hcrisis.
  assert (Hsearch : forall groups,
    existsb (ScenarioRouter.search (Str.lower text)) groups
    = existsb (fun ph => occurs ph (Str.lower text)) (groups ≫= id)).
  { intros groups. rewrite <- groups_hit_phrases.
    by induction groups as [|g gs IH]; [|cbn; rewrite <- IH]. }
  assert (Hhigh : existsb (ScenarioRouter.search (Str.lower text)) ScenarioRouter.high_risk
                  = true ->
                  existsb (fun ph => occurs ph (Str.lower text)) high_risk_phrases = true).
  { rewrite Hsearch. apply existsb_incl, forallb_mem_incl. by vm_compute. }
  assert (Hmed : existsb (ScenarioRouter.search (Str.lower text)) ScenarioRouter.medium_risk
                 = true ->
                 existsb (fun ph => occurs ph (Str.lower text))
                   (high_risk_phrases ++ medium_risk_phrases) = true).
  { rewrite Hsearch. apply existsb_incl, forallb_mem_incl. by vm_compute. }
  unfold ScenarioRouter.detect_crisis in *.
  rewrite !filter_empty, !negb_involutive in *.
  rewrite detect_crisis_keywords_by_tier, crisis_level_by_tier,
    tier_hit_high, tier_hit_medium.
  destruct (existsb (ScenarioRouter.search (Str.lower text)) ScenarioRouter.high_risk)
    eqn:Hh.
  - rewrite Hhigh by done. done.
  - destruct (existsb (ScenarioRouter.search (Str.lower text)) ScenarioRouter.medium_risk)
      eqn:Hm; [|done].
    split; [|done]. rewrite <- existsb_app. by apply Hmed.
Qed.

Lemma router_crisis_implies_detector_crisis_witness :
  CrisisDetector.detect_crisis_keywords "it feels HOPELESS" = true
  /\ (ScenarioRouter.severity (ScenarioRouter.detect_crisis "it feels HOPELESS") = "high" ->
      CrisisDetector.crisis_level
        (CrisisDetector.detect_crisis_level "it feels HOPELESS") = "high").
Proof.
  apply (router_crisis_implies_detector_crisis "it feels HOPELESS").
  vm_compute. reflexivity.
Defined.

(** ** Ratings *)

Section RatingRange.

Import AcuteAnxietyFlow.

Lemma first_word_rating_range t r :
  first_word_rating word_ratings t = Some r -> 1 <= r <= 10.
Proof.
  unfold word_ratings. cbn [first_word_rating].
  repeat case_match; intros [= <-]; lia.
Qed.

Lemma extract_anxiety_rating_range input r :
  extract_anxiety_rating input = Some r -> 1 <= r <= 10.
Proof.
  unfold extract_anxiety_rating.
  destruct (Re.findall false rating_pattern input) as [|n ns] eqn:Hf.
  - apply first_word_rating_range.
  - intros [= <-]. eapply scan_rating_range.
    unfold Re.findall in Hf. rewrite Hf. left.
Qed.

End RatingRange.

(** X5.  Whatever the text, a rating extracted by the panic flow or by the
    general flow lies between 1 and 10. *)
Theorem extracted_ratings_in_range (input : string) (r : nat) :
  AcuteAnxietyFlow.extract_anxiety_rating input = Some r
  \/ GeneralAnxietyFlow.extract_effectiveness_rating input = Some r ->
  1 <= r <= 10.
Proof. intros [H|H]; by apply (extract_anxiety_rating_range input). Qed.

Lemma extracted_ratings_in_range_witness :
  AcuteAnxietyFlow.extract_anxiety_rating "maybe eight, it was hard" = Some 8
  /\ 1 <= 8 <= 10.
Proof.
  split; [vm_compute; reflexivity|].
  apply (extracted_ratings_in_range "maybe eight, it was hard" 8).
  left. vm_compute. reflexivity.
Defined.

(** ** Panic flow: what a turn changes *)

Section PanicTurn.

Import BaseFlow.

Context (R : ContentRetriever).

(** The step logic appends at most one rating, at step 6, and touches
    nothing else of the state. *)
Lemma panic_step_effect now s input r s' :
  current_step s < length AcuteAnxietyFlow.steps ->
  AcuteAnxietyFlow.process_clinical_step R now s input = Some (r, s') ->
  s' = s
  \/ (current_step s = 6
      /\ exists n, AcuteAnxietyFlow.extract_anxiety_rating input = Some n
         /\ s' = set_effectiveness_ratings
                   (effectiveness_ratings s ++
                    [ VDict [ ("rating", VNat n); ("timestamp", VInt now);
                              ("intervention_phase", VStr "post_technique") ] ]) s).
Proof.
  unfold AcuteAnxietyFlow.process_clinical_step.
  destruct s as [cs ? ? ? ? ? ? ? ? ? ?]. cbn [current_step]. intros Hlt.
  do 7 (try destruct cs as [|cs]); cbn in Hlt; try lia; cbn; intros;
    repeat case_match; simplify_eq; eauto.
Qed.

(** The flag of the reply that decides whether the flow moves on. *)
Lemma panic_step_advance now s input r s' :
  current_step s < length AcuteAnxietyFlow.steps ->
  AcuteAnxietyFlow.process_clinical_step R now s input = Some (r, s') ->
  dict_get_default "advance_step" (VBool true) r
  = VBool (negb ((current_step s =? 2)
                 && Str.any_in ["can't"; "difficult"; "not working"]
                      (Str.strip (Str.lower input)))).
Proof.
  unfold AcuteAnxietyFlow.process_clinical_step.
  destruct s as [cs ? ? ? ? ? ? ? ? ? ?]. cbn [current_step]. intros Hlt.
  do 7 (try destruct cs as [|cs]); cbn in Hlt; try lia; cbn -[Str.any_in]; intros;
    repeat case_match; by simplify_eq.
Qed.

Lemma panic_step_total now s input :
  exists r s', AcuteAnxietyFlow.process_clinical_step R now s input = Some (r, s').
Proof.
  unfold AcuteAnxietyFlow.process_clinical_step.
  destruct s as [cs ? ? ? ? ? ? ? ? ? ?]. cbn [current_step].
  do 7 (try destruct cs as [|cs]); cbn; repeat case_match; eauto.
Qed.

End PanicTurn.

(** X6.  A text that matches a crisis pattern, given to
    [process_user_input] of any flow at any step, never reaches the step
    logic: the reply is the fixed crisis reply, the text is filed as a
    response, exactly the two flags [crisis_detected_during_flow] and
    [crisis_protocol_activated] are appended, and step index, ratings and
    completion status stay as they were. *)
Theorem crisis_text_preempts_step_logic (D : BaseFlow.FlowData)
  (step_logic : BaseFlow.step_method) (now : Z) (s : BaseFlow.FlowState)
  (input : string) :
  CrisisDetector.detect_crisis_keywords input = true ->
  exists s',
    BaseFlow.process_user_input D step_logic now s input
      = Some (BaseFlow.crisis_protocol_reply, s')
    /\ BaseFlow.safety_flags s'
       = BaseFlow.safety_flags s
         ++ ["crisis_detected_during_flow"; "crisis_protocol_activated"]
    /\ BaseFlow.user_responses s'
       = <[BaseFlow.current_step s := response_record D now s input]>
           (BaseFlow.user_responses s)
    /\ BaseFlow.current_step s' = BaseFlow.current_step s
    /\ BaseFlow.effectiveness_ratings s' = BaseFlow.effectiveness_ratings s
    /\ BaseFlow.completion_status s' = BaseFlow.completion_status s.
Proof.
  intros Hcrisis. unfold BaseFlow.process_user_input. rewrite Hcrisis.
  eexists. split; [reflexivity|]. cbn. by rewrite <- app_assoc.
Qed.

Lemma crisis_text_preempts_step_logic_witness :
  exists s',
    BaseFlow.process_user_input AcuteAnxietyFlow.data
      (AcuteAnxietyFlow.process_clinical_step no_content) 4
      (BaseFlow.set_current_step 3 (BaseFlow.new_state 0)) "I can't go on"
      = Some (BaseFlow.crisis_protocol_reply, s')
    /\ BaseFlow.safety_flags s'
       = BaseFlow.safety_flags (BaseFlow.set_current_step 3 (BaseFlow.new_state 0))
         ++ ["crisis_detected_during_flow"; "crisis_protocol_activated"]
    /\ BaseFlow.user_responses s'
       = <[BaseFlow.current_step (BaseFlow.set_current_step 3 (BaseFlow.new_state 0)) :=
             response_record AcuteAnxietyFlow.data 4
               (BaseFlow.set_current_step 3 (BaseFlow.new_state 0)) "I can't go on"]>
           (BaseFlow.user_responses (BaseFlow.set_current_step 3 (BaseFlow.new_state 0)))
    /\ BaseFlow.current_step s'
       = BaseFlow.current_step (BaseFlow.set_current_step 3 (BaseFlow.new_state 0))
    /\ BaseFlow.effectiveness_ratings s'
       = BaseFlow.effectiveness_ratings (BaseFlow.set_current_step 3 (BaseFlow.new_state 0))
    /\ BaseFlow.completion_status s'
       = BaseFlow.completion_status (BaseFlow.set_current_step 3 (BaseFlow.new_state 0)).
Proof.
  apply (crisis_text_preempts_step_logic AcuteAnxietyFlow.data
           (AcuteAnxietyFlow.process_clinical_step no_content) 4
           (BaseFlow.set_current_step 3 (BaseFlow.new_state 0)) "I can't go on").
  vm_compute. reflexivity.
Defined.

(** X7.  Before its last step is passed, a panic flow always answers a
    text without crisis pattern, and it holds the user back in one case
    only: at step 2 (breathing) when the trimmed, lowered text contains
    "can't", "difficult" or "not working".  In every other case
    [current_step] moves on by exactly one. *)
Theorem panic_turn_advances_unless_breathing_retry (R : ContentRetriever) (now : Z)
  (s : BaseFlow.FlowState) (input : string) :
  BaseFlow.current_step s < 7 ->
  CrisisDetector.detect_crisis_keywords input = false ->
  exists r s',
    BaseFlow.process_user_input AcuteAnxietyFlow.data
      (AcuteAnxietyFlow.process_clinical_step R) now s input = Some (r, s')
    /\ BaseFlow.current_step s'
       = if (BaseFlow.current_step s =? 2)
            && Str.any_in ["can't"; "difficult"; "not working"]
                 (Str.strip (Str.lower input))
         then BaseFlow.current_step s
         else BaseFlow.current_step s + 1.
Proof.
  intros Hlt Hcrisis. unfold BaseFlow.process_user_input. rewrite Hcrisis.
  set (s1 := BaseFlow.set_user_responses _ s).
  destruct (panic_step_total R now s1 input) as (r & s2 & Hstep).
  rewrite Hstep. cbn [mbind option_bind]. eexists _, _. split; [reflexivity|].
  assert (Hcs : BaseFlow.current_step s2 = BaseFlow.current_step s)
    by (by apply panic_step_keeps_index in Hstep).
  rewrite (panic_step_advance R now s1 input r s2) by done.
  change (BaseFlow.current_step s1) with (BaseFlow.current_step s).
  destruct (_ && Str.any_in _ _); cbn [negb truthy];
    repeat case_match; cbn; by rewrite ?Hcs.
Qed.

Lemma panic_turn_advances_unless_breathing_retry_witness :
  exists r s',
    BaseFlow.process_user_input AcuteAnxietyFlow.data
      (AcuteAnxietyFlow.process_clinical_step no_content) 4
      (BaseFlow.set_current_step 2 (BaseFlow.new_state 0)) "This is too DIFFICULT "
      = Some (r, s')
    /\ BaseFlow.current_step s'
       = if (BaseFlow.current_step (BaseFlow.set_current_step 2 (BaseFlow.new_state 0))
             =? 2)
            && Str.any_in ["can't"; "difficult"; "not working"]
                 (Str.strip (Str.lower "This is too DIFFICULT "))
         then BaseFlow.current_step (BaseFlow.set_current_step 2 (BaseFlow.new_state 0))
         else BaseFlow.current_step (BaseFlow.set_current_step 2 (BaseFlow.new_state 0)) + 1.
Proof.
  apply (panic_turn_advances_unless_breathing_retry no_content 4
           (BaseFlow.set_current_step 2 (BaseFlow.new_state 0))
           "This is too DIFFICULT ").
  - vm_compute. lia.
  - vm_compute. reflexivity.
Defined.

(** X8.  A turn of the panic flow on a text without crisis pattern files
    the text under the index it answered and leaves every other response
    as it was; it keeps earlier ratings, adds at most one, and a state
    whose ratings all lie in 1..10 stays so; safety flags and start time
    do not change. *)
Theorem panic_turn_records_and_keeps_ratings (R : ContentRetriever) (now : Z)
  (s : BaseFlow.FlowState) (input : string) (r : pydict) (s' : BaseFlow.FlowState) :
  BaseFlow.current_step s < 7 ->
  CrisisDetector.detect_crisis_keywords input = false ->
  BaseFlow.process_user_input AcuteAnxietyFlow.data
    (AcuteAnxietyFlow.process_clinical_step R) now s input = Some (r, s') ->
  BaseFlow.user_responses s'
    = <[BaseFlow.current_step s := response_record AcuteAnxietyFlow.data now s input]>
        (BaseFlow.user_responses s)
  /\ (exists new, BaseFlow.effectiveness_ratings s'
                  = BaseFlow.effectiveness_ratings s ++ new
                  /\ length new <= 1)
  /\ (ratings_ok s = true -> ratings_ok s' = true)
  /\ BaseFlow.safety_flags s' = BaseFlow.safety_flags s
  /\ BaseFlow.start_time s' = BaseFlow.start_time s.
Proof.
  intros Hlt Hcrisis. unfold BaseFlow.process_user_input. rewrite Hcrisis.
  set (s1 := BaseFlow.set_user_responses _ s).
  destruct (AcuteAnxietyFlow.process_clinical_step R now s1 input)
    as [[r2 s2]|] eqn:Hstep; [|done].
  cbn [mbind option_bind]. intros [= <- <-].
  destruct (panic_step_effect R now s1 input r2 s2 Hlt Hstep)
    as [->|(_ & n & Hn & ->)].
  - repeat case_match; unfold ratings_ok; cbn; split_and!; try done;
      exists []; (split; [by rewrite app_nil_r|cbn; lia]).
  - apply extract_anxiety_rating_range in Hn.
    assert (Hok : ratings_ok s = true ->
                  forallb rating_entry_ok
                    (BaseFlow.effectiveness_ratings s ++
                     [VDict [("rating", VNat n); ("timestamp", VInt now);
                             ("intervention_phase", VStr "post_technique")]]) = true).
    { intros H. rewrite forallb_app. unfold ratings_ok in H. rewrite H.
      cbn. unfold VNat.
      rewrite andb_true_r.
      apply andb_true_intro; split; [apply Z.leb_le|apply Z.leb_le]; lia. }
    repeat case_match; unfold ratings_ok; cbn; split_and!; try done;
      eexists; (split; [reflexivity|cbn; lia]).
Qed.

Lemma panic_turn_records_and_keeps_ratings_witness :
  exists r s',
    BaseFlow.process_user_input AcuteAnxietyFlow.data
      (AcuteAnxietyFlow.process_clinical_step no_content) 4
      (BaseFlow.set_current_step 6 (BaseFlow.new_state 0)) "about 4 now" = Some (r, s')
    /\ BaseFlow.effectiveness_ratings s'
       = [VDict [("rating", VInt 4); ("timestamp", VInt 4);
                 ("intervention_phase", VStr "post_technique")]]
    /\ BaseFlow.user_responses s'
       = <[6 := response_record AcuteAnxietyFlow.data 4
                  (BaseFlow.set_current_step 6 (BaseFlow.new_state 0)) "about 4 now"]>
           ∅
    /\ (ratings_ok (BaseFlow.set_current_step 6 (BaseFlow.new_state 0)) = true ->
        ratings_ok s' = true).
Proof.
  eexists _, _. split; [vm_compute; reflexivity|].
  split; [reflexivity|].
  destruct (panic_turn_records_and_keeps_ratings no_content 4
              (BaseFlow.set_current_step 6 (BaseFlow.new_state 0)) "about 4 now"
              _ _ ltac:(vm_compute; lia) ltac:(vm_compute; reflexivity)
              ltac:(vm_compute; reflexivity))
    as (Hresp & _ & Hok & _).
  split; [exact Hresp|exact Hok].
Defined.

(** ** Decision-making flow *)

Section DecisionTurn.

Import BaseFlow.

Context (R : ContentRetriever).

(** In range the step logic always answers, leaves the state alone, and
    asks again only at steps 2 and 5. *)
Lemma decision_step_effect now s input :
  current_step s < length DecisionMakingFlow.steps ->
  exists r,
    DecisionMakingFlow.process_clinical_step R now s input = Some (r, s)
    /\ dict_get_default "advance_step" (VBool true) r
       = VBool (negb (decision_holds (current_step s) (Str.strip (Str.lower input))))
    /\ (current_step s = 1 ->
        dict_get "perfectionism_identified" r
        = if Str.any_in DecisionMakingFlow.perfectionism_indicators
               (Str.strip (Str.lower input))
          then Some (VBool true) else None).
Proof.
  unfold DecisionMakingFlow.process_clinical_step, decision_holds.
  destruct s as [cs ? ? ? ? ? ? ? ? ? ?]. cbn [current_step]. intros Hlt.
  do 7 (try destruct cs as [|cs]); cbn in Hlt; try lia; cbn -[Str.any_in];
    repeat case_match; eexists; (split; [reflexivity|]); by split.
Qed.

End DecisionTurn.

(** X9.  Before its last step is passed, the decision-making flow always
    answers a text without crisis pattern and asks again in two cases
    only: at step 2 when the trimmed, lowered text contains none of the
    option words, and at step 5 when it contains none of the time words.
    Otherwise [current_step] moves on by exactly one; ratings and safety
    flags are never touched.  At step 1 the reply carries
    [perfectionism_identified] exactly when the text contains a
    perfectionism word. *)
Theorem decision_turn_advances_unless_asked_again (R : ContentRetriever) (now : Z)
  (s : BaseFlow.FlowState) (input : string) :
  BaseFlow.current_step s < 7 ->
  CrisisDetector.detect_crisis_keywords input = false ->
  exists r s',
    BaseFlow.process_user_input DecisionMakingFlow.data
      (DecisionMakingFlow.process_clinical_step R) now s input = Some (r, s')
    /\ BaseFlow.current_step s'
       = (if decision_holds (BaseFlow.current_step s) (Str.strip (Str.lower input))
          then BaseFlow.current_step s else BaseFlow.current_step s + 1)
    /\ BaseFlow.effectiveness_ratings s' = BaseFlow.effectiveness_ratings s
    /\ BaseFlow.safety_flags s' = BaseFlow.safety_flags s
    /\ (BaseFlow.current_step s = 1 ->
        dict_get "perfectionism_identified" r
        = if Str.any_in DecisionMakingFlow.perfectionism_indicators
               (Str.strip (Str.lower input))
          then Some (VBool true) else None).
Proof.
  intros Hlt Hcrisis. unfold BaseFlow.process_user_input. rewrite Hcrisis.
  set (s1 := BaseFlow.set_user_responses _ s).
  destruct (decision_step_effect R now s1 input Hlt) as (r & Hstep & Hadv & Hperf).
  rewrite Hstep. cbn [mbind option_bind]. eexists _, _. split; [reflexivity|].
  rewrite Hadv. change (BaseFlow.current_step s1) with (BaseFlow.current_step s).
  split_and!; [| | |exact Hperf];
    destruct (decision_holds _ _); cbn [negb truthy]; by repeat case_match.
Qed.

Lemma decision_turn_advances_unless_asked_again_witness :
  exists r s',
    BaseFlow.process_user_input DecisionMakingFlow.data
      (DecisionMakingFlow.process_clinical_step no_content) 3
      (BaseFlow.set_current_step 1 (BaseFlow.new_state 0))
      "I'm afraid of making the wrong choice" = Some (r, s')
    /\ BaseFlow.current_step s' = 2
    /\ dict_get "perfectionism_identified" r = Some (VBool true).
Proof.
  destruct (decision_turn_advances_unless_asked_again no_content 3
              (BaseFlow.set_current_step 1 (BaseFlow.new_state 0))
              "I'm afraid of making the wrong choice"
              ltac:(vm_compute; lia) ltac:(vm_compute; reflexivity))
    as (r & s' & Hrun & Hcs & _ & _ & Hperf).
  exists r, s'. split; [exact Hrun|]. split; [exact Hcs|].
  apply Hperf. reflexivity.
Defined.

(** ** General fallback flow *)

Section GeneralTurn.

Import BaseFlow.

Context (R : ContentRetriever).

Lemma general_turn_in_range now s input :
  current_step s < length GeneralAnxietyFlow.steps ->
  exists r s',
    GeneralAnxietyFlow.process_user_input R now s input = Some (r, s')
    /\ dict_get "advance_step" r = Some (VBool true)
    /\ get_truthy "flow_completed" r
       = (current_step s =? 4)
         && bool_decide (is_Some (GeneralAnxietyFlow.extract_effectiveness_rating input))
    /\ get_truthy "crisis_override" r = false
    /\ current_step s' = current_step s
    /\ user_responses s' = user_responses s
    /\ safety_flags s' = safety_flags s
    /\ completion_status s' = completion_status s
    /\ effectiveness_ratings s'
       = effectiveness_ratings s ++
         (if current_step s =? 4 then
            match GeneralAnxietyFlow.extract_effectiveness_rating input with
            | Some n => [VDict [("rating", VNat n); ("timestamp", VInt now)]]
            | None => []
            end
          else []).
Proof.
  unfold GeneralAnxietyFlow.process_user_input.
  destruct s as [cs ? ? ? ? ? ? ? ? ? ?]. cbn [current_step]. intros Hlt.
  do 5 (try destruct cs as [|cs]); cbn in Hlt; try lia;
    cbn -[GeneralAnxietyFlow.extract_effectiveness_rating];
    repeat case_match; eexists _, _; (split; [reflexivity|]);
    cbn; by rewrite ?app_nil_r.
Qed.

Lemma general_turn_past_end now s input :
  length GeneralAnxietyFlow.steps <= current_step s ->
  GeneralAnxietyFlow.process_user_input R now s input = None.
Proof.
  intros H. unfold GeneralAnxietyFlow.process_user_input.
  by rewrite lookup_ge_None_2.
Qed.

End GeneralTurn.

(** X10.  The general flow's own [process_user_input] answers every text
    while [current_step] is below 5, crisis phrases included: it never
    files the text, never raises a safety flag, never moves the step index
    and never changes the completion status; the only change to the state
    is one rating appended at step 4 when the text holds one, and the reply
    says [flow_completed] exactly then. *)
Theorem general_flow_turn_leaves_state (R : ContentRetriever) (now : Z)
  (s : BaseFlow.FlowState) (input : string) :
  BaseFlow.current_step s < 5 ->
  exists r s',
    GeneralAnxietyFlow.process_user_input R now s input = Some (r, s')
    /\ dict_get "advance_step" r = Some (VBool true)
    /\ get_truthy "flow_completed" r
       = (BaseFlow.current_step s =? 4)
         && bool_decide (is_Some (GeneralAnxietyFlow.extract_effectiveness_rating input))
    /\ get_truthy "crisis_override" r = false
    /\ BaseFlow.current_step s' = BaseFlow.current_step s
    /\ BaseFlow.user_responses s' = BaseFlow.user_responses s
    /\ BaseFlow.safety_flags s' = BaseFlow.safety_flags s
    /\ BaseFlow.completion_status s' = BaseFlow.completion_status s
    /\ BaseFlow.effectiveness_ratings s'
       = BaseFlow.effectiveness_ratings s ++
         (if BaseFlow.current_step s =? 4 then
            match GeneralAnxietyFlow.extract_effectiveness_rating input with
            | Some n => [VDict [("rating", VNat n); ("timestamp", VInt now)]]
            | None => []
            end
          else []).
Proof. apply general_turn_in_range. Qed.

Lemma general_flow_turn_leaves_state_witness :
  CrisisDetector.detect_crisis_keywords "I feel hopeless" = true
  /\ exists r s',
       GeneralAnxietyFlow.process_user_input no_content 2
         (BaseFlow.set_current_step 3 (BaseFlow.new_state 0)) "I feel hopeless"
       = Some (r, s')
       /\ get_truthy "crisis_override" r = false
       /\ BaseFlow.current_step s' = 3
       /\ BaseFlow.safety_flags s' = [].
Proof.
  split; [vm_compute; reflexivity|].
  destruct (general_flow_turn_leaves_state no_content 2
              (BaseFlow.set_current_step 3 (BaseFlow.new_state 0)) "I feel hopeless"
              ltac:(vm_compute; lia))
    as (r & s' & Hrun & _ & _ & Hco & Hcs & _ & Hflags & _).
  exists r, s'. split; [exact Hrun|]. split; [exact Hco|].
  split; [exact Hcs|exact Hflags].
Defined.

(** X11.  Once [current_step] of a general flow has reached 5, the number
    of its steps, [process_user_input] raises for every text (the step
    list is indexed before anything else), and so does a manager turn for
    a user whose active flow is such a general flow, when the text matches
    no crisis pattern. *)
Theorem general_flow_raises_past_last_step (R : ContentRetriever) (now : Z)
  (s : BaseFlow.FlowState) (input user : string)
  (m : ClinicalFlowManager.Manager) (e : ClinicalFlowManager.FlowEntry) :
  5 <= BaseFlow.current_step s ->
  ClinicalFlowManager.active_flows m !! user = Some e ->
  ClinicalFlowManager.flow_instance e
    = ClinicalFlowManager.mkInstance (GeneralAnxietyFlow.class R) s ->
  CrisisDetector.detect_crisis_keywords input = false ->
  GeneralAnxietyFlow.process_user_input R now s input = None
  /\ ClinicalFlowManager.process_clinical_response now user input m = None.
Proof.
  intros Hcs He Hinst Hcrisis.
  assert (Hnone : GeneralAnxietyFlow.process_user_input R now s input = None)
    by (by apply general_turn_past_end).
  split; [done|].
  unfold ClinicalFlowManager.process_clinical_response.
  rewrite Hcrisis, He, Hinst. cbn [ClinicalFlowManager.inst_class
    ClinicalFlowManager.state GeneralAnxietyFlow.class cls_process_user_input].
  by rewrite Hnone.
Qed.

Lemma general_flow_raises_past_last_step_witness :
  GeneralAnxietyFlow.process_user_input no_content 9
    (BaseFlow.set_current_step 5 (BaseFlow.new_state 0)) "ok" = None
  /\ ClinicalFlowManager.process_clinical_response 9 "u" "ok" general_manager_past_end
     = None.
Proof.
  apply (general_flow_raises_past_last_step no_content 9
           (BaseFlow.set_current_step 5 (BaseFlow.new_state 0)) "ok" "u"
           general_manager_past_end general_entry_past_end).
  - vm_compute. lia.
  - reflexivity.
  - reflexivity.
  - vm_compute. reflexivity.
Defined.

(** The state of the last lemma is reached by a run: a general flow whose
    fifth answer holds no rating stays active with [current_step = 5], and
    the sixth turn raises. *)
Example general_flow_reaches_the_end :
  ('(_, m0) ← ClinicalFlowManager.start_clinical_flow 0 "u" "general_anxiety_flow"
                opening general_manager;
   m5 ← manager_turns 1 m0 ["ok"; "ok"; "ok"; "ok"; "I don't know"];
   Some (active_step "u" m5, length (outcomes_of "u" m5),
         bool_decide (is_Some (manager_turns 2 m5 ["ok"]))))
  = Some (Some 5, 0, false).
Proof. by vm_compute. Qed.

(** ** Manager: starting, continuing and finalizing *)

Section ManagerEdges.

Import ClinicalFlowManager.

Implicit Types (m : Manager) (user name : string).

Lemma context_crisis_true ctx :
  BaseFlow.context_crisis ctx = Some true ->
  exists c t, ctx = Some c
    /\ truthy (VDict c) && get_truthy "text" c = true
    /\ dict_get "text" c = Some (VStr t)
    /\ CrisisDetector.detect_crisis_keywords t = true.
Proof.
  unfold BaseFlow.context_crisis. destruct ctx as [c|]; [|done].
  destruct (truthy (VDict c) && get_truthy "text" c) eqn:Hc; [|done].
  destruct (dict_get "text" c) as [[| | | |t| |]|] eqn:Ht; try done.
  intros [= H]. by exists c, t.
Qed.

Lemma session_init_keeps m user :
  let m0 := match session_history m !! user with
            | Some _ => m
            | None => set_session_history (<[user := []]> (session_history m)) m
            end in
  active_flows m0 = active_flows m
  /\ clinical_outcomes m0 = clinical_outcomes m
  /\ clinical_flow_registry m0 = clinical_flow_registry m.
Proof. cbv zeta. by destruct (session_history m !! user). Qed.

End ManagerEdges.

(** X12.  When the context text of a start request matches a crisis
    pattern, [start_clinical_flow] returns the crisis reply whatever flow
    name was asked for, registered or not; afterwards the user has no
    active flow (one that was running is removed), other users' flows and
    the outcome history are unchanged. *)
Theorem start_with_crisis_text_creates_no_flow (now : Z) (user name : string)
  (ctx : option pydict) (m : ClinicalFlowManager.Manager) :
  BaseFlow.context_crisis ctx = Some true ->
  exists r m',
    ClinicalFlowManager.start_clinical_flow now user name ctx m = Some (r, m')
    /\ dict_get "flow_type" r = Some (VStr "crisis_override")
    /\ core_resources_listed r = true
    /\ ClinicalFlowManager.active_flows m' !! user = None
    /\ (forall u, u <> user ->
          ClinicalFlowManager.active_flows m' !! u
          = ClinicalFlowManager.active_flows m !! u)
    /\ ClinicalFlowManager.clinical_outcomes m'
       = ClinicalFlowManager.clinical_outcomes m.
Proof.
  intros (c & t & -> & Hc & Ht & Hcrisis)%context_crisis_true.
  unfold ClinicalFlowManager.start_clinical_flow. rewrite Hc, Ht, Hcrisis.
  eexists _, _. split; [reflexivity|].
  destruct (session_init_keeps m user) as (Ha & Ho & _).
  unfold ClinicalFlowManager.activate_crisis_override.
  cbn [fst snd ClinicalFlowManager.active_flows ClinicalFlowManager.clinical_outcomes
       ClinicalFlowManager.log_clinical_event ClinicalFlowManager.set_session_history
       ClinicalFlowManager.set_active_flows].
  rewrite Ha, Ho. split; [done|]. split.
  { unfold core_resources_listed, resource_listed.
    cbn [dict_get String.eqb Ascii.eqb Bool.eqb]. by rewrite !existsb_app. }
  split; [apply lookup_delete_eq|]. split; [|done].
  intros u Hu. by rewrite lookup_delete_ne.
Qed.

Lemma start_with_crisis_text_creates_no_flow_witness :
  active_step "u" running_manager = Some 2
  /\ exists r m',
       ClinicalFlowManager.start_clinical_flow 5 "u" "no_such_flow"
         (Some [("text", VStr "I want to die")]) running_manager = Some (r, m')
       /\ dict_get "flow_type" r = Some (VStr "crisis_override")
       /\ core_resources_listed r = true
       /\ ClinicalFlowManager.active_flows m' !! "u" = None
       /\ (forall u, u <> "u" ->
             ClinicalFlowManager.active_flows m' !! u
             = ClinicalFlowManager.active_flows running_manager !! u)
       /\ ClinicalFlowManager.clinical_outcomes m'
          = ClinicalFlowManager.clinical_outcomes running_manager.
Proof.
  split; [vm_compute; reflexivity|].
  apply (start_with_crisis_text_creates_no_flow 5 "u" "no_such_flow"
           (Some [("text", VStr "I want to die")]) running_manager).
  vm_compute. reflexivity.
Defined.

(** X13.  A start request for a name that is not in the registry, with a
    context that triggers no crisis, is answered by an error reply that
    lists every registered name and up to three suggestions; no flow is
    created or replaced and the outcome history is unchanged. *)
Theorem start_unknown_flow_is_refused (now : Z) (user name : string)
  (ctx : option pydict) (m : ClinicalFlowManager.Manager) :
  BaseFlow.context_crisis ctx = Some false ->
  ClinicalFlowManager.registry_lookup name
    (ClinicalFlowManager.clinical_flow_registry m) = None ->
  exists r m',
    ClinicalFlowManager.start_clinical_flow now user name ctx m = Some (r, m')
    /\ dict_get "error" r
       = Some (VStr ("Clinical flow " +:+ name +:+ " not implemented"))
    /\ dict_get "available_flows" r
       = Some (VStrs (ClinicalFlowManager.clinical_flow_registry m).*1)
    /\ dict_get "suggested_flows" r
       = Some (VStrs (ClinicalFlowManager._suggest_similar_flows name m))
    /\ ClinicalFlowManager.active_flows m' = ClinicalFlowManager.active_flows m
    /\ ClinicalFlowManager.clinical_outcomes m'
       = ClinicalFlowManager.clinical_outcomes m.
Proof.
  intros Hctx Hreg. rewrite start_clinical_flow_no_crisis by done.
  destruct (session_init_keeps m user) as (Ha & Ho & Hr). cbv zeta in *.
  unfold ClinicalFlowManager.start_registered. rewrite Hr, Hreg.
  eexists _, _. split; [reflexivity|].
  unfold ClinicalFlowManager._suggest_similar_flows. rewrite Hr.
  by repeat split.
Qed.

Lemma start_unknown_flow_is_refused_witness :
  exists r m',
    ClinicalFlowManager.start_clinical_flow 5 "u" "bogus_flow" opening running_manager
      = Some (r, m')
    /\ dict_get "error" r
       = Some (VStr ("Clinical flow " +:+ "bogus_flow" +:+ " not implemented"))
    /\ dict_get "available_flows" r
       = Some (VStrs (ClinicalFlowManager.clinical_flow_registry running_manager).*1)
    /\ dict_get "suggested_flows" r
       = Some (VStrs (ClinicalFlowManager._suggest_similar_flows "bogus_flow"
                        running_manager))
    /\ ClinicalFlowManager.active_flows m'
       = ClinicalFlowManager.active_flows running_manager
    /\ ClinicalFlowManager.clinical_outcomes m'
       = ClinicalFlowManager.clinical_outcomes running_manager.
Proof.
  apply (start_unknown_flow_is_refused 5 "u" "bogus_flow" opening running_manager).
  - vm_compute. reflexivity.
  - reflexivity.
Defined.

(** X14.  [_suggest_similar_flows] returns at most three names, all of
    them registered, and each shares with the requested name one of the
    words between underscores, letter case aside. *)
Theorem suggestions_are_registered_and_similar (requested : string)
  (m : ClinicalFlowManager.Manager) :
  length (ClinicalFlowManager._suggest_similar_flows requested m) <= 3
  /\ forall name, name ∈ ClinicalFlowManager._suggest_similar_flows requested m ->
       name ∈ (ClinicalFlowManager.clinical_flow_registry m).*1
       /\ exists k, k ∈ ClinicalFlowManager.split_on "_" (Str.lower requested)
                    /\ k ∈ ClinicalFlowManager.split_on "_" (Str.lower name).
Proof.
  unfold ClinicalFlowManager._suggest_similar_flows. split.
  - rewrite length_take. lia.
  - intros name Hin.
    apply (subseteq_take 3), list_elem_of_In, filter_In in Hin as [Hin Hsim].
    split; [by apply list_elem_of_In|].
    apply existsb_exists in Hsim as [k [Hk Hmem]].
    exists k. split; [by apply list_elem_of_In|by apply mem_string_elem].
Qed.

(** X15.  A continue request for a user without an active flow, with a
    text that matches no crisis pattern, gets the restart reply
    ([flow_restart_needed], the seven scenario names) and changes nothing
    in the manager. *)
Theorem continue_without_flow_asks_restart (now : Z) (user input : string)
  (m : ClinicalFlowManager.Manager) :
  CrisisDetector.detect_crisis_keywords input = false ->
  ClinicalFlowManager.active_flows m !! user = None ->
  exists r,
    ClinicalFlowManager.process_clinical_response now user input m = Some (r, m)
    /\ dict_get "flow_restart_needed" r = Some (VBool true)
    /\ dict_get "error" r = Some (VStr "No active clinical flow")
    /\ dict_get "available_scenarios" r
       = Some (VStrs ["panic"; "sleep"; "pre_event"; "isolation"; "uncertainty";
                      "decision_making"; "physical_triggers"]).
Proof.
  intros Hcrisis Hnone. unfold ClinicalFlowManager.process_clinical_response.
  rewrite Hcrisis, Hnone. eexists. by repeat split.
Qed.

Lemma continue_without_flow_asks_restart_witness :
  exists r,
    ClinicalFlowManager.process_clinical_response 3 "nobody" "hello" running_manager
      = Some (r, running_manager)
    /\ dict_get "flow_restart_needed" r = Some (VBool true)
    /\ dict_get "error" r = Some (VStr "No active clinical flow")
    /\ dict_get "available_scenarios" r
       = Some (VStrs ["panic"; "sleep"; "pre_event"; "isolation"; "uncertainty";
                      "decision_making"; "physical_triggers"]).
Proof.
  apply (continue_without_flow_asks_restart 3 "nobody" "hello" running_manager).
  - vm_compute. reflexivity.
  - vm_compute. reflexivity.
Defined.

(** X16.  Finalizing is idempotent: when [complete_clinical_session]
    succeeds, the user's slot is empty afterwards, and calling it again,
    with any reply, returns the manager unchanged; so one flow is never
    archived twice. *)
Theorem complete_clinical_session_twice (now later : Z) (user : string)
  (final again : pydict) (m m' : ClinicalFlowManager.Manager) :
  ClinicalFlowManager.complete_clinical_session now user final m = Some m' ->
  ClinicalFlowManager.active_flows m' !! user = None
  /\ ClinicalFlowManager.complete_clinical_session later user again m' = Some m'.
Proof.
  intros Hrun.
  assert (Hnone : ClinicalFlowManager.active_flows m' !! user = None).
  { unfold ClinicalFlowManager.complete_clinical_session in Hrun.
    destruct (ClinicalFlowManager.active_flows m !! user) as [e|] eqn:He.
    - destruct (ClinicalFlowManager.outcome_data now user e m); [|done].
      cbn in Hrun. injection Hrun as <-. cbn. apply lookup_delete_eq.
    - by injection Hrun as <-. }
  split; [done|]. by apply complete_clinical_session_idle.
Qed.

Lemma complete_clinical_session_twice_witness :
  exists m',
    ClinicalFlowManager.complete_clinical_session 5 "u" user_ended_session
      running_manager = Some m'
    /\ length (outcomes_of "u" m') = 1
    /\ ClinicalFlowManager.active_flows m' !! "u" = None
    /\ ClinicalFlowManager.complete_clinical_session 6 "u" user_ended_session m'
       = Some m'.
Proof.
  destruct (ClinicalFlowManager.complete_clinical_session 5 "u" user_ended_session
              running_manager) as [m'|] eqn:Hrun.
  - exists m'. split; [reflexivity|].
    split.
    + assert (H : (length ∘ outcomes_of "u")
                    <$> ClinicalFlowManager.complete_clinical_session 5 "u"
                          user_ended_session running_manager = Some 1)
        by (vm_compute; reflexivity).
      rewrite Hrun in H. by injection H.
    + exact (complete_clinical_session_twice 5 6 "u" user_ended_session
               user_ended_session running_manager m' Hrun).
  - exfalso.
    assert (H : bool_decide (is_Some (ClinicalFlowManager.complete_clinical_session 5 "u"
                  user_ended_session running_manager)) = true)
      by (vm_compute; reflexivity).
    rewrite Hrun in H. discriminate H.
Defined.

(** ** Manager: what an operation may touch *)

Section ManagerFootprint.

Import ClinicalFlowManager.

Implicit Types (m : Manager) (user u : string).

Lemma same_for_refl u m : same_for u m m.
Proof. by repeat split. Qed.

Lemma same_for_trans u m1 m2 m3 : same_for u m1 m2 -> same_for u m2 m3 -> same_for u m1 m3.
Proof. intros (?&?&?) (?&?&?). repeat split; congruence. Qed.

Lemma log_same_for now user ty data m u :
  u <> user -> same_for u m (log_clinical_event now user ty data m).
Proof. intros Hu. repeat split. cbn. by rewrite lookup_insert_ne. Qed.

Lemma log_history now user ty data m :
  exists entry,
    history_of user (log_clinical_event now user ty data m) = history_of user m ++ [entry].
Proof. eexists. unfold history_of. cbn. by rewrite lookup_insert_eq. Qed.

Lemma session_init_same_for m user u :
  u <> user ->
  same_for u m
    match session_history m !! user with
    | Some _ => m
    | None => set_session_history (<[user := []]> (session_history m)) m
    end.
Proof.
  intros Hu. destruct (session_history m !! user) eqn:H; [apply same_for_refl|].
  repeat split. cbn. by rewrite lookup_insert_ne.
Qed.

Lemma session_init_history m user :
  history_of user
    match session_history m !! user with
    | Some _ => m
    | None => set_session_history (<[user := []]> (session_history m)) m
    end = history_of user m
  /\ outcomes_of user
       match session_history m !! user with
       | Some _ => m
       | None => set_session_history (<[user := []]> (session_history m)) m
       end = outcomes_of user m.
Proof.
  unfold history_of. destruct (session_history m !! user) eqn:H.
  - by rewrite H.
  - cbn. by rewrite lookup_insert_eq.
Qed.

Lemma crisis_override_same_for now user text m u :
  u <> user -> same_for u m (activate_crisis_override now user text m).2.
Proof.
  intros Hu. repeat split; cbn; [by rewrite lookup_delete_ne|by rewrite lookup_insert_ne].
Qed.

Lemma crisis_override_only_grew now user text m :
  only_grew user m (activate_crisis_override now user text m).2.
Proof.
  split.
  - unfold history_of. cbn. rewrite lookup_insert_eq. eauto.
  - exists []. split; [by rewrite app_nil_r|cbn; lia].
Qed.

Lemma complete_same_for now user final m m' u :
  complete_clinical_session now user final m = Some m' ->
  u <> user -> same_for u m m'.
Proof.
  unfold complete_clinical_session. intros Hrun Hu.
  destruct (active_flows m !! user) as [e|]; [|injection Hrun as <-; apply same_for_refl].
  destruct (outcome_data now user e m); [|done]. cbn in Hrun. injection Hrun as <-.
  repeat split; cbn; by rewrite ?lookup_delete_ne, ?lookup_insert_ne.
Qed.

Lemma complete_only_grew now user final m m' :
  complete_clinical_session now user final m = Some m' -> only_grew user m m'.
Proof.
  unfold complete_clinical_session. intros Hrun.
  destruct (active_flows m !! user) as [e|].
  - destruct (outcome_data now user e m); [|done]. cbn in Hrun. injection Hrun as <-.
    split; unfold history_of, outcomes_of; cbn; rewrite lookup_insert_eq; eauto.
  - injection Hrun as <-. split; exists []; rewrite app_nil_r; [done|].
    split; [done|cbn; lia].
Qed.

End ManagerFootprint.

Section ManagerOperations.

Import ClinicalFlowManager.

Implicit Types (m : Manager) (user u : string).

Lemma only_grew_after_log user m m2 m3 x :
  history_of user m2 = history_of user m ++ [x] ->
  outcomes_of user m2 = outcomes_of user m ->
  only_grew user m2 m3 -> only_grew user m m3.
Proof.
  intros Hh Ho [[added Ha] [new [Hn Hlen]]]. split.
  - exists (x :: added). rewrite Ha, Hh. by rewrite <- app_assoc.
  - exists new. by rewrite Hn, Ho.
Qed.

Lemma only_grew_refl user m : only_grew user m m.
Proof. split; exists []; rewrite app_nil_r; [done|]. split; [done|cbn; lia]. Qed.

Lemma process_same_for now user input m r m' u :
  process_clinical_response now user input m = Some (r, m') ->
  u <> user -> same_for u m m'.
Proof.
  unfold process_clinical_response. intros Hrun Hu.
  destruct (CrisisDetector.detect_crisis_keywords input).
  { injection Hrun as <- <-. by apply crisis_override_same_for. }
  destruct (active_flows m !! user) as [e|]; [|injection Hrun as <- <-; apply same_for_refl].
  destruct (cls_process_user_input _ _ _ _) as [[response st1]|]; [|done].
  cbn [mbind option_bind] in Hrun.
  match type of Hrun with
  | (?c ≫= _) = _ => destruct c as [m3|] eqn:Hm3; [|done]
  end.
  cbn in Hrun. injection Hrun as <- <-.
  match type of Hm3 with
  | (if _ then complete_clinical_session _ _ _ ?m2 else _) = _ =>
      assert (H2 : same_for u m m2)
  end.
  { repeat split; cbn; by rewrite lookup_insert_ne. }
  destruct (_ || _) in Hm3.
  - eapply same_for_trans; [exact H2|]. by eapply complete_same_for.
  - by injection Hm3 as <-.
Qed.

Lemma process_only_grew now user input m r m' :
  process_clinical_response now user input m = Some (r, m') -> only_grew user m m'.
Proof.
  unfold process_clinical_response. intros Hrun.
  destruct (CrisisDetector.detect_crisis_keywords input).
  { injection Hrun as <- <-. apply crisis_override_only_grew. }
  destruct (active_flows m !! user) as [e|]; [|injection Hrun as <- <-; apply only_grew_refl].
  destruct (cls_process_user_input _ _ _ _) as [[response st1]|]; [|done].
  cbn [mbind option_bind] in Hrun.
  match type of Hrun with
  | (?c ≫= _) = _ => destruct c as [m3|] eqn:Hm3; [|done]
  end.
  cbn in Hrun. injection Hrun as <- <-.
  match type of Hm3 with
  | (if _ then complete_clinical_session _ _ _ ?m2 else _) = _ =>
      assert (H2 : exists x, history_of user m2 = history_of user m ++ [x]
                             /\ outcomes_of user m2 = outcomes_of user m)
  end.
  { eexists. unfold history_of. cbn. by rewrite lookup_insert_eq. }
  destruct H2 as (x & Hh & Ho).
  eapply only_grew_after_log; [exact Hh|exact Ho|].
  destruct (_ || _) in Hm3.
  - by eapply complete_only_grew.
  - injection Hm3 as <-. apply only_grew_refl.
Qed.

Lemma start_registered_same_for now user name ctx m r m' u :
  start_registered now user name ctx m = Some (r, m') ->
  u <> user -> same_for u m m'.
Proof.
  unfold start_registered. intros Hrun Hu.
  destruct (registry_lookup _ _) as [cls|]; [|injection Hrun as <- <-; apply same_for_refl].
  cbn [log_clinical_event set_session_history set_active_flows] in Hrun.
  destruct (cls_start_flow cls now ctx) as [[response st]|]; [|done].
  cbn in Hrun. injection Hrun as <- <-.
  repeat split; cbn; by rewrite ?lookup_insert_ne.
Qed.

Lemma start_registered_only_grew now user name ctx m r m' :
  start_registered now user name ctx m = Some (r, m') -> only_grew user m m'.
Proof.
  unfold start_registered. intros Hrun.
  destruct (registry_lookup _ _) as [cls|]; [|injection Hrun as <- <-; apply only_grew_refl].
  cbn [log_clinical_event set_session_history set_active_flows] in Hrun.
  destruct (cls_start_flow cls now ctx) as [[response st]|]; [|done].
  cbn in Hrun. injection Hrun as <- <-. split.
  - unfold history_of. cbn. rewrite lookup_insert_eq. eauto.
  - exists []. split; [by rewrite app_nil_r|cbn; lia].
Qed.

Lemma start_cases now user name ctx m r m' :
  start_clinical_flow now user name ctx m = Some (r, m') ->
  let m0 := match session_history m !! user with
            | Some _ => m
            | None => set_session_history (<[user := []]> (session_history m)) m
            end in
  (exists t, (r, m') = activate_crisis_override now user t m0)
  \/ start_registered now user name ctx m0 = Some (r, m').
Proof.
  unfold start_clinical_flow. cbv zeta. intros Hrun.
  destruct ctx as [c|]; [|by right].
  destruct (truthy (VDict c) && get_truthy "text" c); [|by right].
  destruct (dict_get "text" c) as [[| | | |t| |]|]; try done.
  destruct (CrisisDetector.detect_crisis_keywords t); [|by right].
  left. exists t. by injection Hrun as <- <-.
Qed.

End ManagerOperations.

(** X17.  Every operation of the manager on behalf of one user leaves the
    active flow, the archived outcomes and the event log of every other
    user exactly as they were, whatever the flow classes do. *)
Theorem other_users_are_untouched (now : Z) (user u input name : string)
  (ctx : option pydict) (final : pydict) (m : ClinicalFlowManager.Manager) :
  u <> user ->
  (forall r m', ClinicalFlowManager.process_clinical_response now user input m
                = Some (r, m') -> same_for u m m')
  /\ (forall r m', ClinicalFlowManager.start_clinical_flow now user name ctx m
                   = Some (r, m') -> same_for u m m')
  /\ (forall m', ClinicalFlowManager.complete_clinical_session now user final m
                 = Some m' -> same_for u m m')
  /\ same_for u m (ClinicalFlowManager.activate_crisis_override now user input m).2.
Proof.
  intros Hu. split_and!.
  - intros r m' H. by eapply process_same_for.
  - intros r m' H. apply start_cases in H as [[t Ht]|H]; cbv zeta in *.
    + eapply same_for_trans; [by apply (session_init_same_for m user u)|].
      assert (Hm : m' = (ClinicalFlowManager.activate_crisis_override now user t
                           match ClinicalFlowManager.session_history m !! user with
                           | Some _ => m
                           | None => ClinicalFlowManager.set_session_history
                                       (<[user := []]> (ClinicalFlowManager.session_history m)) m
                           end).2) by (by rewrite <- Ht).
      rewrite Hm. by apply crisis_override_same_for.
    + eapply same_for_trans; [by apply (session_init_same_for m user u)|].
      by eapply start_registered_same_for.
  - intros m' H. by eapply complete_same_for.
  - by apply crisis_override_same_for.
Qed.

Lemma other_users_are_untouched_witness :
  same_for "someone_else" running_manager
    (ClinicalFlowManager.activate_crisis_override 3 "u" "I want to die" running_manager).2.
Proof.
  apply (other_users_are_untouched 3 "u" "someone_else" "I want to die" "panic_flow"
           opening user_ended_session running_manager).
  intros H. discriminate H.
Defined.

(** X18.  The manager's records of a user are append-only: after a
    continue, start or finalize operation, or a crisis override, the
    user's event log is the old log with entries added at the end, and the
    user's outcome list is the old list with at most one record added. *)
Theorem user_records_only_grow (now : Z) (user input name : string)
  (ctx : option pydict) (final : pydict) (m : ClinicalFlowManager.Manager) :
  (forall r m', ClinicalFlowManager.process_clinical_response now user input m
                = Some (r, m') -> only_grew user m m')
  /\ (forall r m', ClinicalFlowManager.start_clinical_flow now user name ctx m
                   = Some (r, m') -> only_grew user m m')
  /\ (forall m', ClinicalFlowManager.complete_clinical_session now user final m
                 = Some m' -> only_grew user m m')
  /\ only_grew user m (ClinicalFlowManager.activate_crisis_override now user input m).2.
Proof.
  split_and!.
  - intros r m' H. by eapply process_only_grew.
  - intros r m' H. apply start_cases in H as [[t Ht]|H]; cbv zeta in *.
    + destruct (session_init_history m user) as [Hh Ho].
      assert (Hm : m' = (ClinicalFlowManager.activate_crisis_override now user t
                           match ClinicalFlowManager.session_history m !! user with
                           | Some _ => m
                           | None => ClinicalFlowManager.set_session_history
                                       (<[user := []]> (ClinicalFlowManager.session_history m)) m
                           end).2) by (by rewrite <- Ht).
      rewrite Hm.
      destruct (crisis_override_only_grew now user t
                  match ClinicalFlowManager.session_history m !! user with
                  | Some _ => m
                  | None => ClinicalFlowManager.set_session_history
                              (<[user := []]> (ClinicalFlowManager.session_history m)) m
                  end) as [[a Ha] [n [Hn Hl]]].
      split; [exists a; by rewrite Ha, Hh|exists n; by rewrite Hn, Ho].
    + destruct (session_init_history m user) as [Hh Ho].
      destruct (start_registered_only_grew _ _ _ _ _ _ _ H) as [[a Ha] [n [Hn Hl]]].
      split; [exists a; by rewrite Ha, Hh|exists n; by rewrite Hn, Ho].
  - intros m' H. by eapply complete_only_grew.
  - apply crisis_override_only_grew.
Qed.

(** ** Manager: numbers and lists it reports *)

Section ManagerReports.

Import ClinicalFlowManager.

Lemma take_length n s : String.length (Str.take n s) <= n.
Proof.
  revert s. induction n as [|n IH]; intros [|c r]; cbn; try lia.
  specialize (IH r). lia.
Qed.

Lemma append_length (a b : string) :
  String.length (a +:+ b) = String.length a + String.length b.
Proof.
  induction a as [|c a IH]; [done|].
  change (String c a +:+ b) with (String c (a +:+ b)). cbn. by rewrite IH.
Qed.

Lemma additional_resource_ok v x :
  additional_resource v = Some (Some x) -> additional_entry_ok x = true.
Proof.
  unfold additional_resource. intros H.
  repeat case_match; simplify_eq.
  cbv beta iota delta [additional_entry_ok].
  apply andb_true_intro; split; [reflexivity|].
  apply Nat.leb_le. rewrite append_length.
  match goal with |- context [Str.take 100 ?c] => pose proof (take_length 100 c) end.
  change (String.length "...") with 3. lia.
Qed.

Lemma collect_additional_ok l :
  forallb additional_entry_ok (collect_additional l) = true
  /\ length (collect_additional l) <= length l.
Proof.
  induction l as [|v l [IH1 IH2]]; [split; [done|cbn; lia]|].
  cbn [collect_additional]. destruct (additional_resource v) as [[x|]|] eqn:Hv.
  - apply additional_resource_ok in Hv. cbn. rewrite Hv, IH1. split; [done|lia].
  - split; [done|cbn; lia].
  - split; [done|cbn; lia].
Qed.

End ManagerReports.

(** X19.  The dynamic-content percentage the manager reports always lies
    between 0 and 100, whatever the step index of the flow; it is 0 for a
    user without an active flow. *)
Theorem dynamic_content_percentage_bounds (user : string)
  (m : ClinicalFlowManager.Manager) :
  (0 <= ClinicalFlowManager._calculate_dynamic_content_percentage user m)%Q
  /\ (ClinicalFlowManager._calculate_dynamic_content_percentage user m <= 100)%Q
  /\ (ClinicalFlowManager.active_flows m !! user = None ->
      ClinicalFlowManager._calculate_dynamic_content_percentage user m = 0%Q).
Proof.
  unfold ClinicalFlowManager._calculate_dynamic_content_percentage.
  destruct (ClinicalFlowManager.active_flows m !! user) as [e|]; [|done].
  split_and!; [| |done].
  - destruct (_ =? 0); [done|].
    destruct (Qle_bool 100 _) eqn:H; [done|].
    apply Qmult_le_0_compat; [|done]. unfold Qle. cbn. lia.
  - destruct (_ =? 0); [done|].
    destruct (Qle_bool 100 _) eqn:H; [apply Qle_refl|].
    apply Qlt_le_weak, Qnot_le_lt. intros Hle.
    apply Qle_bool_iff in Hle. congruence.
Qed.

(** X20.  In the manager's crisis reply the four fixed resources come
    first and in their fixed order; whatever the retriever returns, what
    follows them are entries named "Additional Support" whose description
    is at most 103 characters long, no more of them than items retrieved,
    and [rag_enhanced_crisis] says whether there is any. *)
Theorem crisis_reply_resource_list (now : Z) (user text : string)
  (m : ClinicalFlowManager.Manager) :
  exists extra,
    dict_get "crisis_resources"
      (ClinicalFlowManager.activate_crisis_override now user text m).1
    = Some (VList (ClinicalFlowManager.core_crisis_resources ++ extra))
    /\ forallb additional_entry_ok extra = true
    /\ length extra
       <= length (default [] (search_by_keywords (ClinicalFlowManager.content_retriever m)
                                ["crisis"; "safety"; "help"; "emergency"] "resources" 2))
    /\ dict_get "rag_enhanced_crisis"
         (ClinicalFlowManager.activate_crisis_override now user text m).1
       = Some (VBool (negb (Nat.eqb (length extra) 0))).
Proof.
  exists (ClinicalFlowManager.additional_resources (ClinicalFlowManager.content_retriever m)).
  split; [done|].
  assert (H : forallb additional_entry_ok
                (ClinicalFlowManager.additional_resources
                   (ClinicalFlowManager.content_retriever m)) = true
              /\ length (ClinicalFlowManager.additional_resources
                           (ClinicalFlowManager.content_retriever m))
                 <= length (default [] (search_by_keywords
                                          (ClinicalFlowManager.content_retriever m)
                                          ["crisis"; "safety"; "help"; "emergency"]
                                          "resources" 2))).
  { unfold ClinicalFlowManager.additional_resources.
    destruct (search_by_keywords _ _ _ _) as [l|]; cbn [default].
    - apply collect_additional_ok.
    - split; [done|cbn; lia]. }
  destruct H as [H1 H2]. by split_and!.
Qed.

(** ** Scenario router *)

Section Routing.

Import ScenarioRouter.

Lemma elem_mem_string (x : string) (l : list string) :
  x ∈ l -> ClinicalFlowManager.mem_string x l = true.
Proof.
  intros H%list_elem_of_In. apply existsb_exists. exists x.
  split; [done|apply String.eqb_refl].
Qed.

Lemma assoc_value {A} k (l : list (string * A)) v :
  assoc k l = Some v -> v ∈ l.*2.
Proof.
  induction l as [|[k' v'] l IH]; [done|]. cbn.
  destruct (String.eqb k k'); [intros [= ->]; left|intros H; right; by apply IH].
Qed.

(** [top_entry] returns an entry of the list that no other entry exceeds. *)
Lemma top_entry_max l : forall best k v,
  top_entry best l = (k, v) ->
  (k, v) ∈ best :: l /\ Forall (fun kv => (kv.2 <= v)%Q) (best :: l).
Proof.
  induction l as [|[k' v'] l IH]; intros best k v; cbn [top_entry].
  - intros ->. split; [left|]. constructor; [apply Qle_refl|constructor].
  - destruct (Qle_bool v' best.2) eqn:Hle; intros H; apply IH in H as [Hin Hall].
    + split.
      * apply elem_of_cons in Hin as [->|Hin]; [left|right; by right].
      * inversion Hall as [|? ? Hb Hl]; subst. constructor; [done|].
        constructor; [|done]. cbn. apply Qle_bool_iff in Hle.
        by eapply Qle_trans.
    + split.
      * apply elem_of_cons in Hin as [->|Hin]; [right; left|right; by right].
      * inversion Hall as [|? ? Hb Hl]; subst. cbn in Hb.
        constructor; [|by constructor].
        assert (Hlt : (best.2 < v')%Q).
        { apply Qnot_le_lt. intros Hc. apply Qle_bool_iff in Hc. congruence. }
        eapply Qle_trans; [apply Qlt_le_weak, Hlt|done].
Qed.

End Routing.

(** X21.  The router sends a text its crisis screen flags to one of the
    two crisis flow names, whatever the scores, and marks the routing as a
    crisis; neither name is a registered flow.  Every other text is sent to
    a flow name the manager's registry holds. *)
Theorem router_destinations (now : Z) (intent_scores emotion_scores : list (string * Q))
  (text : string) :
  let route := ScenarioRouter.route_scenario now intent_scores emotion_scores text in
  if ScenarioRouter.is_crisis (ScenarioRouter.detect_crisis text) then
    (fst route ∈ crisis_flow_names
     /\ (fst route ∉ registry_names)
     /\ dict_get "crisis_detected" (snd route) = Some (VBool true))
  else
    (fst route ∈ registry_names
     /\ dict_get "crisis_detected" (snd route) = Some (VBool false)).
Proof.
  cbv zeta. unfold ScenarioRouter.route_scenario.
  destruct (ScenarioRouter.is_crisis _).
  - destruct (String.eqb _ "high"); cbn [fst snd]; split_and!; try done.
    + apply mem_string_elem. by vm_compute.
    + intros H%elem_mem_string. by vm_compute in H.
    + apply mem_string_elem. by vm_compute.
    + intros H%elem_mem_string. by vm_compute in H.
  - assert (Hgen : "general_anxiety_flow" ∈ registry_names).
    { apply mem_string_elem. by vm_compute. }
    destruct intent_scores as [|first rest]; [by split|].
    destruct (ScenarioRouter.top_entry first rest) as [top score].
    destruct (ScenarioRouter.assoc top ScenarioRouter.scenario_to_flow)
      as [mapped|] eqn:Hmap; [|by split].
    destruct (negb (String.eqb mapped "")); [|by split].
    cbn [fst snd]. split; [|done].
    apply assoc_value in Hmap.
    assert (Hsub : forall x, x ∈ ScenarioRouter.scenario_to_flow.*2 -> x ∈ registry_names).
    { apply forallb_mem_incl. by vm_compute. }
    by apply Hsub.
Qed.

(** X22.  For a text the router's screen does not flag and a non-empty
    score table, the scenario the router reports is an entry of the table
    whose score no other entry exceeds, that score is the reported
    confidence, and the router falls back to the general flow exactly when
    this scenario has no flow of its own. *)
Theorem router_follows_top_intent (now : Z) (first : string * Q)
  (rest emotion_scores : list (string * Q)) (text : string) :
  ScenarioRouter.is_crisis (ScenarioRouter.detect_crisis text) = false ->
  exists top score,
    (top, score) ∈ first :: rest
    /\ Forall (fun kv => (kv.2 <= score)%Q) (first :: rest)
    /\ let route := ScenarioRouter.route_scenario now (first :: rest) emotion_scores text in
       dict_get "scenario" route.2 = Some (VStr top)
       /\ dict_get "confidence" route.2 = Some (VRat score)
       /\ route.1 = default "general_anxiety_flow"
                      (ScenarioRouter.assoc top ScenarioRouter.scenario_to_flow)
       /\ dict_get "fallback_used" route.2
          = Some (VBool (bool_decide
                           (ScenarioRouter.assoc top ScenarioRouter.scenario_to_flow = None))).
Proof.
  intros Hcrisis. unfold ScenarioRouter.route_scenario. rewrite Hcrisis.
  destruct (ScenarioRouter.top_entry first rest) as [top score] eqn:Htop.
  apply top_entry_max in Htop as [Hin Hall].
  exists top, score. split; [done|]. split; [done|]. cbv zeta.
  destruct (ScenarioRouter.assoc top ScenarioRouter.scenario_to_flow)
    as [mapped|] eqn:Hmap; [|done].
  assert (Hne : negb (String.eqb mapped "") = true).
  { assert (H : forallb (fun x => negb (String.eqb x ""))
                  ScenarioRouter.scenario_to_flow.*2 = true) by (by vm_compute).
    apply assoc_value, list_elem_of_In in Hmap.
    by eapply forallb_forall in H. }
  rewrite Hne. done.
Qed.

Lemma router_follows_top_intent_witness :
  exists top score,
    (top, score) ∈ [("sleep", 1 # 2); ("panic", 1%Q); ("isolation", 1%Q)]
    /\ Forall (fun kv => (kv.2 <= score)%Q)
         [("sleep", 1 # 2); ("panic", 1%Q); ("isolation", 1%Q)]
    /\ let route := ScenarioRouter.route_scenario 0
                      [("sleep", 1 # 2); ("panic", 1%Q); ("isolation", 1%Q)]
                      [("fear", 9 # 10)] "my heart is racing" in
       dict_get "scenario" route.2 = Some (VStr top)
       /\ dict_get "confidence" route.2 = Some (VRat score)
       /\ route.1 = default "general_anxiety_flow"
                      (ScenarioRouter.assoc top ScenarioRouter.scenario_to_flow)
       /\ dict_get "fallback_used" route.2
          = Some (VBool (bool_decide
                           (ScenarioRouter.assoc top ScenarioRouter.scenario_to_flow = None))).
Proof.
  apply (router_follows_top_intent 0 ("sleep", 1 # 2)
           [("panic", 1%Q); ("isolation", 1%Q)] [("fear", 9 # 10)] "my heart is racing").
  vm_compute. reflexivity.
Defined.

(** Ties go to the entry that comes first, and the intensity follows the
    largest emotion score. *)
Example router_tie_and_intensity :
  (ScenarioRouter.route_scenario 0
     [("sleep", 1 # 2); ("panic", 1%Q); ("isolation", 1%Q)]
     [("joy", 1 # 10); ("fear", 9 # 10)] "my heart is racing").1 = "acute_anxiety_flow"
  /\ dict_get "intensity"
       (ScenarioRouter.route_scenario 0
          [("sleep", 1 # 2); ("panic", 1%Q); ("isolation", 1%Q)]
          [("joy", 1 # 10); ("fear", 9 # 10)] "my heart is racing").2
     = Some (VStr "high")
  /\ (ScenarioRouter.route_scenario 0 [("general", 1%Q)] [] "hello").1
     = "general_anxiety_flow"
  /\ (ScenarioRouter.route_scenario 0 [("panic", 1%Q)] [] "I feel hopeless").1
     = "crisis_support_flow".
Proof. by vm_compute. Qed.

(** ** Intent detector *)

Section Intent.

Import IntentDetector.

Lemma count_occurs t kw : negb (count t kw =? 0) = occurs kw t.
Proof.
  unfold count, occurs, Re.findall.
  pose proof (scan_empty true [Re.lit kw] t None) as H.
  destruct (Re.scan true [Re.lit kw] None 0 t); cbn in *.
  - by destruct (hit_somewhere _ _ _ _).
  - by destruct (hit_somewhere _ _ _ _).
Qed.

Lemma scenario_total_spec t ps : forall acc,
  match scenario_total t ps acc with
  | Some v =>
      (acc = None \/ exists a, acc = Some a /\ a <= v)
      /\ ((forall a, acc = Some a -> 0 < a) -> 0 < v)
      /\ (acc = None -> existsb (fun kb : string * bool => occurs kb.1 t) ps = true)
  | None => acc = None /\ existsb (fun kb : string * bool => occurs kb.1 t) ps = false
  end.
Proof.
  induction ps as [|[kw b] ps IH]; intros acc; cbn [scenario_total existsb].
  - destruct acc as [a|]; [|done]. split_and!; [right; eauto|eauto|done].
  - cbn [fst]. rewrite <- count_occurs.
    destruct (count t kw =? 0) eqn:Hc; cbn [negb orb].
    + apply IH.
    + specialize (IH (Some (default 0 acc + count t kw * weight b))).
      destruct (scenario_total t ps _) as [v|]; [|by destruct IH].
      destruct IH as (Hge & Hpos & _).
      destruct Hge as [?|(a & [= <-] & Hle)]; [done|].
      apply Nat.eqb_neq in Hc.
      assert (Hw : 0 < weight b) by (destruct b; cbn; lia).
      split_and!.
      * destruct acc as [a0|]; [right; exists a0; split; [done|cbn in Hle; lia]|by left].
      * intros _. apply Hpos. intros a [= <-]. nia.
      * done.
Qed.

Lemma patterns_occur t (sk : string * (list string * list string)) :
  existsb (fun kb : string * bool => occurs kb.1 t)
    (((fun k0 => (k0, true)) <$> sk.2.1) ++ ((fun k0 => (k0, false)) <$> sk.2.2))
  = keyword_occurs t sk.
Proof.
  unfold keyword_occurs, entry_keywords. rewrite !existsb_app. f_equal.
  - by induction sk.2.1 as [|x xs IHx]; [|cbn; rewrite IHx].
  - by induction sk.2.2 as [|x xs IHx]; [|cbn; rewrite IHx].
Qed.

Lemma raw_scores_entry t k v :
  (k, v) ∈ raw_scores t ->
  0 < v /\ exists sk, sk ∈ scenario_keywords /\ sk.1 = k /\ keyword_occurs t sk = true.
Proof.
  unfold raw_scores, compiled_patterns.
  intros H. apply list_elem_of_omap in H as [[k' ps] [Hin Hv]].
  apply list_elem_of_fmap in Hin as [sk [[= -> ->] Hsk]]. cbn [fst snd] in Hv.
  pose proof (scenario_total_spec t
    (((fun k0 => (k0, true)) <$> sk.2.1) ++ ((fun k0 => (k0, false)) <$> sk.2.2)) None) as Hs.
  rewrite patterns_occur in Hs.
  destruct (scenario_total t _ None) as [v'|]; [|done].
  cbn in Hv. simplify_eq. destruct Hs as (_ & Hpos & Hocc).
  split; [by apply Hpos|]. exists sk. by split_and!; [| |apply Hocc].
Qed.

Lemma raw_scores_nil t :
  raw_scores t = [] <-> existsb (keyword_occurs t) scenario_keywords = false.
Proof.
  unfold raw_scores, compiled_patterns.
  induction scenario_keywords as [|sk l IH]; [done|].
  cbn [fmap list_fmap omap list_omap existsb fst snd].
  pose proof (scenario_total_spec t
    (((fun k0 => (k0, true)) <$> sk.2.1) ++ ((fun k0 => (k0, false)) <$> sk.2.2)) None) as Hs.
  rewrite patterns_occur in Hs.
  destruct (scenario_total t _ None) as [v|]; cbn.
  - destruct Hs as (_ & _ & Hocc). rewrite Hocc by done. done.
  - destruct Hs as [_ ->]. cbn. apply IH.
Qed.

Lemma max_score_ge (l : list (string * nat)) k v :
  (k, v) ∈ l -> v <= max_score l.
Proof.
  unfold max_score. induction l as [|[k' v'] l IH]; [by inversion 1|].
  intros [[= -> ->]|Hin]%elem_of_cons; cbn; [lia|]. specialize (IH Hin). lia.
Qed.

Lemma max_score_attained (l : list (string * nat)) :
  l <> [] -> exists k, (k, max_score l) ∈ l.
Proof.
  unfold max_score. induction l as [|[k v] l IH]; [done|]. intros _.
  destruct l as [|kv l'].
  - exists k. cbn. rewrite Nat.max_0_r. left.
  - destruct IH as [k' Hk']; [done|].
    cbn [fmap list_fmap foldr snd] in *.
    destruct (Nat.max_spec v (Nat.max kv.2 (foldr Nat.max 0 l'.*2))) as [[_ ->]|[_ ->]].
    + exists k'. by right.
    + exists k. left.
Qed.

Lemma normalised_bounds v top :
  0 < v -> v <= top ->
  (0 < Z.of_nat v # Pos.of_nat top)%Q /\ (Z.of_nat v # Pos.of_nat top <= 1)%Q.
Proof.
  intros Hv Hle. unfold Qlt, Qle. cbn [Qnum Qden].
  assert (Z.pos (Pos.of_nat top) = Z.of_nat top) as ->.
  { destruct top; [lia|]. by rewrite <- Pos.of_nat_succ, Zpos_P_of_succ_nat, Nat2Z.inj_succ. }
  lia.
Qed.

Lemma normalised_one top :
  0 < top -> (Z.of_nat top # Pos.of_nat top == 1)%Q.
Proof.
  intros H. unfold Qeq. cbn [Qnum Qden].
  assert (Z.pos (Pos.of_nat top) = Z.of_nat top) as ->.
  { destruct top; [lia|]. by rewrite <- Pos.of_nat_succ, Zpos_P_of_succ_nat, Nat2Z.inj_succ. }
  lia.
Qed.

Lemma lower_empty t : Str.lower t = "" -> t = "".
Proof. by destruct t. Qed.

Lemma occurs_empty kw : occurs kw "" = false.
Proof. done. Qed.

(** The three facts about the score table that the statements below use. *)
Lemma detect_intent_spec text :
  (forall k v, (k, v) ∈ detect_intent text ->
     (0 < v)%Q /\ (v <= 1)%Q
     /\ exists sk, sk ∈ scenario_keywords /\ sk.1 = k
                   /\ keyword_occurs (Str.lower text) sk = true)
  /\ (detect_intent text <> [] ->
      exists k v, (k, v) ∈ detect_intent text /\ (v == 1)%Q)
  /\ (detect_intent text = []
      <-> existsb (keyword_occurs (Str.lower text)) scenario_keywords = false).
Proof.
  unfold detect_intent. destruct (String.eqb_spec text "") as [->|Hne].
  { split_and!; [by inversion 1|done|done]. }
  destruct (raw_scores (Str.lower text)) as [|kv l] eqn:Hraw.
  { split_and!; [by inversion 1|done|]. by rewrite <- raw_scores_nil, Hraw. }
  split_and!.
  - intros k v Hin. apply list_elem_of_fmap in Hin as [[k' n] [[= -> ->] Hin]].
    rewrite <- Hraw in Hin. pose proof (raw_scores_entry _ _ _ Hin) as [Hpos Hsk].
    rewrite Hraw in Hin. apply max_score_ge in Hin.
    destruct (normalised_bounds n (max_score (kv :: l)) Hpos Hin). done.
  - intros _. destruct (max_score_attained (kv :: l)) as [k Hk]; [done|].
    exists k, (Z.of_nat (max_score (kv :: l)) # Pos.of_nat (max_score (kv :: l))).
    split.
    + apply list_elem_of_fmap. by exists (k, max_score (kv :: l)).
    + apply normalised_one. rewrite <- Hraw in Hk |- *.
      by apply raw_scores_entry in Hk as [Hpos _].
  - split; [done|]. intros H. apply raw_scores_nil in H. congruence.
Qed.

End Intent.

(** X23.  The intent scores are normalised: every score lies in (0, 1],
    its key is a scenario of the keyword table one of whose keywords occurs
    in the lowered text as a whole word, a non-empty table has an entry
    with score 1, and the table is empty exactly when no keyword of any
    scenario occurs. *)
Theorem intent_scores_are_normalised (text : string) :
  (forall k v, (k, v) ∈ IntentDetector.detect_intent text ->
     (0 < v)%Q /\ (v <= 1)%Q
     /\ exists sk, sk ∈ IntentDetector.scenario_keywords /\ sk.1 = k
                   /\ keyword_occurs (Str.lower text) sk = true)
  /\ (IntentDetector.detect_intent text <> [] ->
      exists k v, (k, v) ∈ IntentDetector.detect_intent text /\ (v == 1)%Q)
  /\ (IntentDetector.detect_intent text = []
      <-> existsb (keyword_occurs (Str.lower text)) IntentDetector.scenario_keywords
          = false).
Proof. apply detect_intent_spec. Qed.

(** X24.  Routing on the detector's own scores: for a text the router's
    screen does not flag, the router falls back to the general flow exactly
    when no scenario keyword occurs in the lowered text; otherwise it picks
    the flow of a scenario, never falls back, and reports a confidence
    equal to 1. *)
Theorem routing_on_detected_intent (now : Z) (emotion_scores : list (string * Q))
  (text : string) :
  ScenarioRouter.is_crisis (ScenarioRouter.detect_crisis text) = false ->
  let route := ScenarioRouter.route_scenario now (IntentDetector.detect_intent text)
                 emotion_scores text in
  if existsb (keyword_occurs (Str.lower text)) IntentDetector.scenario_keywords then
    (fst route ∈ ScenarioRouter.scenario_to_flow.*2
     /\ dict_get "fallback_used" (snd route) = Some (VBool false)
     /\ exists score, dict_get "confidence" (snd route) = Some (VRat score)
                      /\ (score == 1)%Q)
  else
    (fst route = "general_anxiety_flow"
     /\ dict_get "fallback_used" (snd route) = Some (VBool true)).
Proof.
  intros Hcrisis. cbv zeta.
  destruct (detect_intent_spec text) as (Hentry & Htop & Hnil).
  unfold ScenarioRouter.route_scenario. rewrite Hcrisis.
  destruct (IntentDetector.detect_intent text) as [|first rest] eqn:Hscores.
  { destruct Hnil as [-> _]; done. }
  assert (Hex : existsb (keyword_occurs (Str.lower text)) IntentDetector.scenario_keywords
                = true).
  { destruct (existsb _ _); [done|]. by destruct Hnil as [_ ?%symmetry]; [|done]. }
  rewrite Hex.
  destruct (ScenarioRouter.top_entry first rest) as [top score] eqn:Htopentry.
  apply top_entry_max in Htopentry as [Hin Hall].
  destruct (Hentry top score Hin) as (_ & Hle1 & sk & Hsk & Hname & _).
  destruct (Htop ltac:(done)) as (k1 & v1 & Hin1 & Hv1).
  assert (Hscore : (score == 1)%Q).
  { apply Qle_antisym; [done|]. rewrite <- Hv1.
    rewrite Forall_forall in Hall. apply (Hall (k1, v1)), Hin1. }
  assert (Hmapped : exists mapped,
            ScenarioRouter.assoc top ScenarioRouter.scenario_to_flow = Some mapped
            /\ negb (String.eqb mapped "") = true).
  { assert (H : forallb (fun sk0 : string * (list string * list string) =>
                  match ScenarioRouter.assoc sk0.1 ScenarioRouter.scenario_to_flow with
                  | Some mapped => negb (String.eqb mapped "")
                  | None => false
                  end) IntentDetector.scenario_keywords = true) by (by vm_compute).
    apply list_elem_of_In in Hsk. eapply forallb_forall in H; [|exact Hsk].
    rewrite Hname in H. destruct (ScenarioRouter.assoc top _) as [mapped|]; [|done].
    by exists mapped. }
  destruct Hmapped as (mapped & Hmap & Hne). rewrite Hmap, Hne. cbn [fst snd].
  split; [by eapply assoc_value|]. split; [done|]. by exists score.
Qed.

Lemma routing_on_detected_intent_witness :
  let route := ScenarioRouter.route_scenario 0
                 (IntentDetector.detect_intent "I can't sleep before my exam")
                 [("fear", 6 # 10)] "I can't sleep before my exam" in
  if existsb (keyword_occurs (Str.lower "I can't sleep before my exam"))
       IntentDetector.scenario_keywords then
    (fst route ∈ ScenarioRouter.scenario_to_flow.*2
     /\ dict_get "fallback_used" (snd route) = Some (VBool false)
     /\ exists score, dict_get "confidence" (snd route) = Some (VRat score)
                      /\ (score == 1)%Q)
  else
    (fst route = "general_anxiety_flow"
     /\ dict_get "fallback_used" (snd route) = Some (VBool true)).
Proof.
  apply (routing_on_detected_intent 0 [("fear", 6 # 10)] "I can't sleep before my exam").
  vm_compute. reflexivity.
Defined.

(** ** The pipeline's flow-execution step *)

Section PipelineStep.

Import ClinicalFlowManager.

(** The router's metadata carries its screen's verdict. *)
Lemma route_crisis_flag now intent_scores emotion_scores text :
  get_truthy "crisis_detected"
    (ScenarioRouter.route_scenario now intent_scores emotion_scores text).2
  = ScenarioRouter.is_crisis (ScenarioRouter.detect_crisis text).
Proof.
  unfold ScenarioRouter.route_scenario.
  destruct (ScenarioRouter.is_crisis _); [done|].
  destruct intent_scores as [|first rest]; [done|].
  destruct (ScenarioRouter.top_entry first rest) as [top score].
  destruct (ScenarioRouter.assoc top ScenarioRouter.scenario_to_flow) as [mapped|]; [|done].
  by destruct (negb (String.eqb mapped "")).
Qed.

(** Without a crisis verdict the router names a registered flow. *)
Lemma route_registered now intent_scores emotion_scores text :
  ScenarioRouter.is_crisis (ScenarioRouter.detect_crisis text) = false ->
  (ScenarioRouter.route_scenario now intent_scores emotion_scores text).1
  ∈ registry_names.
Proof.
  intros Hc. unfold ScenarioRouter.route_scenario. rewrite Hc.
  assert (Hgen : "general_anxiety_flow" ∈ registry_names).
  { apply mem_string_elem. by vm_compute. }
  destruct intent_scores as [|first rest]; [done|].
  destruct (ScenarioRouter.top_entry first rest) as [top score].
  destruct (ScenarioRouter.assoc top ScenarioRouter.scenario_to_flow)
    as [mapped|] eqn:Hmap; [|done].
  destruct (negb (String.eqb mapped "")); [|done].
  cbn [fst]. apply assoc_value in Hmap.
  assert (Hsub : forall x, x ∈ ScenarioRouter.scenario_to_flow.*2 -> x ∈ registry_names).
  { apply forallb_mem_incl. by vm_compute. }
  by apply Hsub.
Qed.

(** The context the pipeline builds holds the raw text under "text". *)
Lemma pipeline_context_screen now user_text normalized_text intent_scores
  emotion_scores crisis context recs :
  BaseFlow.context_crisis
    (Some (Pipeline.clinical_context now user_text normalized_text intent_scores
             emotion_scores crisis context recs))
  = Some (CrisisDetector.detect_crisis_keywords user_text
          && negb (String.eqb user_text "")).
Proof.
  unfold BaseFlow.context_crisis, Pipeline.clinical_context, get_truthy.
  cbn [truthy length Nat.eqb negb andb dict_get_default dict_get String.eqb
       Ascii.eqb Bool.eqb default].
  destruct (String.eqb user_text ""); cbn [negb].
  - by rewrite andb_false_r.
  - by rewrite andb_true_r.
Qed.

End PipelineStep.

(** X25.  The flow-execution step of [process_message] honours both
    screens: when the detector flags the raw text or the router flags the
    normalised text, the reply is the manager's crisis reply with the three
    core contacts, the user is left without an active flow, other users'
    flows and the archive are unchanged.  Otherwise a user with a running
    flow continues it, and for a user without one the manager is asked to
    start a flow whose name is a registry key, with a context the manager's
    own start screen does not flag. *)
Theorem pipeline_step_honours_both_screens (now : Z)
  (user user_text normalized_text : string)
  (intent_scores emotion_scores : list (string * Q)) (context : option pydict)
  (recs : pyval) (m : ClinicalFlowManager.Manager) :
  let run := Pipeline.clinical_flow_execution now user user_text normalized_text
               intent_scores emotion_scores context recs m in
  if CrisisDetector.detect_crisis_keywords user_text
     || ScenarioRouter.is_crisis (ScenarioRouter.detect_crisis normalized_text)
  then
    exists r m',
      run = Some (r, m')
      /\ dict_get "flow_type" r = Some (VStr "crisis_override")
      /\ core_resources_listed r = true
      /\ ClinicalFlowManager.active_flows m' !! user = None
      /\ (forall u, u <> user ->
            ClinicalFlowManager.active_flows m' !! u
            = ClinicalFlowManager.active_flows m !! u)
      /\ ClinicalFlowManager.clinical_outcomes m'
         = ClinicalFlowManager.clinical_outcomes m
  else
    match ClinicalFlowManager.active_flows m !! user with
    | Some _ =>
        run = ClinicalFlowManager.process_clinical_response now user user_text m
    | None =>
        exists name ctx,
          name ∈ registry_names
          /\ dict_get "text" ctx = Some (VStr user_text)
          /\ BaseFlow.context_crisis (Some ctx) = Some false
          /\ run = ClinicalFlowManager.start_clinical_flow now user name (Some ctx) m
    end.
Proof.
  cbv zeta. unfold Pipeline.clinical_flow_execution.
  pose proof (route_crisis_flag now intent_scores emotion_scores normalized_text) as Hflag.
  pose proof (route_registered now intent_scores emotion_scores normalized_text) as Hreg.
  destruct (ScenarioRouter.route_scenario now intent_scores emotion_scores
              normalized_text) as [selected meta].
  cbn [fst snd] in Hflag, Hreg. rewrite Hflag.
  destruct (CrisisDetector.detect_crisis_keywords user_text
            || ScenarioRouter.is_crisis (ScenarioRouter.detect_crisis normalized_text))
    eqn:Hany.
  - eexists _, _. split; [reflexivity|].
    unfold ClinicalFlowManager.activate_crisis_override.
    cbn [fst snd ClinicalFlowManager.active_flows ClinicalFlowManager.clinical_outcomes
         ClinicalFlowManager.log_clinical_event ClinicalFlowManager.set_session_history
         ClinicalFlowManager.set_active_flows].
    split; [done|]. split.
    { unfold core_resources_listed, resource_listed.
      cbn [dict_get String.eqb Ascii.eqb Bool.eqb]. by rewrite !existsb_app. }
    split; [apply lookup_delete_eq|]. split; [|done].
    intros u Hu. by rewrite lookup_delete_ne.
  - apply orb_false_elim in Hany as [Hraw Hnorm].
    destruct (ClinicalFlowManager.active_flows m !! user); [done|].
    eexists selected, _. split; [by apply Hreg|]. split; [|split; [|reflexivity]].
    + done.
    + by rewrite pipeline_context_screen, Hraw.
Qed.

(** A raw text the detector passes, whose normalised form the router's
    screen flags, still ends the running flow of "u"; a plain first message
    of "v" starts the panic flow and leaves "u" alone. *)
Example pipeline_step_runs :
  let raw := "i feel hopeles" in
  let normalized := "i feel hopeless" in
  let plain := "my heart is racing" in
  (CrisisDetector.detect_crisis_keywords raw,
   ScenarioRouter.is_crisis (ScenarioRouter.detect_crisis normalized),
   (fun rm => (dict_get "flow_type" rm.1, active_step "u" rm.2)) <$>
     Pipeline.clinical_flow_execution 3 "u" raw normalized [] [] None VNone
       running_manager,
   (fun rm => (active_step "u" rm.2, active_step "v" rm.2)) <$>
     Pipeline.clinical_flow_execution 3 "v" plain plain [("panic", 1%Q)] [] None VNone
       running_manager)
  = (false, true,
     Some (Some (VStr "crisis_override"), None),
     Some (Some 2, Some 0)).
Proof. reflexivity. Qed.

(** X26.  Ending a session while a flow with a non-empty script is running
    archives exactly one record for the user: it names that flow, its
    completion rate lies in (0, 1], and the user is left without an active
    flow; other users keep their flows, and ending the session again
    changes nothing. *)
Theorem end_session_archives_running_flow (now later : Z) (user : string)
  (m : ClinicalFlowManager.Manager) (e : ClinicalFlowManager.FlowEntry) :
  ClinicalFlowManager.active_flows m !! user = Some e ->
  ClinicalFlowManager.steps_of (ClinicalFlowManager.flow_instance e) <> [] ->
  exists outcome rate m',
    Pipeline.end_user_session now user m = Some m'
    /\ outcomes_of user m' = outcomes_of user m ++ [VDict outcome]
    /\ dict_get "flow_name" outcome = Some (VStr (ClinicalFlowManager.flow_name e))
    /\ dict_get "completion_rate" outcome = Some (VRat rate)
    /\ (0 < rate)%Q /\ (rate <= 1)%Q
    /\ ClinicalFlowManager.active_flows m' !! user = None
    /\ (forall u, u <> user ->
          ClinicalFlowManager.active_flows m' !! u
          = ClinicalFlowManager.active_flows m !! u)
    /\ Pipeline.end_user_session later user m' = Some m'.
Proof.
  intros He Hsteps. unfold Pipeline.end_user_session at 1. rewrite He.
  unfold ClinicalFlowManager.complete_clinical_session. rewrite He.
  unfold ClinicalFlowManager.outcome_data, ClinicalFlowManager.session_completion_rate.
  set (cur := BaseFlow.current_step _).
  destruct (ClinicalFlowManager.steps_of (ClinicalFlowManager.flow_instance e))
    as [|st sts] eqn:Hs; [done|].
  set (total := length (st :: sts)).
  assert (Htotal : (0 < total)%nat) by (subst total; cbn; lia).
  replace (total =? 0) with false by (symmetry; apply Nat.eqb_neq; lia).
  cbn [mbind option_bind].
  eexists _, _, _. split; [reflexivity|].
  unfold outcomes_of.
  cbn [ClinicalFlowManager.active_flows ClinicalFlowManager.clinical_outcomes
       ClinicalFlowManager.log_clinical_event ClinicalFlowManager.set_session_history
       ClinicalFlowManager.set_active_flows ClinicalFlowManager.set_clinical_outcomes].
  rewrite lookup_insert_eq. split; [done|]. split; [done|]. split; [done|].
  assert (Hpos : Z.pos (Pos.of_nat total) = Z.of_nat total).
  { rewrite <- positive_nat_Z, Nat2Pos.id; lia. }
  split; [|split].
  - unfold Qlt. cbn [Qnum Qden]. lia.
  - unfold Qle. cbn [Qnum Qden]. rewrite Hpos. lia.
  - split; [apply lookup_delete_eq|]. split.
    + intros u Hu. by rewrite lookup_delete_ne.
    + unfold Pipeline.end_user_session.
      cbn [ClinicalFlowManager.active_flows ClinicalFlowManager.log_clinical_event
           ClinicalFlowManager.set_session_history ClinicalFlowManager.set_active_flows
           ClinicalFlowManager.set_clinical_outcomes].
      by rewrite lookup_delete_eq.
Qed.

Lemma end_session_archives_running_flow_witness :
  active_step "u" running_manager = Some 2
  /\ exists outcome rate m',
       Pipeline.end_user_session 5 "u" running_manager = Some m'
       /\ outcomes_of "u" m' = outcomes_of "u" running_manager ++ [VDict outcome]
       /\ dict_get "flow_name" outcome = Some (VStr "panic_flow")
       /\ dict_get "completion_rate" outcome = Some (VRat rate)
       /\ (0 < rate)%Q /\ (rate <= 1)%Q
       /\ ClinicalFlowManager.active_flows m' !! "u" = None
       /\ (forall u, u <> "u" ->
             ClinicalFlowManager.active_flows m' !! u
             = ClinicalFlowManager.active_flows running_manager !! u)
       /\ Pipeline.end_user_session 6 "u" m' = Some m'.
Proof.
  split; [reflexivity|].
  destruct (ClinicalFlowManager.active_flows running_manager !! "u") as [e|] eqn:He.
  - assert (Hname : ClinicalFlowManager.flow_name e = "panic_flow").
    { assert (H : ClinicalFlowManager.flow_name
                    <$> ClinicalFlowManager.active_flows running_manager !! "u"
                  = Some "panic_flow") by reflexivity.
      rewrite He in H. by injection H. }
    assert (Hsteps : ClinicalFlowManager.steps_of (ClinicalFlowManager.flow_instance e)
                     <> []).
    { assert (H : (fun e0 => length (ClinicalFlowManager.steps_of
                                       (ClinicalFlowManager.flow_instance e0)))
                    <$> ClinicalFlowManager.active_flows running_manager !! "u"
                  = Some 7) by reflexivity.
      rewrite He in H. injection H as H. intros Hnil. by rewrite Hnil in H. }
    rewrite <- Hname.
    exact (end_session_archives_running_flow 5 6 "u" running_manager e He Hsteps).
  - exfalso. assert (H : active_step "u" running_manager = Some 2) by reflexivity.
    unfold active_step in H. by rewrite He in H.
Defined.

(** ** Continuing a conversation through the pipeline *)

Section ContinueConversation.

Import ClinicalFlowManager.

(** The manager's crisis reply is complete, but holds neither a
    [step_info] nor a [flow_completed] key. *)
Lemma crisis_override_reply_keys now user text m :
  let reply := (activate_crisis_override now user text m).1 in
  complete_crisis_reply reply = true
  /\ is_Some (dict_get "message" reply)
  /\ dict_get "step_info" reply = None
  /\ get_truthy "flow_completed" reply = false.
Proof.
  cbv zeta. unfold activate_crisis_override. cbn [fst].
  split; [|by split; [eexists|]].
  unfold complete_crisis_reply, core_resources_listed, resource_listed, get_truthy.
  cbn [dict_get dict_get_default String.eqb Ascii.eqb Bool.eqb truthy andb orb is_str].
  by rewrite !existsb_app.
Qed.

(** After the override the status query finds no flow. *)
Lemma crisis_override_status now user text m :
  get_clinical_flow_status now user (activate_crisis_override now user text m).2
  = Some VNone.
Proof.
  unfold get_clinical_flow_status, activate_crisis_override.
  cbn [snd active_flows log_clinical_event set_session_history set_active_flows].
  by rewrite lookup_delete_eq.
Qed.

End ContinueConversation.

(** X27.  Through [continue_conversation], a text that matches a crisis
    pattern, sent by a user with an active flow, never brings back the
    manager's crisis reply.  The manager builds it, complete, and drops the
    flow; the pipeline then looks up [step_info], which that reply does not
    have, and answers with the error reply for [KeyError('step_info')]
    instead, whatever the collaborators do: a reply tagged
    [crisis_override] that is not a complete crisis reply. *)
Theorem continue_conversation_loses_crisis_reply
  (process_message : string -> string -> ClinicalFlowManager.Manager
                     -> pydict * option ClinicalFlowManager.Manager)
  (append_user_turn : string -> string -> pyval -> pyval -> pyval -> Z
                      -> Pipeline.call_result)
  (error_text : string) (now : Z) (user text : string)
  (m : ClinicalFlowManager.Manager) (e : ClinicalFlowManager.FlowEntry) :
  ClinicalFlowManager.active_flows m !! user = Some e ->
  CrisisDetector.detect_crisis_keywords text = true ->
  let override := ClinicalFlowManager.activate_crisis_override now user text m in
  let answer := Pipeline.continue_conversation process_message append_user_turn
                  error_text now user text m in
  answer = (Pipeline.handle_pipeline_error user text "'step_info'", Some override.2)
  /\ complete_crisis_reply override.1 = true
  /\ ClinicalFlowManager.active_flows override.2 !! user = None
  /\ exists reply,
       dict_get "clinical_response" answer.1 = Some (VDict reply)
       /\ dict_get "flow_type" reply = Some (VStr "crisis_override")
       /\ dict_get "crisis_resources" reply = None
       /\ complete_crisis_reply reply = false.
Proof.
  intros He Hcrisis. cbv zeta.
  destruct (crisis_override_reply_keys now user text m) as (Hfull & [msg Hmsg] & Hstep & Hdone).
  assert (Hanswer :
    Pipeline.continue_conversation process_message append_user_turn error_text
      now user text m
    = (Pipeline.handle_pipeline_error user text "'step_info'",
       Some (ClinicalFlowManager.activate_crisis_override now user text m).2)).
  { unfold Pipeline.continue_conversation. rewrite He.
    unfold ClinicalFlowManager.process_clinical_response. rewrite Hcrisis.
    destruct (ClinicalFlowManager.activate_crisis_override now user text m)
      as [reply m1] eqn:Hov.
    pose proof (crisis_override_status now user text m) as Hstatus.
    rewrite Hov in Hstatus. cbn [fst snd] in *.
    by rewrite Hstatus, Hmsg, Hstep. }
  rewrite Hanswer. split; [done|]. split; [done|]. split.
  { unfold ClinicalFlowManager.activate_crisis_override.
    cbn [snd ClinicalFlowManager.active_flows ClinicalFlowManager.log_clinical_event
         ClinicalFlowManager.set_session_history ClinicalFlowManager.set_active_flows].
    apply lookup_delete_eq. }
  cbn [fst]. unfold Pipeline.handle_pipeline_error. rewrite Hcrisis.
  eexists. split; [reflexivity|]. by repeat split.
Qed.

Lemma continue_conversation_loses_crisis_reply_witness :
  let silent := fun (_ _ : string) (m : ClinicalFlowManager.Manager) =>
                  (@nil (string * pyval), Some m) in
  let stored := fun (_ _ : string) (_ _ _ : pyval) (_ : Z) => Pipeline.Returned in
  let override := ClinicalFlowManager.activate_crisis_override 5 "u" "I want to die"
                    running_manager in
  let answer := Pipeline.continue_conversation silent stored "" 5 "u" "I want to die"
                  running_manager in
  active_step "u" running_manager = Some 2
  /\ answer = (Pipeline.handle_pipeline_error "u" "I want to die" "'step_info'",
               Some override.2)
  /\ complete_crisis_reply override.1 = true
  /\ ClinicalFlowManager.active_flows override.2 !! "u" = None
  /\ exists reply,
       dict_get "clinical_response" answer.1 = Some (VDict reply)
       /\ dict_get "flow_type" reply = Some (VStr "crisis_override")
       /\ dict_get "crisis_resources" reply = None
       /\ complete_crisis_reply reply = false.
Proof.
  cbv zeta. split; [reflexivity|].
  destruct (ClinicalFlowManager.active_flows running_manager !! "u") as [e|] eqn:He.
  - apply (continue_conversation_loses_crisis_reply _ _ "" 5 "u" "I want to die"
             running_manager e He).
    vm_compute. reflexivity.
  - exfalso. assert (H : active_step "u" running_manager = Some 2) by reflexivity.
    unfold active_step in H. by rewrite He in H.
Defined.
